(** * minimalistic-deploy: the action execution engine

    A shallow embedding of [minimalistic_deploy/host.py],
    [minimalistic_deploy/action.py], [minimalistic_deploy/main.py] ([work],
    the loaders, the log level), [minimalistic_deploy/utils.py]
    ([merge_dicts]) and [deploy/ssh_client.py] ([SSHClient]), followed by the
    properties of the engine: the run loop, the remote command builders, the
    template renderer, the expression evaluator and the action handlers.

    Python strings are [string]s: the model covers the strings whose
    characters are the code points below 256, one character each.  Python
    [int]s are [Z], dictionaries with string keys are [gmap string _].  A
    method that mutates [self], the action object, the log or the remote
    side is a computation in the monad [M] below: it threads the state and
    ends in a returned value, a raised exception or a loop that never
    exits. *)

From Stdlib Require Import ZArith Ascii String DecimalString Decimal Lia.
From stdpp Require Import gmap strings list fin_maps.

Set Warnings "-register-all".
Open Scope string_scope.
Open Scope Z_scope.

(** ** Python string primitives *)

Module Py.

(** [s.startswith(p)] *)
Fixpoint startswith (p s : string) : bool :=
  match p, s with
  | EmptyString, _ => true
  | String a p', String b s' => if Ascii.eqb a b then startswith p' s' else false
  | String _ _, EmptyString => false
  end.

(** [s.find(c)] for a one-character [c]: the index of the first occurrence,
    or [-1]. *)
Fixpoint find (c : ascii) (s : string) : Z :=
  match s with
  | EmptyString => -1
  | String a s' =>
      if Ascii.eqb a c then 0
      else let r := find c s' in if r <? 0 then -1 else r + 1
  end.

Definition len (s : string) : Z := Z.of_nat (String.length s).

(** One bound of a slice: a negative index counts from the end, and every
    index is clamped to [0 .. len]. *)
Definition clamp (n i : Z) : Z :=
  if i <? 0 then Z.max 0 (i + n) else Z.min i n.

(** [s[i:j]] *)
Definition slice (s : string) (i j : Z) : string :=
  let lo := clamp (len s) i in
  let hi := clamp (len s) j in
  String.substring (Z.to_nat lo) (Z.to_nat (hi - lo)) s.

(** [s.replace(old, new)] for a one-character [old]. *)
Fixpoint replace (old : ascii) (new : string) (s : string) : string :=
  match s with
  | EmptyString => EmptyString
  | String a s' =>
      if Ascii.eqb a old then new +:+ replace old new s'
      else String a (replace old new s')
  end.

(** [s.split(sep)] for a one-character [sep]: never empty. *)
Fixpoint split (sep : ascii) (s : string) : list string :=
  match s with
  | EmptyString => [EmptyString]
  | String a s' =>
      if Ascii.eqb a sep then EmptyString :: split sep s'
      else match split sep s' with
           | piece :: rest => String a piece :: rest
           | [] => [String a EmptyString]
           end
  end.

(** The characters below 256 for which [str.isspace] holds: the tab to the
    carriage return, the four separators before the space, the space, the
    next line (U+0085) and the no-break space (U+00A0). *)
Definition isspace (a : ascii) : bool :=
  let n := N.to_nat (N_of_ascii a) in
  (((9 <=? n) && (n <=? 13)) || ((28 <=? n) && (n <=? 32))
   || (n =? 133) || (n =? 160))%nat.

Fixpoint lstrip (s : string) : string :=
  match s with
  | String a s' => if isspace a then lstrip s' else s
  | EmptyString => EmptyString
  end.

Fixpoint rstrip (s : string) : string :=
  match s with
  | EmptyString => EmptyString
  | String a s' =>
      match rstrip s' with
      | EmptyString => if isspace a then EmptyString else String a EmptyString
      | r => String a r
      end
  end.

(** [s.strip()] *)
Definition strip (s : string) : string := rstrip (lstrip s).

(** [sep.join(l)] *)
Definition join (sep : string) (l : list string) : string := String.concat sep l.

(** ['%d' % z] *)
Definition fmt_d (z : Z) : string := NilZero.string_of_int (Z.to_int z).

(** [posixpath.join(a, b)] *)
Definition path_join (a b : string) : string :=
  if startswith "/" b then b
  else if String.eqb a "" then b
  else if String.eqb (slice a (-1) (len a)) "/" then a +:+ b
  else a +:+ "/" +:+ b.

End Py.

(** ** Values, exceptions, results *)

(** The values the engine handles: JSON scalars, and mappings with string
    keys (the stat record, the registry's entries). *)
Inductive Value : Type :=
| VNone
| VBool (b : bool)
| VInt (z : Z)
| VStr (s : string)
| VDict (d : gmap string Value).

(** Python truth value: [bool(v)]. *)
Definition truthy (v : Value) : bool :=
  match v with
  | VNone => false
  | VBool b => b
  | VInt z => negb (z =? 0)
  | VStr s => negb (String.eqb s "")
  | VDict d => negb (bool_decide (d = ∅))
  end.

(** The exception classes the engine raises, catches or lets through. *)
Inductive ExcClass : Type :=
| Exception_            (* raise Exception(...) *)
| CalledProcessError    (* subprocess.CalledProcessError *)
| UndefinedError        (* jinja2.exceptions.UndefinedError *)
| TemplateSyntaxError   (* jinja2.exceptions.TemplateSyntaxError *)
| IndexError
| KeyError
| AttributeError
| OtherError (name : string).

#[global] Instance ExcClass_eq_dec : EqDecision ExcClass.
Proof. solve_decision. Defined.

Record PyExc : Type := mkExc { exc_class : ExcClass; exc_msg : string }.

(** How a call ends: a value, an exception, or never (a [while True] that
    does not reach its [return]). *)
Inductive Res (A : Type) : Type :=
| Ret (a : A)
| Raise (e : PyExc)
| Hang.
Arguments Ret {A} a.
Arguments Raise {A} e.
Arguments Hang {A}.

(** ** Data model *)

(** [action.py]: the [Action] dataclass. *)
Module Action.
Record t : Type := mk {
  title : string;
  type : string;
  become : bool;
  become_user : string;
  timeout : Z;
  wrap_bash : bool;
  when : string;
  register : string;
  items : list string;
  extra : gmap string Value
}.

(** [Action()] with every field at its default. *)
Definition default : t :=
  {| title := ""; type := ""; become := false; become_user := ""; timeout := 0;
     wrap_bash := true; when := ""; register := ""; items := []; extra := ∅ |}.

(** [action.wrap_bash = b] *)
Definition set_wrap_bash (b : bool) (a : t) : t :=
  {| title := title a; type := type a; become := become a;
     become_user := become_user a; timeout := timeout a; wrap_bash := b;
     when := when a; register := register a; items := items a; extra := extra a |}.

(** [repr(action)]: [__repr__] calls [json.dumps], and [action.py] imports
    [dataclasses] and [typing] only, so the name [json] is not bound. *)
Definition __repr__ (a : t) : PyExc + string :=
  inl (mkExc (OtherError "NameError") "name 'json' is not defined").

(** [bool(getattr(action, p))] when [p] names one of the ten fields; [None]
    when it names none of them, and [getattr] looks [p] up in the class. *)
Definition attr_truthy (a : t) (p : string) : option bool :=
  if String.eqb p "title" then Some (negb (String.eqb (title a) ""))
  else if String.eqb p "type" then Some (negb (String.eqb (type a) ""))
  else if String.eqb p "become" then Some (become a)
  else if String.eqb p "become_user" then Some (negb (String.eqb (become_user a) ""))
  else if String.eqb p "timeout" then Some (negb (timeout a =? 0))
  else if String.eqb p "wrap_bash" then Some (wrap_bash a)
  else if String.eqb p "when" then Some (negb (String.eqb (when a) ""))
  else if String.eqb p "register" then Some (negb (String.eqb (register a) ""))
  else if String.eqb p "items" then Some (match items a with [] => false | _ => true end)
  else if String.eqb p "extra" then Some (negb (bool_decide (extra a = ∅)))
  else None.
End Action.

(** [host.py]: the fields of the [Host] dataclass, and the three attributes
    [run_action] stores on the instance. *)
Module HostData.
Record t : Type := mk {
  name : string;
  address : string;
  files_foldername : string;
  context : gmap string Value;
  ssh_user : string;
  errors : Z;
  results : gmap string Value;
  dry_run : bool;
  extra_debug : bool;
  colorize : bool
}.

(** [self.results[k] = v] *)
Definition set_result (k : string) (v : Value) (h : t) : t :=
  {| name := name h; address := address h; files_foldername := files_foldername h;
     context := context h; ssh_user := ssh_user h; errors := errors h;
     results := <[k := v]> (results h);
     dry_run := dry_run h; extra_debug := extra_debug h; colorize := colorize h |}.

(** [self.dry_run = d; self.extra_debug = x; self.colorize = c] *)
Definition set_flags (d x c : bool) (h : t) : t :=
  {| name := name h; address := address h; files_foldername := files_foldername h;
     context := context h; ssh_user := ssh_user h; errors := errors h;
     results := results h; dry_run := d; extra_debug := x; colorize := c |}.

(** [host.errors += 1] *)
Definition incr_errors (h : t) : t :=
  {| name := name h; address := address h; files_foldername := files_foldername h;
     context := context h; ssh_user := ssh_user h; errors := errors h + 1;
     results := results h;
     dry_run := dry_run h; extra_debug := extra_debug h; colorize := colorize h |}.
End HostData.

(** [utils.merge_dicts]: on a key collision the second mapping wins. *)
Definition merge_dicts {V} (d1 d2 : gmap string V) : gmap string V := d2 ∪ d1.

(** What reaches the logger.  The separator lines of [run_action] and the
    dump of the host it writes under [extra_debug] are left out. *)
Inductive Event : Type :=
| EvBanner (host action : string)   (* run_action: '--> "%s": %s ...' *)
| EvMessage (text : string)         (* log_message: one line *)
| EvMarkup (text : string)          (* log_message: a rich Text, markup on *)
| EvRemote (command : string)       (* SSHClient._log: the command line *)
| EvOutput (text : string)          (* SSHClient._log: the captured output *)
| EvFound (dir : bool) (path : string) (found : bool) (* check_remote_path_exists *)
| EvError (e : PyExc)               (* work: logger.error(e) *)
| EvTraceback (e : PyExc).          (* work: logger.error(traceback.format_exc()) *)

(** The local variables of [evaluate_expression], which the text handed to
    Python's [eval] can name. *)
Record Scope : Type := mkScope {
  sc_self : HostData.t;
  sc_expression : string;
  sc_action : option Action.t;
  sc_text : string;
  sc_brace_opener : Z;
  sc_brace_closer : Z;
  sc_inner_text : string
}.

(** ** The collaborators outside the repository

    Jinja2, Python's [eval] and [str], the subprocess that runs ssh or rsync
    and the local file system are not part of the engine.  [patience] is the
    number of passes of a [while True] loop that are followed before the call
    is reported as [Hang]. *)
Class Externals : Type := {
  World : Type;
(** [subprocess.check_output(cmd, shell=True, ...)]: the output, or the
    output carried by [CalledProcessError]. *)
check_output : string -> World -> (string + string) * World;
(** [os.path.isfile] *)
isfile : string -> World -> bool;
(** One pass: [jinja2.Template(tpl, undefined=StrictUndefined)] rendered
    with the mapping as keyword arguments. *)
jinja_render : string -> gmap string Value -> PyExc + string;
(** [eval(text)] inside [evaluate_expression]; evaluation reads the scope
    and has no effect of its own. *)
py_eval : Scope -> string -> PyExc + Value;
(** [str(d)] for a mapping *)
str_dict : gmap string Value -> string;
(** [bool(getattr(action, p))] for a name [p] that is no field of [Action]:
    the attributes the dataclass has from Python ([__class__], [__str__],
    [__hash__], ...); [None] when there is none and [getattr] raises. *)
class_attr : string -> option bool;
patience : nat
}.

(** [str(v)], also ['%s' % v] and [f'{v}']. *)
Definition py_str `{Externals} (v : Value) : string :=
  match v with
  | VNone => "None"
  | VBool true => "True"
  | VBool false => "False"
  | VInt z => Py.fmt_d z
  | VStr s => s
  | VDict d => str_dict d
  end.

(** ** State and effects *)

Record State `{Externals} : Type := mkState {
  st_host : HostData.t;     (* self *)
  st_action : Action.t;     (* the action object handed to run_action *)
  st_world : World;
  st_log : list Event
}.

Definition M `{Externals} (A : Type) : Type := State -> Res A * State.

Section Monad.
Context `{Externals}.

Definition ret {A} (a : A) : M A := fun st => (Ret a, st).
Definition raise {A} (e : PyExc) : M A := fun st => (Raise e, st).
Definition bind {A B} (m : M A) (k : A -> M B) : M B :=
  fun st =>
    match m st with
    | (Ret a, st') => k a st'
    | (Raise e, st') => (Raise e, st')
    | (Hang, st') => (Hang, st')
    end.
Definition lift {A} (r : Res A) : M A := fun st => (r, st).
Definition lift_sum {A} (r : PyExc + A) : M A :=
  fun st => (match r with inl e => Raise e | inr a => Ret a end, st).

Definition get_self : M HostData.t := fun st => (Ret (st_host st), st).
Definition modify_self (f : HostData.t -> HostData.t) : M unit :=
  fun st => (Ret tt, {| st_host := f (st_host st); st_action := st_action st;
                        st_world := st_world st; st_log := st_log st |}).
Definition modify_action (f : Action.t -> Action.t) : M unit :=
  fun st => (Ret tt, {| st_host := st_host st; st_action := f (st_action st);
                        st_world := st_world st; st_log := st_log st |}).
Definition log (ev : Event) : M unit :=
  fun st => (Ret tt, {| st_host := st_host st; st_action := st_action st;
                        st_world := st_world st; st_log := st_log st ++ [ev] |}).
Definition get_world : M World := fun st => (Ret (st_world st), st).
Definition put_world (w : World) : M unit :=
  fun st => (Ret tt, {| st_host := st_host st; st_action := st_action st;
                        st_world := w; st_log := st_log st |}).

(** [try: body / except cls: handler] *)
Definition try_except {A} (body : M A) (cls : ExcClass) (handler : M A) : M A :=
  fun st =>
    match body st with
    | (Raise e, st') =>
        if bool_decide (exc_class e = cls) then handler st' else (Raise e, st')
    | r => r
    end.

(** [for x in l: body(x)] *)
Fixpoint for_each {A} (l : list A) (body : A -> M unit) : M unit :=
  match l with
  | [] => ret tt
  | x :: l' => bind (body x) (fun _ => for_each l' body)
  end.
End Monad.

Notation "x <- c1 ;; c2" := (bind c1 (fun x => c2))
  (at level 100, c1 at next level, right associativity).
Notation "c1 ;;; c2" := (bind c1 (fun _ => c2))
  (at level 100, right associativity).

(** ** Template rendering: the loop shared by both [render_string] methods *)

(** The double quote, as a character and as a one-character string. *)
Definition dq : ascii := "034"%char.
Definition dquote : string := String dq EmptyString.

Section Render.
Context `{Externals}.

(** [recursive_render(tpl, values)], the nested function of
    [Host.render_string] and of [SSHClient.render_string]:
<<
    prev = tpl
    while True:
        curr = jinja2.Template(prev, undefined=jinja2.StrictUndefined).render(...)
        if curr != prev: prev = curr
        else: return curr
>>
    followed for [n] passes. *)
Fixpoint recursive_render (n : nat) (prev : string) (values : gmap string Value)
  : Res string :=
  match n with
  | O => Hang
  | S n' =>
      match jinja_render prev values with
      | inl e => Raise e
      | inr curr =>
          if negb (String.eqb curr prev) then recursive_render n' curr values
          else Ret curr
      end
  end.
End Render.

(** ** [deploy/ssh_client.py]: [SSHClient]

    [host.py] imports the class from the [ssh_client] module of its own
    package; the module of that name among the sources is the one of the
    [deploy] directory, next to [deploy_utils.py], and it is the one embedded
    here.  Its [exec_command] takes the keywords [Host.run_ssh] passes.  Its
    [exec_rsync] does not take the [as_template] that [Host.run_rsync]
    passes: the method [run_rsync] calls is the package's own, and it stands
    in [PackageSSHClient] below. *)

(** The [command] argument of [exec_command]: a string or a list of strings. *)
Inductive Command : Type :=
| CmdStr (s : string)
| CmdList (l : list string).

Module SSHClient.
Record t : Type := mk {
  host : string;
  ssh_user : string;
  ssh_options : string;
  rsync_options : string;
  timeout : Z;
  verbose : bool;
  dry_run : bool;
  colorize : bool;
  render_context : gmap string Value
}.

Section Methods.
Context `{Externals}.

Definition render_string (self : t) (string : String.string) : Res String.string :=
  if bool_decide (render_context self = ∅) then Ret string
  else recursive_render patience string (render_context self).

Definition _remote_address (self : t) : string :=
  let text := EmptyString in
  let text := if negb (String.eqb (ssh_user self) "") then text +:+ ssh_user self +:+ "@"
              else text in
  text +:+ host self.

(** The [subprocess.check_output] call with its [except] clause, which
    re-raises. *)
Definition run_subprocess (remote_command : string) : M string :=
  fun st =>
    let '(r, w) := check_output remote_command (st_world st) in
    let st' := {| st_host := st_host st; st_action := st_action st;
                  st_world := w; st_log := st_log st |} in
    match r with
    | inl out => (Ret out, st')
    | inr out => (Raise (mkExc CalledProcessError out), st')
    end.

Definition _run_remote_command (self : t) (remote_command : string) : M string :=
  remote_command <- lift (render_string self remote_command) ;;
  log (EvRemote remote_command) ;;;
  result <- (if negb (dry_run self) then run_subprocess remote_command
             else ret EmptyString) ;;
  log (EvOutput result) ;;;
  ret result.

(** The local [inner_command] of [exec_command], up to and including the
    escaping of its double quotes. *)
Definition inner_command (command : Command) (become : bool) (become_user : string)
    (wrap_bash : bool) : string :=
  let inner_command :=
    match command with
    | CmdList l => Py.join " && " l
    | CmdStr s => s
    end in
  let inner_command :=
    if wrap_bash then "/bin/bash -c " +:+ dquote +:+ "cd && " +:+ inner_command +:+ dquote
    else inner_command in
  let inner_command :=
    if become then
      let prefix := "sudo -H --non-interactive " in
      let prefix := if negb (String.eqb become_user "")
                    then prefix +:+ "-u " +:+ become_user +:+ " " else prefix in
      prefix +:+ inner_command
    else inner_command in
  Py.replace dq ("\" +:+ dquote) inner_command.

(** The local [remote_command] of [exec_command]: the whole ssh statement. *)
Definition remote_command (self : t) (command : Command) (become : bool)
    (become_user : string) (wrap_bash : bool) : string :=
  let inner_command := inner_command command become become_user wrap_bash in
  let remote_command := "ssh " in
  let remote_command :=
    if negb (String.eqb (ssh_options self) "")
    then remote_command +:+ ssh_options self +:+ " " else remote_command in
  let remote_command :=
    if negb (timeout self =? 0)
    then remote_command +:+ "-o ConnectTimeout=" +:+ Py.fmt_d (timeout self) +:+ " "
    else remote_command in
  let remote_command := remote_command +:+ _remote_address self in
  remote_command +:+ " " +:+ dquote +:+ inner_command +:+ dquote.

Definition exec_command (self : t) (command : Command) (become : bool)
    (become_user : string) (wrap_bash : bool) : M string :=
  _run_remote_command self (remote_command self command become become_user wrap_bash).

(** The local [remote_command] of [exec_rsync]: the whole rsync statement.
    [mode], [owner], [group] and [destination] arrive as the values found
    in [action.extra]. *)
Definition rsync_command (self : t) (source : string) (destination : Value)
    (become : bool) (become_user : string) (ignore_existing : bool)
    (mode owner group : Value) : string :=
  let remote_command := "rsync -avz --progress " in
  let remote_command :=
    if negb (timeout self =? 0)
    then remote_command +:+ "--timeout=" +:+ Py.fmt_d (timeout self) +:+ " "
    else remote_command in
  let remote_command :=
    if ignore_existing then remote_command +:+ "--ignore-existing " else remote_command in
  let remote_command :=
    if truthy mode
    then remote_command +:+ "--chmod=" +:+ dquote +:+ py_str mode +:+ dquote +:+ " "
    else remote_command in
  let chown := py_str owner +:+ ":" +:+ py_str group in
  let remote_command :=
    if 1 <? Py.len chown
    then remote_command +:+ "--chown=" +:+ dquote +:+ chown +:+ dquote +:+ " "
    else remote_command in
  let remote_command :=
    if become
    then remote_command +:+ "--rsync-path=" +:+ dquote +:+ "sudo -u "
         +:+ (if negb (String.eqb become_user "") then become_user else "root")
         +:+ " rsync" +:+ dquote +:+ " "
    else remote_command in
  let remote_command :=
    if negb (String.eqb (rsync_options self) "")
    then remote_command +:+ rsync_options self +:+ " " else remote_command in
  let remote_command := remote_command +:+ dquote +:+ source +:+ dquote +:+ " " in
  remote_command +:+ dquote +:+ _remote_address self +:+ ":" +:+ py_str destination
    +:+ dquote +:+ " ".

Definition exec_rsync (self : t) (source : string) (destination : Value)
    (become : bool) (become_user : string) (ignore_existing : bool)
    (mode owner group : Value) : M string :=
  _run_remote_command self
    (rsync_command self source destination become become_user ignore_existing
       mode owner group).
End Methods.
End SSHClient.

(** ** [minimalistic_deploy/ssh_client.py]: the [exec_rsync] of the package *)

Module PackageSSHClient.
Section Methods.
Context `{Externals}.

(** Modelled from the spec: the [exec_rsync] of
    [minimalistic_deploy/ssh_client.py], the module [host.py] imports
    [SSHClient] from, which is missing from the sources; only its call in
    [Host.run_rsync] is there, with its nine keywords.  The spec describes
    the transfer builder: compression, archive and progress flags, optional
    timeout, optional skip-existing flag, optional permission and ownership
    override flags, optional privilege-elevation wrapper applied to the
    remote side of the transfer, then the positional source and
    user@host:destination.  That is the line [SSHClient.rsync_command]
    builds, and the line goes to the transport as every remote command does.
    The spec has no word on [as_template]: the keyword is taken, and the
    definition stands for the calls in which it is falsy.  For a truthy one
    it gives the same line, which need not be what the missing method does;
    the properties of the transfer below leave those calls out. *)
Definition exec_rsync (self : SSHClient.t) (source : string) (destination : Value)
    (become : bool) (become_user : string) (ignore_existing : bool)
    (mode owner group as_template : Value) : M string :=
  SSHClient._run_remote_command self
    (SSHClient.rsync_command self source destination become become_user
       ignore_existing mode owner group).
End Methods.
End PackageSSHClient.

(** ** [host.py]: the methods of [Host] *)

Module Host.
Import HostData.

Section Methods.
Context `{Externals}.

(** [self.results[k] = VStr result] when the action declares a register. *)
Definition register_result (action : Action.t) (result : string) : M unit :=
  if negb (String.eqb (Action.register action) "")
  then modify_self (set_result (Action.register action) (VStr result))
  else ret tt.

Definition client (self : HostData.t) (action : Action.t) (silent : bool) : SSHClient.t :=
  {| SSHClient.host := address self;
     SSHClient.ssh_user := ssh_user self;
     SSHClient.ssh_options := EmptyString;
     SSHClient.rsync_options := EmptyString;
     SSHClient.verbose := negb silent;
     SSHClient.dry_run := dry_run self;
     SSHClient.timeout := Action.timeout action;
     SSHClient.colorize := colorize self;
     SSHClient.render_context := context self |}.

Definition run_ssh (action : Action.t) (command : string) (silent : bool) : M string :=
  self <- get_self ;;
  result <- SSHClient.exec_command (client self action silent) (CmdStr command)
              (Action.become action) (Action.become_user action)
              (Action.wrap_bash action) ;;
  register_result action result ;;;
  ret result.

(** [action.extra.get(k, default)] *)
Definition extra_get (action : Action.t) (k : string) (default : Value) : Value :=
  match Action.extra action !! k with
  | Some v => v
  | None => default
  end.

(** The call goes to the [exec_rsync] of the package's own [SSHClient], with
    [as_template] read from [extra.template]. *)
Definition run_rsync (action : Action.t) (source : string) (destination : Value)
    (silent : bool) : M string :=
  self <- get_self ;;
  result <- PackageSSHClient.exec_rsync (client self action silent) source destination
              (Action.become action) (Action.become_user action)
              (negb (truthy (extra_get action "force" (VBool false))))
              (extra_get action "mode" (VStr EmptyString))
              (extra_get action "owner" (VStr EmptyString))
              (extra_get action "group" (VStr EmptyString))
              (extra_get action "template" (VBool false)) ;;
  register_result action result ;;;
  ret result.

Definition render_string (string : String.string) : M String.string :=
  self <- get_self ;;
  lift (recursive_render patience string (context self)).

Definition test_command (dir : bool) (path : Value) : string :=
  "test -" +:+ (if dir then "d" else "e") +:+ " " +:+ dquote +:+ py_str path +:+ dquote.

Definition check_remote_path_exists (path : Value) (dir : bool)
    (action : option Action.t) : M bool :=
  self <- get_self ;;
  if dry_run self then ret false
  else
    let command := test_command dir path in
    result <- try_except
                (match action with
                 | None =>
                     raise (mkExc AttributeError
                              "'NoneType' object has no attribute 'become'")
                 | Some action =>
                     let fake_action :=
                       {| Action.title := EmptyString; Action.type := EmptyString;
                          Action.become := Action.become action;
                          Action.become_user := Action.become_user action;
                          Action.timeout := 0; Action.wrap_bash := true;
                          Action.when := EmptyString; Action.register := EmptyString;
                          Action.items := []; Action.extra := ∅ |} in
                     run_ssh fake_action command true ;;;
                     ret true
                 end)
                CalledProcessError
                (ret false) ;;
    log (EvFound dir (py_str path) result) ;;;
    ret result.

Definition evaluate_expression (expression : string) (action : option Action.t)
  : M Value :=
  text <- render_string expression ;;
  self <- get_self ;;
  let brace_opener := Py.find "(" text + 1 in
  let brace_closer := Py.find ")" text in
  let inner_text := Py.slice text brace_opener brace_closer in
  let scope := {| sc_self := self; sc_expression := expression; sc_action := action;
                  sc_text := text; sc_brace_opener := brace_opener;
                  sc_brace_closer := brace_closer; sc_inner_text := inner_text |} in
  if Py.startswith "results[" text then
    lift_sum (py_eval scope ("self." +:+ text))
  else if Py.startswith "eval(" text then
    lift_sum (py_eval scope inner_text)
  else if Py.startswith "not_exists_dir(" text then
    path <- lift_sum (py_eval scope inner_text) ;;
    found <- check_remote_path_exists path true action ;;
    ret (VBool (negb found))
  else if Py.startswith "exists_dir(" text then
    path <- lift_sum (py_eval scope inner_text) ;;
    found <- check_remote_path_exists path true action ;;
    ret (VBool found)
  else if Py.startswith "not_exists_file(" text then
    path <- lift_sum (py_eval scope inner_text) ;;
    found <- check_remote_path_exists path false action ;;
    ret (VBool (negb found))
  else if Py.startswith "exists_file(" text then
    path <- lift_sum (py_eval scope inner_text) ;;
    found <- check_remote_path_exists path false action ;;
    ret (VBool found)
  else
    ret (VStr text).

(** The branch on [self.colorize] imports [rich.text]; the flag is set by
    [work] only when the [rich] module could be imported. *)
Definition log_message (lines : list string) : M unit :=
  for_each lines (fun line =>
    v <- evaluate_expression line None ;;
    let text := Py.strip (py_str v) in
    self <- get_self ;;
    if colorize self then
      let message := "[yellow]" +:+ text +:+ "[/yellow]" in
      log (EvMarkup message)
    else log (EvMessage text)).

Definition execute_mkdirs (action : Action.t) : M unit :=
  let command := "mkdir -p " in
  let command :=
    match Action.extra action !! "mode" with
    | Some mode => command +:+ "-m " +:+ py_str mode +:+ " "
    | None => command
    end in
  rendered <- render_string (Py.join " " (Action.items action)) ;;
  run_ssh action (command +:+ rendered) false ;;;
  ret tt.

(** [bool(getattr(action, p))]: a field of the instance, or else an
    attribute of the class; [None] when [getattr] raises. *)
Definition getattr_truthy (action : Action.t) (p : string) : option bool :=
  match Action.attr_truthy action p with
  | Some b => Some b
  | None => class_attr p
  end.

Definition check_required_action_params (action : Action.t) (params : list string)
  : M unit :=
  for_each params (fun p =>
    match getattr_truthy action p with
    | None => raise (mkExc AttributeError
                       ("'Action' object has no attribute '" +:+ p +:+ "'"))
    | Some true => ret tt
    | Some false =>
        raise (mkExc Exception_ ("Missing attribute " +:+ dquote +:+ p +:+ dquote))
    end).

Definition check_required_action_extra_params (action : Action.t)
    (params : list string) : M unit :=
  for_each params (fun p =>
    match Action.extra action !! p with
    | Some _ => ret tt
    | None =>
        raise (mkExc Exception_
                 ("Missing attribute extra[" +:+ dquote +:+ p +:+ dquote +:+ "]"))
    end).

(** [action.extra[k]] *)
Definition extra_item (action : Action.t) (k : string) : M Value :=
  match Action.extra action !! k with
  | Some v => ret v
  | None => raise (mkExc KeyError k)
  end.

(** ['|'.join([c+':%'+c for c in 'aAFgGinNsuUXYZ'])] *)
Definition stat_fields : list string :=
  ["a"; "A"; "F"; "g"; "G"; "i"; "n"; "N"; "s"; "u"; "U"; "X"; "Y"; "Z"].
Definition stat_format : string :=
  Py.join "|" (map (fun c => c +:+ ":%" +:+ c) stat_fields).

Definition stat_command (path : Value) : string :=
  "stat --format=" +:+ dquote +:+ stat_format +:+ dquote +:+ " "
    +:+ dquote +:+ py_str path +:+ dquote.

(** The dictionary comprehension
    [{t.split(':')[0]: t.split(':')[1].strip() for t in response.split('|')}],
    one piece at a time. *)
Fixpoint parse_fields (ts : list string) (acc : gmap string Value)
  : PyExc + gmap string Value :=
  match ts with
  | [] => inr acc
  | t :: ts' =>
      match Py.split ":" t with
      | k :: v :: _ => parse_fields ts' (<[k := VStr (Py.strip v)]> acc)
      | _ => inl (mkExc IndexError "list index out of range")
      end
  end.

Definition parse_response (response : string) : PyExc + gmap string Value :=
  parse_fields (Py.split "|" response) ∅.

Definition execute_stat (action : Action.t) (dir : bool) : M unit :=
  check_required_action_params action ["register"] ;;;
  check_required_action_extra_params action ["path"] ;;;
  modify_action (Action.set_wrap_bash false) ;;;
  let action := Action.set_wrap_bash false action in
  path <- extra_item action "path" ;;
  let command := test_command dir path in
  result <- try_except
              (run_ssh action command true ;;;
               let command := stat_command path in
               response <- run_ssh action command false ;;
               parsed_response <- lift_sum (parse_response response) ;;
               ret (merge_dicts {[ "exists" := VBool true ]} parsed_response))
              CalledProcessError
              (ret {[ "exists" := VBool false ]}) ;;
  modify_self (set_result (Action.register action) (VDict result)).

Definition execute_copy (action : Action.t) : M unit :=
  check_required_action_extra_params action ["destination"] ;;;
  destination <- extra_item action "destination" ;;
  for_each (Action.items action) (fun item =>
    self <- get_self ;;
    let source := Py.path_join (files_foldername self) item in
    w <- get_world ;;
    if negb (isfile source w) then
      raise (mkExc Exception_
               ("File " +:+ dquote +:+ source +:+ dquote +:+ " not found"))
    else
      run_rsync action source destination false ;;;
      ret tt).

(** The [command] branch of [run_action]. *)
Definition execute_command (action : Action.t) : M unit :=
  let chdir := extra_get action "chdir" (VStr EmptyString) in
  for_each (Action.items action) (fun item =>
    if negb (Py.startswith "#" item) then
      let command := item in
      let command :=
        if truthy chdir then "cd " +:+ py_str chdir +:+ " && " +:+ command
        else command in
      run_ssh action command false ;;;
      ret tt
    else ret tt).

(** The [else] branch of [if skip] in [run_action]: the routing on
    [action.type]. *)
Definition dispatch (action : Action.t) : M unit :=
  if String.eqb (Action.type action) "command" then execute_command action
  else if String.eqb (Action.type action) "mkdirs" then execute_mkdirs action
  else if String.eqb (Action.type action) "message" then log_message (Action.items action)
  else if String.eqb (Action.type action) "stat_dir" then execute_stat action true
  else if String.eqb (Action.type action) "stat_file" then execute_stat action false
  else if String.eqb (Action.type action) "copy" then execute_copy action
  else raise (mkExc Exception_
                ("Unknown action type " +:+ dquote +:+ Action.type action +:+ dquote)).

(** The guard of [run_action]: the value of [skip]. *)
Definition guard (action : Action.t) : M bool :=
  if negb (String.eqb (Action.when action) "") then
    let expression := Action.when action in
    result <- evaluate_expression expression (Some action) ;;
    if negb (truthy result) then ret true else ret false
  else ret false.

(** The dump of [run_action] under [extra_debug]:
    [logger.debug(repr(self)); logger.debug(repr(action))].  The first line
    is not part of the log kept here; the argument of the second is
    evaluated before anything is written. *)
Definition dump (action : Action.t) : M unit :=
  lift_sum (Action.__repr__ action) ;;;
  ret tt.

Definition run_action (action : Action.t) (dry_run extra_debug colorize : bool)
  : M unit :=
  modify_self (set_flags dry_run extra_debug colorize) ;;;
  self <- get_self ;;
  log (EvBanner (name self) (Action.title action)) ;;;
  (if HostData.extra_debug self then dump action else ret tt) ;;;
  skip <- guard action ;;
  if skip then log_message ["skipped"]
  else dispatch action.
End Methods.
End Host.

(** ** [main.py]: the run loop of [work] *)

(** The command-line flags [work] reads. *)
Record Args : Type := mkArgs {
  args_dry_run : bool;
  args_extra_debug : bool;
  args_no_colors : bool;
  args_traceback : bool
}.

(** What the loops of [work] carry from one iteration to the next: the host
    objects, the remote side and the log. *)
Record Run `{Externals} : Type := mkRun {
  run_hosts : list HostData.t;
  run_world : World;
  run_log : list Event
}.

Section Work.
Context `{Externals}.
(** Whether the optional [rich] module could be imported. *)
Variable rich : bool.
Variable args : Args.

(** The body of the inner loop for one host:
<<
    if host.errors <= 0:
        try: host.run_action(action, ...)
        except Exception as e:
            host.errors += 1
            logger.error(e)
            if args.traceback: logger.error(traceback.format_exc())
>>
    [None] when [run_action] never returns. *)
Definition work_host (action : Action.t) (host : HostData.t) (w : World)
    (lg : list Event) : option State :=
  if HostData.errors host <=? 0 then
    match Host.run_action action (args_dry_run args) (args_extra_debug args)
            (rich && negb (args_no_colors args))
            {| st_host := host; st_action := action; st_world := w; st_log := lg |} with
    | (Ret _, st) => Some st
    | (Raise e, st) =>
        Some {| st_host := HostData.incr_errors (st_host st);
                st_action := st_action st;
                st_world := st_world st;
                st_log := st_log st ++ [EvError e]
                            ++ (if args_traceback args then [EvTraceback e] else []) |}
    | (Hang, _) => None
    end
  else Some {| st_host := host; st_action := action; st_world := w; st_log := lg |}.

(** [for host in hosts: ...] for one action object, which every host
    receives as the previous one left it. *)
Fixpoint work_hosts (action : Action.t) (hosts : list HostData.t) (w : World)
    (lg : list Event) : option (Action.t * Run) :=
  match hosts with
  | [] => Some (action, {| run_hosts := []; run_world := w; run_log := lg |})
  | host :: rest =>
      match work_host action host w lg with
      | None => None
      | Some st =>
          match work_hosts (st_action st) rest (st_world st) (st_log st) with
          | None => None
          | Some (action', r) =>
              Some (action', {| run_hosts := st_host st :: run_hosts r;
                                run_world := run_world r; run_log := run_log r |})
          end
      end
  end.

(** [for action in actions: for host in hosts: ...], after the three
    [load_*] calls.  Returns the action objects as the run left them. *)
Fixpoint work (actions : list Action.t) (r : Run) : option (list Action.t * Run) :=
  match actions with
  | [] => Some ([], r)
  | action :: rest =>
      match work_hosts action (run_hosts r) (run_world r) (run_log r) with
      | None => None
      | Some (action', r') =>
          match work rest r' with
          | None => None
          | Some (rest', r'') => Some (action' :: rest', r'')
          end
      end
  end.
End Work.

(** ** A concrete set of collaborators

    Jinja2 and Python's [eval] are modelled on the fragment the deployment
    files use, so that runs of the engine can be computed.  Outside its
    fragment a model says nothing about the real library. *)

(** Jinja2 on templates made of text and placeholders [{{ name }}] whose name
    is looked up in the mapping and nowhere else.  The answer is [None] for a
    template or a mapping outside this fragment. *)
Module MiniJinja.

Definition LF : ascii := "010"%char.
Definition CR : ascii := "013"%char.

(** The lexer first turns every newline sequence into a line feed ... *)
Fixpoint normalize_newlines (s : string) : string :=
  match s with
  | EmptyString => EmptyString
  | String c s1 =>
      if Ascii.eqb c CR then
        match s1 with
        | String c2 s2 =>
            if Ascii.eqb c2 LF then String LF (normalize_newlines s2)
            else String LF (normalize_newlines s1)
        | EmptyString => String LF EmptyString
        end
      else String c (normalize_newlines s1)
  end.

(** ... and drops one trailing newline ([keep_trailing_newline] is off). *)
Fixpoint drop_trailing_newline (s : string) : string :=
  match s with
  | EmptyString => EmptyString
  | String c EmptyString => if Ascii.eqb c LF then EmptyString else s
  | String c s1 => String c (drop_trailing_newline s1)
  end.

Inductive Piece : Type :=
| PChar (c : ascii)
| PVar (name : string).

Definition is_letter (c : ascii) : bool :=
  let n := N.to_nat (N_of_ascii c) in
  (((65 <=? n) && (n <=? 90)) || ((97 <=? n) && (n <=? 122)) || (n =? 95))%nat.
Definition is_digit (c : ascii) : bool :=
  let n := N.to_nat (N_of_ascii c) in ((48 <=? n) && (n <=? 57))%nat.

Fixpoint all_chars (p : ascii -> bool) (s : string) : bool :=
  match s with
  | EmptyString => true
  | String c s' => p c && all_chars p s'
  end.

(** Names that are not looked up in the mapping alone: constants, operators,
    the globals of the default environment, and the names the compiler binds
    itself ([{{ self }}] renders as a reference to the template). *)
Definition reserved : list string :=
  ["true"; "false"; "none"; "True"; "False"; "None"; "and"; "or"; "not"; "in"; "is";
   "if"; "else"; "range"; "dict"; "lipsum"; "cycler"; "joiner"; "namespace";
   "self"; "super"; "loop"; "caller"; "varargs"; "kwargs"].

Definition is_name (s : string) : bool :=
  match s with
  | EmptyString => false
  | String c s' =>
      is_letter c && all_chars (fun c => is_letter c || is_digit c) s'
      && negb (bool_decide (s ∈ reserved))
  end.

Fixpoint ltrim (s : string) : string :=
  match s with
  | String c s' => if Ascii.eqb c " " then ltrim s' else s
  | EmptyString => EmptyString
  end.
Fixpoint rtrim (s : string) : string :=
  match s with
  | EmptyString => EmptyString
  | String c s' =>
      match rtrim s' with
      | EmptyString => if Ascii.eqb c " " then EmptyString else String c EmptyString
      | r => String c r
      end
  end.

Definition cons_piece (p : Piece) (r : option (list Piece)) : option (list Piece) :=
  match r with
  | None => None
  | Some ps => Some (p :: ps)
  end.

(** The lexer.  [inside] is [None] in text, and holds the characters read so
    far inside a placeholder.  Blocks, comments, a placeholder that is not
    closed and one that holds anything but a name are outside the fragment. *)
Fixpoint scan (inside : option string) (s : string) : option (list Piece) :=
  match inside, s with
  | None, EmptyString => Some []
  | None, String c1 s1 =>
      if Ascii.eqb c1 "{" then
        match s1 with
        | String c2 s2 =>
            if Ascii.eqb c2 "{" then scan (Some EmptyString) s2
            else if Ascii.eqb c2 "%" || Ascii.eqb c2 "#"
                 then None
                 else cons_piece (PChar c1) (scan None s1)
        | EmptyString => Some [PChar c1]
        end
      else cons_piece (PChar c1) (scan None s1)
  | Some acc, EmptyString => None
  | Some acc, String c1 s1 =>
      if Ascii.eqb c1 "}" then
        match s1 with
        | String c2 s2 =>
            if Ascii.eqb c2 "}" then
              let name := rtrim (ltrim acc) in
              if is_name name then cons_piece (PVar name) (scan None s2)
              else None
            else scan (Some (acc +:+ String c1 EmptyString)) s1
        | EmptyString => None
        end
      else scan (Some (acc +:+ String c1 EmptyString)) s1
  end.

Definition tokenize (tpl : string) : option (list Piece) :=
  scan None (drop_trailing_newline (normalize_newlines tpl)).

Definition undefined (name : string) : PyExc :=
  mkExc UndefinedError ("'" +:+ name +:+ "' is undefined").

(** Strict undefined: a name missing from the mapping is an error. *)
Fixpoint substitute (to_str : Value -> string) (ps : list Piece)
    (values : gmap string Value) : PyExc + string :=
  match ps with
  | [] => inr EmptyString
  | PChar c :: ps' =>
      match substitute to_str ps' values with
      | inl e => inl e
      | inr s => inr (String c s)
      end
  | PVar name :: ps' =>
      match values !! name with
      | None => inl (undefined name)
      | Some v =>
          match substitute to_str ps' values with
          | inl e => inl e
          | inr s => inr (to_str v +:+ s)
          end
      end
  end.

(** One pass: the template is built with [undefined=StrictUndefined] and
    rendered with the mapping as keyword arguments.  A mapping with the key
    [self] is outside the fragment: [render] has a parameter of that name. *)
Definition render (to_str : Value -> string) (tpl : string)
    (values : gmap string Value) : option (PyExc + string) :=
  if bool_decide (is_Some (values !! "self")) then None
  else
    match tokenize tpl with
    | None => None
    | Some ps => Some (substitute to_str ps values)
    end.
End MiniJinja.

(** Python's [eval] on sums of decimal literals and on string literals in
    single quotes.  The answer is [None] for a text outside this fragment. *)
Module MiniEval.

Fixpoint digits (s : string) (acc : Z) : option Z :=
  match s with
  | EmptyString => Some acc
  | String c s' =>
      if MiniJinja.is_digit c
      then digits s' (10 * acc + (Z.of_N (N_of_ascii c) - 48))
      else None
  end.

(** A decimal literal: digits, with no leading zero unless it is zero. *)
Definition literal (s : string) : option Z :=
  match s with
  | EmptyString => None
  | String c s' =>
      if Ascii.eqb c "0" && negb (String.eqb s' "") then None else digits s 0
  end.

Fixpoint sum (terms : list string) : option Z :=
  match terms with
  | [] => Some 0
  | t :: ts =>
      match literal (MiniJinja.rtrim (MiniJinja.ltrim t)), sum ts with
      | Some n, Some m => Some (n + m)
      | _, _ => None
      end
  end.

Definition quote : ascii := "039"%char.

(** A character a string literal can hold as it is: no quote, no backslash,
    no control character. *)
Definition literal_char (c : ascii) : bool :=
  negb (Ascii.eqb c quote) && negb (Ascii.eqb c "\")
  && (32 <=? N.to_nat (N_of_ascii c))%nat && negb (N.to_nat (N_of_ascii c) =? 127)%nat.

(** ['...'] with such characters only. *)
Definition string_literal (s : string) : option string :=
  match s with
  | String c s' =>
      if Ascii.eqb c quote then
        let body := Py.slice s' 0 (-1) in
        if String.eqb (Py.slice s' (-1) (Py.len s')) (String quote EmptyString)
           && MiniJinja.all_chars literal_char body
        then Some body else None
      else None
  | EmptyString => None
  end.

Definition eval (sc : Scope) (text : string) : option (PyExc + Value) :=
  let text := MiniJinja.rtrim (MiniJinja.ltrim text) in
  match string_literal text with
  | Some s => Some (inr (VStr s))
  | None =>
      match sum (Py.split "+" text) with
      | Some n => Some (inr (VInt n))
      | None => None
      end
  end.
End MiniEval.

(** The collaborators of a computed run: [oracle] answers each command line
    with its output or with the output of a failed command, [files] are the
    local files, [n] the passes of a render loop that are followed.  The
    world is the list of the command lines run so far.  The renderer
    and the evaluator follow [MiniJinja] and [MiniEval] on their fragments
    and answer [not_modelled], an error of no class of Python, elsewhere; the
    class attributes are those of CPython 3.11. *)
Definition not_modelled : PyExc :=
  mkExc (OtherError "NotModelled") "outside the modelled fragment".

Definition demo_class_attr (p : string) : option bool :=
  if bool_decide (p ∈ ["__annotations__"; "__class__"; "__dataclass_fields__";
                       "__dataclass_params__"; "__delattr__"; "__dict__"; "__dir__";
                       "__doc__"; "__eq__"; "__format__"; "__ge__"; "__getattribute__";
                       "__getstate__"; "__gt__"; "__init__"; "__init_subclass__";
                       "__le__"; "__lt__"; "__match_args__"; "__module__"; "__ne__";
                       "__new__"; "__reduce__"; "__reduce_ex__"; "__repr__";
                       "__setattr__"; "__sizeof__"; "__str__"; "__subclasshook__"])
  then Some true
  else if bool_decide (p ∈ ["__hash__"; "__weakref__"]) then Some false
  else None.

Definition demo_str (d : gmap string Value) : string := "{...}".

Definition demo_py_str (v : Value) : string :=
  match v with
  | VNone => "None"
  | VBool true => "True"
  | VBool false => "False"
  | VInt z => Py.fmt_d z
  | VStr s => s
  | VDict d => demo_str d
  end.

Definition demo (oracle : string -> string + string) (files : list string) (n : nat)
  : Externals :=
  {| World := list string;
     check_output := fun cmd (w : list string) => (oracle cmd, (w ++ [cmd])%list);
     isfile := fun p _ => bool_decide (p ∈ files);
     jinja_render := fun tpl values =>
                       default (inl not_modelled) (MiniJinja.render demo_py_str tpl values);
     py_eval := fun scope text => default (inl not_modelled) (MiniEval.eval scope text);
     str_dict := demo_str;
     class_attr := demo_class_attr;
     patience := n |}.

(** * Vocabulary of the properties *)

(** The escaping rule of [exec_command]: every double quote gets a backslash
    in front. *)
Definition escape (s : string) : string := Py.replace dq ("\" +:+ dquote) s.

(** Every double quote of [s] stands right after a backslash. *)
Fixpoint quotes_escaped_from (after_backslash : bool) (s : string) : bool :=
  match s with
  | EmptyString => true
  | String c s' =>
      if Ascii.eqb c dq then after_backslash && quotes_escaped_from false s'
      else quotes_escaped_from (Ascii.eqb c "\") s'
  end.
Definition quotes_escaped (s : string) : bool := quotes_escaped_from false s.


(** [reaches k tpl values]: the text [prev] with which the loop of
    [recursive_render] enters its pass number [k] (from 0), when the [k]
    passes before it each returned a text different from their input. *)
Fixpoint reaches `{Externals} (k : nat) (tpl : string) (values : gmap string Value)
  : option string :=
  match k with
  | O => Some tpl
  | S k' =>
      match jinja_render tpl values with
      | inr curr => if negb (String.eqb curr tpl) then reaches k' curr values else None
      | inl _ => None
      end
  end.

(** [strict_pass s values]: on the text [s] and the mapping [values] the
    Jinja pass of the collaborators is the one of Jinja2 with
    [StrictUndefined], as [MiniJinja] gives it for the texts and mappings of
    its fragment. *)
Definition strict_pass `{Externals} (s : string) (values : gmap string Value) : Prop :=
  forall r, MiniJinja.render py_str s values = Some r -> jinja_render s values = r.

(** A state whose host is [h]. *)
Definition state_of `{Externals} (h : HostData.t) (a : Action.t) (w : World)
    (lg : list Event) : State :=
  {| st_host := h; st_action := a; st_world := w; st_log := lg |}.

(** Two variables that name each other. *)
Definition cyclic_context : gmap string Value :=
  <[ "a" := VStr "{{ b }}" ]> (<[ "b" := VStr "{{ a }}" ]> ∅).

(** A host with the given variables and nothing else. *)
Definition host_with (nm addr : string) (ctx : gmap string Value) : HostData.t :=
  {| HostData.name := nm; HostData.address := addr;
     HostData.files_foldername := "files"; HostData.context := ctx;
     HostData.ssh_user := EmptyString; HostData.errors := 0; HostData.results := ∅;
     HostData.dry_run := false; HostData.extra_debug := false;
     HostData.colorize := false |}.

(** A transport on which every command succeeds with no output. *)
Definition silent_oracle (cmd : string) : string + string := inl EmptyString.


(** The state in which a computed run starts on host [h]: the default action
    object, no command run yet, an empty log. *)
Definition demo_state (oracle : string -> string + string) (files : list string)
    (n : nat) (h : HostData.t) : @State (demo oracle files n) :=
  @mkState (demo oracle files n) h Action.default (@nil string) (@nil Event).

(** The text [evaluate_expression] hands to [eval]: what stands between the
    first opening and the first closing parenthesis of the rendered text. *)
Definition inner_text_of (text : string) : string :=
  Py.slice text (Py.find "(" text + 1) (Py.find ")" text).

(** The local variables of [evaluate_expression] at its calls of [eval]. *)
Definition scope_of (self : HostData.t) (expression : string)
    (action : option Action.t) (text : string) : Scope :=
  {| sc_self := self; sc_expression := expression; sc_action := action;
     sc_text := text; sc_brace_opener := Py.find "(" text + 1;
     sc_brace_closer := Py.find ")" text; sc_inner_text := inner_text_of text |}.

(** The host [h] once [run_action] has stored the dry-run flag on it. *)
Definition dry (h : HostData.t) : HostData.t := HostData.set_flags true false false h.

(** The state after one more line of the log. *)
Definition logged `{Externals} (ev : Event) (st : State) : State :=
  {| st_host := st_host st; st_action := st_action st; st_world := st_world st;
     st_log := st_log st ++ [ev] |}.

(** The state in which [run_action] reaches its guard: the three flags are
    stored on the host and the banner is logged. *)
Definition announced `{Externals} (action : Action.t) (dry_run extra_debug colorize : bool)
    (st : State) : State :=
  logged (EvBanner (HostData.name (st_host st)) (Action.title action))
    {| st_host := HostData.set_flags dry_run extra_debug colorize (st_host st);
       st_action := st_action st; st_world := st_world st; st_log := st_log st |}.

(** The values for which [not result] holds. *)
Definition falsy_values : list Value :=
  [VNone; VBool false; VInt 0; VStr EmptyString; VDict ∅].

(** A [command] action with one item, guarded by [when]. *)
Definition touch (when : string) : Action.t :=
  {| Action.title := "touch"; Action.type := "command"; Action.become := false;
     Action.become_user := EmptyString; Action.timeout := 0; Action.wrap_bash := false;
     Action.when := when; Action.register := EmptyString;
     Action.items := ["touch /tmp/x"]; Action.extra := ∅ |}.

(** The options of a transfer in the words of the [copy] handler's
    description: existing files are skipped unless [force], then come the
    permission override and the ownership override. *)
Definition transfer_overrides `{Externals} (force mode owner group : Value) : string :=
  (if truthy force then EmptyString else "--ignore-existing ")
  +:+ (if truthy mode
       then "--chmod=" +:+ dquote +:+ py_str mode +:+ dquote +:+ " " else EmptyString)
  +:+ (if 1 <? Py.len (py_str owner +:+ ":" +:+ py_str group)
       then "--chown=" +:+ dquote +:+ (py_str owner +:+ ":" +:+ py_str group)
            +:+ dquote +:+ " "
       else EmptyString).

(** The privilege-elevation wrapper: it names the program run on the remote
    side of the transfer. *)
Definition remote_elevation (become : bool) (become_user : string) : string :=
  if become
  then "--rsync-path=" +:+ dquote +:+ "sudo -u "
       +:+ (if negb (String.eqb become_user EmptyString) then become_user else "root")
       +:+ " rsync" +:+ dquote +:+ " "
  else EmptyString.

(** The whole line of the transfer of [source] for [action] on host [self]. *)
Definition transfer_line `{Externals} (self : HostData.t) (action : Action.t)
    (source : string) (destination : Value) : string :=
  "rsync -avz --progress "
  +:+ (if negb (Action.timeout action =? 0)
       then "--timeout=" +:+ Py.fmt_d (Action.timeout action) +:+ " " else EmptyString)
  +:+ transfer_overrides (Host.extra_get action "force" (VBool false))
        (Host.extra_get action "mode" (VStr EmptyString))
        (Host.extra_get action "owner" (VStr EmptyString))
        (Host.extra_get action "group" (VStr EmptyString))
  +:+ remote_elevation (Action.become action) (Action.become_user action)
  +:+ dquote +:+ source +:+ dquote +:+ " "
  +:+ dquote
  +:+ (if negb (String.eqb (HostData.ssh_user self) EmptyString)
       then HostData.ssh_user self +:+ "@" else EmptyString)
  +:+ HostData.address self +:+ ":" +:+ py_str destination +:+ dquote +:+ " ".

(** What the [copy] handler does with one item: the item is resolved against
    the files root, a missing file ends the action, and otherwise the
    transfer line goes to the transport. *)
Definition copy_item `{Externals} (action : Action.t) (destination : Value)
    (item : string) : M unit :=
  self <- get_self ;;
  w <- get_world ;;
  let source := Py.path_join (HostData.files_foldername self) item in
  if isfile source w then
    result <- SSHClient._run_remote_command (Host.client self action false)
                (transfer_line self action source destination) ;;
    Host.register_result action result
  else
    raise (mkExc Exception_ ("File " +:+ dquote +:+ source +:+ dquote +:+ " not found")).

(** A [copy] action with two items, run as root on the remote side. *)
Definition upload : Action.t :=
  {| Action.title := "upload"; Action.type := "copy"; Action.become := true;
     Action.become_user := EmptyString; Action.timeout := 30; Action.wrap_bash := true;
     Action.when := EmptyString; Action.register := EmptyString;
     Action.items := ["a.txt"; "b.txt"];
     Action.extra := <[ "destination" := VStr "/srv/www/" ]>
                       (<[ "mode" := VStr "0644" ]> {[ "owner" := VStr "www" ]}) |}.

(** The state after [action.wrap_bash = False]. *)
Definition unwrapped `{Externals} (st : State) : State :=
  {| st_host := st_host st; st_action := Action.set_wrap_bash false (st_action st);
     st_world := st_world st; st_log := st_log st |}.

(** The state after [self.results[r] = d]. *)
Definition recorded `{Externals} (r : string) (d : gmap string Value) (st : State) : State :=
  {| st_host := HostData.set_result r (VDict d) (st_host st); st_action := st_action st;
     st_world := st_world st; st_log := st_log st |}.

(** A value of a stat field that holds neither separator of the format. *)
Definition plain (v : string) : Prop := Py.find "|" v = -1 /\ Py.find ":" v = -1.

(** What the stat query prints for the values of the fourteen fields, in
    the format the handler asks for. *)
Definition stat_output (values : list string) : string :=
  Py.join "|" (map (fun kv => kv.1 +:+ ":" +:+ kv.2) (zip Host.stat_fields values)).

(** The mapping these values stand for. *)
Definition stat_record (values : list string) : gmap string Value :=
  foldl (fun acc kv => <[kv.1 := VStr (Py.strip kv.2)]> acc) ∅
    (zip Host.stat_fields values).

(** A remote side on which [test] succeeds and every other command fails, as
    on a host whose [stat] does not know [--format]. *)
Definition test_only_oracle (cmd : string) : string + string :=
  if Py.startswith ("ssh 10.0.0.1 " +:+ dquote +:+ "test ") cmd then inl EmptyString
  else inr "stat: illegal option -- -".

(** The fields of a directory, as [stat] prints them: the last one ends the
    line. *)
Definition logs_values : list string :=
  ["755"; "drwxr-xr-x"; "directory"; "1003"; "deploy"; "683581"; "/home/deploy/logs";
   "'/home/deploy/logs'"; "4096"; "1003"; "deploy"; "1688596627"; "1688596626";
   String.append "1688596626" (String MiniJinja.LF EmptyString)].

(** A remote side on which [test] succeeds and [stat] prints these fields. *)
Definition present_oracle (cmd : string) : string + string :=
  if Py.startswith ("ssh 10.0.0.1 " +:+ dquote +:+ "test ") cmd then inl EmptyString
  else inl (stat_output logs_values).

(** A remote side on which every command fails. *)
Definition failing_oracle (cmd : string) : string + string := inr "exit status 1".

(** A [stat_dir] action that registers its result as [logs]. *)
Definition stat_logs : Action.t :=
  {| Action.title := "stat logs"; Action.type := "stat_dir"; Action.become := false;
     Action.become_user := EmptyString; Action.timeout := 0; Action.wrap_bash := true;
     Action.when := EmptyString; Action.register := "logs"; Action.items := [];
     Action.extra := {[ "path" := VStr "/home/deploy/logs" ]} |}.

(** An event other than the banner of [run_action]. *)
Definition no_banner (ev : Event) : bool :=
  match ev with
  | EvBanner _ _ => false
  | _ => true
  end.

(** [dispatched n lg]: the titles of the actions for which [run_action] was
    entered on the host named [n], as the banners of the log [lg] tell, in
    order. *)
Definition dispatched (n : string) (lg : list Event) : list string :=
  flat_map (fun ev =>
              match ev with
              | EvBanner host title => if String.eqb host n then [title] else []
              | _ => []
              end) lg.

(** [quiet_step st st']: from [st] to [st'] the host kept its name and its
    error counter, the action object kept its title, and the log grew by
    events none of which is a banner. *)
Definition quiet_step `{Externals} (st st' : State) : Prop :=
  HostData.name (st_host st') = HostData.name (st_host st)
  /\ HostData.errors (st_host st') = HostData.errors (st_host st)
  /\ Action.title (st_action st') = Action.title (st_action st)
  /\ exists evs, st_log st' = (st_log st ++ evs)%list /\ forallb no_banner evs = true.

(** A computation all of whose runs are quiet steps. *)
Definition quiet `{Externals} {A} (m : M A) : Prop :=
  forall st, quiet_step st (snd (m st)).

(** [advances h h']: what a run may do to a host object.  It keeps its name,
    its error counter does not decrease, and a host whose counter is above
    zero is left exactly as it was. *)
Definition advances (h h' : HostData.t) : Prop :=
  HostData.name h' = HostData.name h
  /\ HostData.errors h <= HostData.errors h'
  /\ (0 < HostData.errors h -> h' = h).

(** The banners one action adds to the log for the host named [n]: one for
    each host of that name whose counter lets it through. *)
Definition contribution (action : Action.t) (n : string) (hosts : list HostData.t)
  : list string :=
  flat_map (fun h => if (HostData.errors h <=? 0) && String.eqb (HostData.name h) n
                     then [Action.title action] else []) hosts.

(** A remote side on which the host at 10.0.0.1 refuses every command. *)
Definition refusing_oracle (cmd : string) : string + string :=
  if Py.startswith "ssh 10.0.0.1 " cmd then inr "Connection refused" else inl EmptyString.

(** A [command] action with one item and no guard. *)
Definition step (title item : string) : Action.t :=
  {| Action.title := title; Action.type := "command"; Action.become := false;
     Action.become_user := EmptyString; Action.timeout := 0; Action.wrap_bash := false;
     Action.when := EmptyString; Action.register := EmptyString;
     Action.items := [item]; Action.extra := ∅ |}.

(** The flags of a run without options. *)
Definition no_flags : Args :=
  {| args_dry_run := false; args_extra_debug := false; args_no_colors := false;
     args_traceback := false |}.

(** The start of a run on two hosts, the first of which refuses. *)
Definition two_hosts : @Run (demo refusing_oracle [] 5) :=
  @mkRun (demo refusing_oracle [] 5)
    [host_with "alpha" "10.0.0.1" ∅; host_with "beta" "10.0.0.2" ∅] (@nil string) (@nil Event).

(** [offline_step st st']: if the host of [st] is in dry-run mode, then so is
    the host of [st'] and the remote side is as it was. *)
Definition offline_step `{Externals} (st st' : State) : Prop :=
  HostData.dry_run (st_host st) = true ->
  HostData.dry_run (st_host st') = true /\ st_world st' = st_world st.

(** A computation all of whose runs are offline steps. *)
Definition offline `{Externals} {A} (m : M A) : Prop :=
  forall st, offline_step st (snd (m st)).

(** The flags of a dry run. *)
Definition dry_flags : Args :=
  {| args_dry_run := true; args_extra_debug := false; args_no_colors := false;
     args_traceback := false |}.

(** [action.items = l] *)
Definition with_items (l : list string) (a : Action.t) : Action.t :=
  {| Action.title := Action.title a; Action.type := Action.type a;
     Action.become := Action.become a; Action.become_user := Action.become_user a;
     Action.timeout := Action.timeout a; Action.wrap_bash := Action.wrap_bash a;
     Action.when := Action.when a; Action.register := Action.register a;
     Action.items := l; Action.extra := Action.extra a |}.

(** An item of a [command] action that is sent, not a comment. *)
Definition is_command (item : string) : bool := negb (Py.startswith "#" item).

(** The action types [run_action] routes to a handler. *)
Definition known_types : list string :=
  ["command"; "mkdirs"; "message"; "stat_dir"; "stat_file"; "copy"].

(** The state after [host.errors += 1] and the lines [work] logs for the
    exception [e]. *)
Definition failed `{Externals} (traceback : bool) (e : PyExc) (st : State) : State :=
  {| st_host := HostData.incr_errors (st_host st); st_action := st_action st;
     st_world := st_world st;
     st_log := st_log st ++ [EvError e] ++ (if traceback then [EvTraceback e] else []) |}.

(** The exceptions of the two checks of required parameters. *)
Definition missing_attribute (p : string) : PyExc :=
  mkExc Exception_ ("Missing attribute " +:+ dquote +:+ p +:+ dquote).
Definition missing_extra (p : string) : PyExc :=
  mkExc Exception_ ("Missing attribute extra[" +:+ dquote +:+ p +:+ dquote +:+ "]").
Definition unknown_type (type : string) : PyExc :=
  mkExc Exception_ ("Unknown action type " +:+ dquote +:+ type +:+ dquote).

(** The line [log_message] writes for [text]: a rich text in yellow markup
    on a host with the colour flag, the text itself on the others. *)
Definition message_event (colorize : bool) (text : string) : Event :=
  if colorize then EvMarkup ("[yellow]" +:+ text +:+ "[/yellow]") else EvMessage text.

(** The handler of each action type [run_action] knows. *)
Definition handlers `{Externals} (action : Action.t) : list (string * M unit) :=
  [("command", Host.execute_command action);
   ("mkdirs", Host.execute_mkdirs action);
   ("message", Host.log_message (Action.items action));
   ("stat_dir", Host.execute_stat action true);
   ("stat_file", Host.execute_stat action false);
   ("copy", Host.execute_copy action)].

(** [dispatches action run st]: the call whose outcome is [run] handed
    [action] to the handler of its type in the state [st], and what the
    handler did there is the outcome; with a type that has no handler the
    outcome is the exception of the routing. *)
Definition dispatches `{Externals} (action : Action.t) (run : Res unit * State)
    (st : State) : Prop :=
  (forall handler : M unit,
     (Action.type action, handler) ∈ handlers action -> run = handler st)
  /\ (Action.type action ∉ known_types ->
      run = (Raise (unknown_type (Action.type action)), st)).

(** The names of the fields of [Action]. *)
Definition field_names : list string :=
  ["title"; "type"; "become"; "become_user"; "timeout"; "wrap_bash"; "when"; "register";
   "items"; "extra"].

(** The flags of a run with [--extra-debug]. *)
Definition debug_flags : Args :=
  {| args_dry_run := false; args_extra_debug := true; args_no_colors := false;
     args_traceback := false |}.

(** The exception of [repr(action)]. *)
Definition json_unbound : PyExc :=
  mkExc (OtherError "NameError") "name 'json' is not defined".

(** * More of [main.py] and [utils.py] *)

(** ** [verbosity_to_log_level] *)

(** The three constants of the [logging] module the function names. *)
Inductive LogLevel : Type := WARNING | INFO | DEBUG.

(** [l[i]] on a list: a negative index counts from the end, and an index
    outside the list raises [IndexError].  An index that does not fit the
    signed machine word (64 bits) is refused before the list is looked at,
    with a message of its own. *)
Definition py_getitem {A} (l : list A) (i : Z) : PyExc + A :=
  let n := Z.of_nat (length l) in
  let j := if i <? 0 then i + n else i in
  if (i <? - 2 ^ 63) || (2 ^ 63 <=? i) then
    inl (mkExc IndexError "cannot fit 'int' into an index-sized integer")
  else if (0 <=? j) && (j <? n) then
    match l !! Z.to_nat j with
    | Some x => inr x
    | None => inl (mkExc IndexError "list index out of range")
    end
  else inl (mkExc IndexError "list index out of range").

Definition verbosity_to_log_level (verbosity : Z) : PyExc + LogLevel :=
  let levels := [WARNING; INFO; DEBUG] in
  py_getitem levels (Z.min (Z.of_nat (length levels) - 1) verbosity).

(** The adjustment [main] makes before it asks for the level:
    [if args.extra_debug and args.verbosity < 2: args.verbosity = 2]. *)
Definition main_verbosity (extra_debug : bool) (verbosity : Z) : Z :=
  if extra_debug && (verbosity <? 2) then 2 else verbosity.

(** ** The definition files, once [json.load] has read them *)

(** A JSON value.  An object is a [dict]; the order of the keys of the hosts
    file, which is the order of the inner loop of [work], is kept apart. *)
Inductive Json : Type :=
| JNull
| JBool (b : bool)
| JNum (z : Z)
| JStr (s : string)
| JList (l : list Json)
| JObj (m : gmap string Json).

(** [bool(j)] *)
Definition json_truthy (j : Json) : bool :=
  match j with
  | JNull => false
  | JBool b => b
  | JNum z => negb (z =? 0)
  | JStr s => negb (String.eqb s "")
  | JList l => match l with [] => false | _ => true end
  | JObj m => negb (bool_decide (m = ∅))
  end.

(** [d.get(k, default)] *)
Definition json_get (d : gmap string Json) (k : string) (default : Json) : Json :=
  match d !! k with
  | Some v => v
  | None => default
  end.

(** [sub in s] on strings. *)
Fixpoint is_substring (sub s : string) : bool :=
  Py.startswith sub s
  || match s with
     | EmptyString => false
     | String _ s' => is_substring sub s'
     end.

(** [value in j] for a string [value]: membership in a list, a substring
    test on a string, a key test on a mapping, [TypeError] on the rest. *)
Definition json_contains (value : string) (j : Json) : PyExc + bool :=
  match j with
  | JList l => inr (existsb (fun x => match x with
                                      | JStr t => String.eqb value t
                                      | _ => false
                                      end) l)
  | JStr t => inr (is_substring value t)
  | JObj m => inr (bool_decide (is_Some (m !! value)))
  | _ => inl (mkExc (OtherError "TypeError") "argument is not iterable")
  end.

(** ** [load_actions] *)

(** The nested function [intersection(lst1, lst2)]:
    [[value for value in lst1 if value in lst2]]. *)
Fixpoint intersection (lst1 : list string) (lst2 : Json) : PyExc + list string :=
  match lst1 with
  | [] => inr []
  | value :: rest =>
      match json_contains value lst2 with
      | inl e => inl e
      | inr b =>
          match intersection rest lst2 with
          | inl e => inl e
          | inr l => inr (if b then value :: l else l)
          end
      end
  end.

(** [[d for d in data if intersection(tags, d.get("tags", []))]] *)
Fixpoint tagged (tags : list string) (data : list (gmap string Json))
  : PyExc + list (gmap string Json) :=
  match data with
  | [] => inr []
  | d :: rest =>
      match intersection tags (json_get d "tags" (JList [])) with
      | inl e => inl e
      | inr common =>
          match tagged tags rest with
          | inl e => inl e
          | inr l => inr (match common with [] => l | _ => d :: l end)
          end
      end
  end.

(** The entries [load_actions] keeps, in the order of the file, before it
    drops their [tags] key and builds the [Action] objects: [data] is the
    list the actions file holds, [tags] the [--tags] of the command line
    (none given is the empty list). *)
Definition selected_actions (data : list (gmap string Json)) (tags : list string)
  : PyExc + list (gmap string Json) :=
  let data := List.filter (fun a => negb (json_truthy (json_get a "disabled" (JBool false))))
                data in
  match tags with
  | [] => inr data
  | _ => tagged tags data
  end.

(** ** [load_hosts] *)

(** The first requested name that is not a key of [data], if any: the loop
    [for h in hosts: if h not in data.keys(): raise ...]. *)
Fixpoint first_unknown (hosts : list string) (keys : list string) : option string :=
  match hosts with
  | [] => None
  | h :: rest => if bool_decide (h ∈ keys) then first_unknown rest keys else Some h
  end.

(** The entries [load_hosts] keeps, in the order of the file: [data] is the
    content of the hosts file, key by key, and [hosts] the names on the
    command line. *)
Definition selected_hosts (data : list (string * gmap string Json)) (hosts : list string)
  : PyExc + list (string * gmap string Json) :=
  let data := List.filter (fun kv => negb (json_truthy (json_get kv.2 "disabled" (JBool false))))
                data in
  if bool_decide ("*" ∈ hosts) then inr data
  else
    match first_unknown hosts (map fst data) with
    | Some h => inl (mkExc Exception_ ("Unknown host " +:+ dquote +:+ h +:+ dquote))
    | None => inr (List.filter (fun kv => bool_decide (kv.1 ∈ hosts)) data)
    end.

(** The keyword arguments [load_hosts] hands to [Host(...)] for the entry
    [v] under the key [k]: [disabled] and [vars] are taken out, the context
    is the global variables overridden by the host's own, and the entry's
    remaining keys override [name], [files_foldername] and [context]. *)
Definition host_params (vars : gmap string Json) (files_foldername : string)
    (k : string) (v : gmap string Json) : PyExc + gmap string Json :=
  let v := delete "disabled" v in
  let host_vars := json_get v "vars" (JObj ∅) in
  let v := delete "vars" v in
  match host_vars with
  | JObj host_vars =>
      let context := merge_dicts vars host_vars in
      inr (merge_dicts
             (<[ "name" := JStr k ]>
                (<[ "files_foldername" := JStr files_foldername ]>
                   {[ "context" := JObj context ]}))
             v)
  | _ => inl (mkExc (OtherError "TypeError") "'vars' is not a mapping")
  end.

(** An entry of a definition file that is not switched off. *)
Definition enabled (a : gmap string Json) : bool :=
  negb (json_truthy (json_get a "disabled" (JBool false))).

(** An actions file with a disabled entry and an entry without tags, and a
    hosts file with a disabled host. *)
Definition sample_actions : list (gmap string Json) :=
  [ <[ "title" := JStr "build" ]> {[ "tags" := JList [JStr "app"] ]};
    {[ "title" := JStr "notify" ]};
    <[ "title" := JStr "migrate" ]>
      (<[ "disabled" := JBool true ]> {[ "tags" := JList [JStr "app"; JStr "db"] ]});
    <[ "title" := JStr "restart" ]> {[ "tags" := JList [JStr "db"; JStr "app"] ]} ].

Definition sample_hosts : list (string * gmap string Json) :=
  [ ("web1", {[ "address" := JStr "10.0.0.1" ]});
    ("web2", <[ "address" := JStr "10.0.0.2" ]> {[ "disabled" := JBool true ]});
    ("db1", <[ "address" := JStr "10.0.0.3" ]>
              {[ "vars" := JObj {[ "user" := JStr "postgres" ]} ]}) ].

(** The action object [check_remote_path_exists] builds for its test: the
    privilege elevation of [action], the shell wrapper, no timeout and no
    register. *)
Definition probe_action (action : Action.t) : Action.t :=
  {| Action.title := EmptyString; Action.type := EmptyString;
     Action.become := Action.become action;
     Action.become_user := Action.become_user action;
     Action.timeout := 0; Action.wrap_bash := true;
     Action.when := EmptyString; Action.register := EmptyString;
     Action.items := []; Action.extra := ∅ |}.

(** A line of a [message] action that is neither a template nor one of the
    calls [evaluate_expression] knows: one Jinja pass gives it back, and it
    starts with none of the six prefixes. *)
Definition plain_line `{Externals} (context : gmap string Value) (line : string) : Prop :=
  jinja_render line context = inr line
  /\ forallb (fun prefix => negb (Py.startswith prefix line))
       ["results["; "eval("; "not_exists_dir("; "exists_dir("; "not_exists_file(";
        "exists_file("] = true.

(** The state after the lines [evs] of the log. *)
Definition logged_all `{Externals} (evs : list Event) (st : State) : State :=
  {| st_host := st_host st; st_action := st_action st; st_world := st_world st;
     st_log := st_log st ++ evs |}.

(** * Properties *)

(** ** Computed examples of the primitives and of the concrete collaborators *)

Example find_eval : Py.find "(" "eval(1 + 2)" = 4 /\ Py.find ")" "eval(1 + 2)" = 10.
Proof. split; reflexivity. Qed.

Example slice_eval : Py.slice "eval(1 + 2)" 5 10 = "1 + 2".
Proof. reflexivity. Qed.

Example slice_negative : Py.slice "eval(1 + 2" 5 (-1) = "1 + ".
Proof. reflexivity. Qed.

Example split_stat : Py.split "|" "a:755|A:drwx" = ["a:755"; "A:drwx"].
Proof. reflexivity. Qed.

Example split_empty : Py.split "|" "" = [""].
Proof. reflexivity. Qed.

Example strip_ex : Py.strip "  755 " = "755".
Proof. reflexivity. Qed.

Example path_join_ex :
  Py.path_join "files" "a.txt" = "files/a.txt" /\ Py.path_join "files/" "a.txt" = "files/a.txt"
  /\ Py.path_join "files" "/etc/a" = "/etc/a".
Proof. repeat split; reflexivity. Qed.

Example strip_latin1 :
  Py.strip (String "160"%char (String "133"%char ("755" +:+ String "160"%char EmptyString)))
  = "755".
Proof. reflexivity. Qed.

Example mini_jinja_ex :
  MiniJinja.render demo_py_str "/home/{{ user }}/logs" {[ "user" := VStr "deploy" ]}
  = Some (inr "/home/deploy/logs").
Proof. reflexivity. Qed.

Example mini_jinja_undefined :
  MiniJinja.render demo_py_str "/home/{{ user }}/logs" ∅
  = Some (inl (MiniJinja.undefined "user")).
Proof. reflexivity. Qed.

Example mini_jinja_outside :
  MiniJinja.render demo_py_str "{{ self }}" ∅ = None
  /\ MiniJinja.render demo_py_str "{{ user | upper }}" {[ "user" := VStr "deploy" ]} = None
  /\ MiniJinja.render demo_py_str "{% if user %}x{% endif %}" ∅ = None
  /\ MiniJinja.render demo_py_str "{{ user }}" {[ "self" := VStr "deploy" ]} = None.
Proof. repeat split; reflexivity. Qed.

Example mini_eval_ex :
  forall sc,
    MiniEval.eval sc "1 + 2" = Some (inr (VInt 3))
    /\ MiniEval.eval sc "'/tmp'" = Some (inr (VStr "/tmp"))
    /\ MiniEval.eval sc "self.results['logs']" = None.
Proof. intros sc. repeat split; reflexivity. Qed.

(** ** Strings *)

Lemma app_assoc_s (a b c : string) : (a +:+ b) +:+ c = a +:+ (b +:+ c).
Proof.
  induction a as [|x a IH]; [reflexivity |].
  change (String x ((a +:+ b) +:+ c) = String x (a +:+ (b +:+ c))). now f_equal.
Qed.

Lemma app_empty_r (a : string) : a +:+ EmptyString = a.
Proof.
  induction a as [|x a IH]; [reflexivity |].
  change (String x (a +:+ EmptyString) = String x a). now f_equal.
Qed.

Lemma replace_app (old : ascii) (new a b : string) :
  Py.replace old new (a +:+ b) = Py.replace old new a +:+ Py.replace old new b.
Proof.
  induction a as [|x a IH]; [reflexivity |].
  change (String x a +:+ b) with (String x (a +:+ b)). cbn [Py.replace].
  destruct (Ascii.eqb x old); rewrite IH; [now rewrite app_assoc_s | reflexivity].
Qed.

Lemma escape_app (a b : string) : escape (a +:+ b) = escape a +:+ escape b.
Proof. apply replace_app. Qed.

Lemma quotes_escaped_escape (s : string) (b : bool) :
  quotes_escaped_from b (escape s) = true.
Proof.
  revert b. induction s as [|x s IH]; intros b; [reflexivity |].
  unfold escape in *. simpl. destruct (Ascii.eqb x dq) eqn:E.
  - simpl. apply IH.
  - simpl. rewrite E. apply IH.
Qed.

(** Tactics for equations between concatenations.  [append] is never unfolded
    by [simpl], and a conversion check between two long concatenations that
    differ is slow: they are brought to the same shape by rewriting first. *)
Ltac norm_assoc :=
  repeat match goal with
    | |- context [(?a +:+ ?b) +:+ ?c] => rewrite (app_assoc_s a b c)
    end.

Ltac push_escape :=
  repeat match goal with
    | |- context [escape (?a +:+ ?b)] => rewrite (escape_app a b)
    end.

Ltac escape_literals :=
  repeat match goal with
    | |- context [escape (String ?c ?s)] =>
        let v := eval vm_compute in (escape (String c s)) in
        replace (escape (String c s)) with v by (vm_compute; reflexivity)
    end.

Lemma append_cons (c : ascii) (a b : string) : String c a +:+ b = String c (a +:+ b).
Proof. reflexivity. Qed.

Lemma append_nil (b : string) : EmptyString +:+ b = b.
Proof. reflexivity. Qed.

Lemma len_cons (c : ascii) (a : string) : Py.len (String c a) = Py.len a + 1.
Proof. unfold Py.len. cbn [String.length]. lia. Qed.

Lemma len_app (a b : string) : Py.len (a +:+ b) = Py.len a + Py.len b.
Proof.
  induction a as [|x a IH]; [reflexivity |].
  rewrite append_cons, !len_cons, IH. lia.
Qed.

Lemma len_nonneg (a : string) : 0 <= Py.len a.
Proof. unfold Py.len. lia. Qed.

Lemma find_ge (c : ascii) (s : string) : -1 <= Py.find c s.
Proof.
  induction s as [|x s IH]; cbn [Py.find]; [lia |].
  destruct (Ascii.eqb x c); [lia |]. cbv zeta.
  destruct (Py.find c s <? 0) eqn:E; [lia |]. apply Z.ltb_ge in E. lia.
Qed.

(** The first occurrence of [c] in a text whose part before it has none. *)
Lemma find_app_absent (c : ascii) (a b : string) :
  Py.find c a = -1 -> Py.find c (a +:+ String c b) = Py.len a.
Proof.
  induction a as [|x a IH]; intros Ha.
  - rewrite append_nil. cbn [Py.find]. now rewrite Ascii.eqb_refl.
  - rewrite append_cons, len_cons. cbn [Py.find] in Ha |- *.
    destruct (Ascii.eqb x c); [discriminate |]. cbv zeta in Ha |- *.
    pose proof (find_ge c a) as Hge.
    destruct (Py.find c a <? 0) eqn:E.
    + apply Z.ltb_lt in E. rewrite IH by lia.
      pose proof (len_nonneg a) as Hl.
      destruct (Py.len a <? 0) eqn:E'; [apply Z.ltb_lt in E'; lia | reflexivity].
    + apply Z.ltb_ge in E. lia.
Qed.

Lemma substring_app_l (a b : string) :
  String.substring 0 (String.length a) (a +:+ b) = a.
Proof.
  induction a as [|x a IH]; cbn [String.length].
  - rewrite append_nil. now destruct b.
  - rewrite append_cons. cbn [String.substring]. now rewrite IH.
Qed.

(** Between [eval(] and the first closing parenthesis. *)
Lemma inner_text_of_eval (inner rest : string) :
  Py.find ")" inner = -1 ->
  inner_text_of ("eval(" +:+ inner +:+ ")" +:+ rest) = inner.
Proof.
  intros Hi. unfold inner_text_of, Py.slice.
  assert (Hc : Py.find ")" ("eval(" +:+ inner +:+ ")" +:+ rest) = 5 + Py.len inner).
  { rewrite !append_cons, append_nil. cbn [Py.find Ascii.eqb Bool.eqb]. cbv zeta.
    change (")" +:+ rest) with (String ")" rest).
    rewrite (find_app_absent _ _ _ Hi).
    pose proof (len_nonneg inner).
    repeat match goal with
      | |- context [?x <? 0] =>
          replace (x <? 0) with false by (symmetry; apply Z.ltb_ge; lia)
      end. lia. }
  assert (Ho : Py.find "(" ("eval(" +:+ inner +:+ ")" +:+ rest) + 1 = 5).
  { rewrite !append_cons, append_nil. reflexivity. }
  rewrite Hc, Ho.
  assert (Hl : Py.len ("eval(" +:+ inner +:+ ")" +:+ rest) = 6 + Py.len inner + Py.len rest).
  { rewrite !len_app. change (Py.len "eval(") with 5. change (Py.len ")") with 1. lia. }
  rewrite Hl. pose proof (len_nonneg inner). pose proof (len_nonneg rest).
  unfold Py.clamp.
  replace (5 <? 0) with false by reflexivity.
  replace (5 + Py.len inner <? 0) with false by (symmetry; apply Z.ltb_ge; lia).
  rewrite !Z.min_l by lia.
  replace (5 + Py.len inner - 5) with (Py.len inner) by lia.
  unfold Py.len. rewrite Nat2Z.id. change (Z.to_nat 5) with 5%nat.
  rewrite !append_cons, append_nil. cbn [String.substring].
  apply substring_app_l.
Qed.

(** ** Prefixes *)

Lemma startswith_both (p q s : string) :
  Py.startswith p s = true -> Py.startswith q s = true ->
  Py.startswith p q = true \/ Py.startswith q p = true.
Proof.
  revert q s. induction p as [|a p IH]; intros q s Hp Hq; [now left |].
  destruct q as [|b q]; [now right |].
  destruct s as [|c s]; [discriminate |]. cbn in Hp, Hq |- *.
  destruct (Ascii.eqb a c) eqn:Eac; [| discriminate].
  destruct (Ascii.eqb b c) eqn:Ebc; [| discriminate].
  apply Ascii.eqb_eq in Eac, Ebc. subst a b. rewrite !Ascii.eqb_refl.
  now apply (IH q s).
Qed.

(** Two prefixes of which neither starts with the other exclude each other. *)
Lemma startswith_excludes (p q s : string) :
  Py.startswith p q = false -> Py.startswith q p = false ->
  Py.startswith p s = true -> Py.startswith q s = false.
Proof.
  intros Hpq Hqp Hp. destruct (Py.startswith q s) eqn:Hq; [| reflexivity].
  destruct (startswith_both p q s Hp Hq) as [F|F]; congruence.
Qed.

Ltac excluded Hp :=
  match goal with
  | |- Py.startswith ?q ?s = false =>
      apply (fun a b => startswith_excludes _ q s a b Hp); vm_compute; reflexivity
  end.

(** ** The monad *)

Section MonadLaws.
Context `{Externals}.

Lemma bind_ret {A B} (m : M A) (k : A -> M B) (st st' : State) (a : A) :
  m st = (Ret a, st') -> bind m k st = k a st'.
Proof. intros Hm. unfold bind. now rewrite Hm. Qed.

Lemma bind_raise {A B} (m : M A) (k : A -> M B) (st st' : State) (e : PyExc) :
  m st = (Raise e, st') -> bind m k st = (Raise e, st').
Proof. intros Hm. unfold bind. now rewrite Hm. Qed.

Lemma bind_hang {A B} (m : M A) (k : A -> M B) (st st' : State) :
  m st = (Hang, st') -> bind m k st = (Hang, st').
Proof. intros Hm. unfold bind. now rewrite Hm. Qed.
End MonadLaws.

(** Two runs are equal when their results and the four components of their
    final states are: the form in which a computed run is compared. *)
Lemma run_eq `{Externals} {A} (x : Res A * State) (r : Res A) (st' : State) :
  fst x = r ->
  st_host (snd x) = st_host st' ->
  st_action (snd x) = st_action st' ->
  st_world (snd x) = st_world st' ->
  st_log (snd x) = st_log st' ->
  x = (r, st').
Proof.
  destruct x as [r0 [h a w l]], st' as [h' a' w' l']; cbn.
  intros -> -> -> -> ->. reflexivity.
Qed.

Ltac run_compute := apply run_eq; vm_compute; reflexivity.

(** ** The remote command builder *)

(** C2.  With [become], a [become_user] and [wrap_bash], [exec_command] hands
    to the transport the line made of [ssh], the ssh options and the timeout
    option when set, the address, and one double-quoted argument: the
    escaped text of [sudo ... -u become_user] followed by
    [/bin/bash -c "cd && command"].  The escaping runs over the assembled
    text, after the wrapping and the prefixing, so the wrapper's own quotes
    and the quotes of the command come out with a backslash, and no double
    quote of the argument is left without one. *)
Theorem exec_command_become_wrap_bash `{Externals} (self : SSHClient.t)
    (command become_user : string) :
  become_user <> EmptyString ->
  let assembled :=
    "sudo -H --non-interactive -u " +:+ become_user +:+ " "
      +:+ "/bin/bash -c " +:+ dquote +:+ "cd && " +:+ command +:+ dquote in
  SSHClient.exec_command self (CmdStr command) true become_user true
  = SSHClient._run_remote_command self
      ("ssh "
       +:+ (if negb (String.eqb (SSHClient.ssh_options self) EmptyString)
            then SSHClient.ssh_options self +:+ " " else EmptyString)
       +:+ (if negb (SSHClient.timeout self =? 0)
            then "-o ConnectTimeout=" +:+ Py.fmt_d (SSHClient.timeout self) +:+ " "
            else EmptyString)
       +:+ (if negb (String.eqb (SSHClient.ssh_user self) EmptyString)
            then SSHClient.ssh_user self +:+ "@" else EmptyString)
       +:+ SSHClient.host self
       +:+ " " +:+ dquote +:+ escape assembled +:+ dquote)
  /\ escape assembled
     = "sudo -H --non-interactive -u " +:+ escape become_user
         +:+ " /bin/bash -c \" +:+ dquote +:+ "cd && " +:+ escape command
         +:+ "\" +:+ dquote
  /\ quotes_escaped (escape assembled) = true.
Proof.
  intros Hu assembled. split; [| split].
  - unfold SSHClient.exec_command. f_equal.
    unfold SSHClient.remote_command, SSHClient.inner_command, SSHClient._remote_address.
    apply String.eqb_neq in Hu. rewrite Hu. cbn [negb].
    unfold escape, assembled.
    destruct (negb (String.eqb (SSHClient.ssh_options self) EmptyString));
      destruct (negb (SSHClient.timeout self =? 0));
      destruct (negb (String.eqb (SSHClient.ssh_user self) EmptyString));
      norm_assoc; cbv [append dquote]; reflexivity.
  - subst assembled. push_escape. unfold dquote. escape_literals.
    cbv [append]. reflexivity.
  - apply quotes_escaped_escape.
Qed.

Lemma exec_command_become_wrap_bash_witness :
  "deploy" <> EmptyString
  /\ escape ("sudo -H --non-interactive -u " +:+ "deploy" +:+ " "
             +:+ "/bin/bash -c " +:+ dquote +:+ "cd && " +:+ "ls /tmp" +:+ dquote)
     = "sudo -H --non-interactive -u deploy /bin/bash -c \" +:+ dquote
         +:+ "cd && ls /tmp\" +:+ dquote.
Proof.
  split; [discriminate |].
  pose proof (@exec_command_become_wrap_bash (demo (fun _ => inl EmptyString) [] 1)
                (SSHClient.mk "example.org" "master" EmptyString EmptyString 5
                   false false false ∅)
                "ls /tmp" "deploy" ltac:(discriminate)) as [_ [Heq _]].
  exact Heq.
Defined.

(** ** The template renderer *)

Section RenderLoop.
Context `{Externals}.

Lemma render_string_unfold (tpl : string) (st : State) :
  Host.render_string tpl st
  = (recursive_render patience tpl (HostData.context (st_host st)), st).
Proof. reflexivity. Qed.

(** A pass that raises ends the loop with its exception. *)
Lemma recursive_render_raises (k n : nat) (tpl s : string)
    (values : gmap string Value) (e : PyExc) :
  reaches k tpl values = Some s ->
  jinja_render s values = inl e ->
  (k < n)%nat ->
  recursive_render n tpl values = Raise e.
Proof.
  revert n tpl. induction k as [|k IH]; intros n tpl Hr He Hlt.
  - injection Hr as ->. destruct n as [|n]; [lia |]. cbn. now rewrite He.
  - destruct n as [|n]; [lia |]. cbn in Hr |- *.
    destruct (jinja_render tpl values) as [e'|curr]; [discriminate |].
    destruct (negb (String.eqb curr tpl)); [| discriminate].
    apply IH; [assumption | assumption | lia].
Qed.

(** A pass that changes nothing ends the loop with its text. *)
Lemma recursive_render_returns (k n : nat) (tpl s : string)
    (values : gmap string Value) :
  reaches k tpl values = Some s ->
  jinja_render s values = inr s ->
  (k < n)%nat ->
  recursive_render n tpl values = Ret s.
Proof.
  revert n tpl. induction k as [|k IH]; intros n tpl Hr He Hlt.
  - injection Hr as ->. destruct n as [|n]; [lia |]. cbn.
    rewrite He, String.eqb_refl. reflexivity.
  - destruct n as [|n]; [lia |]. cbn in Hr |- *.
    destruct (jinja_render tpl values) as [e'|curr]; [discriminate |].
    destruct (negb (String.eqb curr tpl)); [| discriminate].
    apply IH; [assumption | assumption | lia].
Qed.

(** The loop returns only a text that one more pass leaves unchanged. *)
Lemma recursive_render_fixed (n : nat) (tpl s : string) (values : gmap string Value) :
  recursive_render n tpl values = Ret s -> jinja_render s values = inr s.
Proof.
  revert tpl. induction n as [|n IH]; intros tpl; cbn; [discriminate |].
  destruct (jinja_render tpl values) as [e|curr] eqn:Hj; [discriminate |].
  destruct (String.eqb curr tpl) eqn:Heq; cbn.
  - intros [= <-]. apply String.eqb_eq in Heq. now rewrite Heq at 1.
  - apply IH.
Qed.

(** C8, as amended.  The loop of [render_string] has no iteration bound and
    no error of its own: followed for [n] passes, it has returned a text only
    if some pass left that text unchanged, it has raised only the exception
    of one of its passes, and it is still running exactly when all [n] passes
    changed the text. *)
Theorem recursive_render_unbounded (n : nat) (tpl : string)
    (values : gmap string Value) :
  match recursive_render n tpl values with
  | Ret s =>
      exists k, (k < n)%nat /\ reaches k tpl values = Some s
                /\ jinja_render s values = inr s
  | Raise e =>
      exists k s, (k < n)%nat /\ reaches k tpl values = Some s
                  /\ jinja_render s values = inl e
  | Hang => exists s, reaches n tpl values = Some s
  end.
Proof.
  revert tpl. induction n as [|n IH]; intros tpl.
  - cbn. now exists tpl.
  - cbn. destruct (jinja_render tpl values) as [e|curr] eqn:Hj.
    + exists 0%nat, tpl. repeat split; [lia | assumption].
    + destruct (String.eqb curr tpl) eqn:Heq; cbn.
      * apply String.eqb_eq in Heq. subst curr.
        exists 0%nat. repeat split; [lia | assumption].
      * specialize (IH curr).
        destruct (recursive_render n curr values) as [s|e|].
        -- destruct IH as (k & Hk & Hr & Hs). exists (S k). repeat split; [lia | | assumption].
           cbn [reaches]. now rewrite Hj, Heq.
        -- destruct IH as (k & s & Hk & Hr & Hs). exists (S k), s.
           repeat split; [lia | | assumption]. cbn [reaches]. now rewrite Hj, Heq.
        -- destruct IH as (s & Hr). exists s. cbn [reaches]. now rewrite ?Hj, ?Heq.
Qed.

(** C7.  When [render_string] returns a text, rendering that text again
    returns it unchanged. *)
Theorem render_string_idempotent (tpl s : string) (st st' : State) :
  Host.render_string tpl st = (Ret s, st') ->
  st' = st /\ Host.render_string s st' = (Ret s, st').
Proof.
  rewrite render_string_unfold. intros Hrun. injection Hrun as Hr <-.
  split; [reflexivity |]. rewrite render_string_unfold. f_equal.
  pose proof (recursive_render_fixed _ _ _ _ Hr) as Hfix.
  assert (Hpos : (0 < patience)%nat).
  { destruct patience; [discriminate Hr | lia]. }
  apply (recursive_render_returns 0); [reflexivity | assumption | assumption].
Qed.
End RenderLoop.

Lemma render_string_idempotent_witness :
  let st := demo_state silent_oracle [] 5
              (host_with "web1" "10.0.0.1"
                 (<[ "greeting" := VStr "hello {{ user }}" ]> {[ "user" := VStr "deploy" ]})) in
  Host.render_string "{{ greeting }}" st = (Ret "hello deploy", st)
  /\ Host.render_string "hello deploy" st = (Ret "hello deploy", st).
Proof.
  intros st.
  assert (Hrun : Host.render_string "{{ greeting }}" st = (Ret "hello deploy", st))
    by run_compute.
  split; [exact Hrun |].
  exact (proj2 (render_string_idempotent "{{ greeting }}" "hello deploy" st st Hrun)).
Defined.

(** The modelled Jinja pass on the two templates of the cyclic context. *)
Lemma cyclic_pass_a :
  MiniJinja.render demo_py_str "{{ a }}" cyclic_context = Some (inr "{{ b }}").
Proof. vm_compute. reflexivity. Qed.

Lemma cyclic_pass_b :
  MiniJinja.render demo_py_str "{{ b }}" cyclic_context = Some (inr "{{ a }}").
Proof. vm_compute. reflexivity. Qed.

Lemma cyclic_never_ends (oracle : string -> string + string) (files : list string)
    (m n : nat) :
  recursive_render (H := demo oracle files m) n "{{ a }}" cyclic_context = Hang
  /\ recursive_render (H := demo oracle files m) n "{{ b }}" cyclic_context = Hang.
Proof.
  induction n as [|n [IHa IHb]]; [split; reflexivity |].
  split; cbn [recursive_render jinja_render demo].
  - rewrite cyclic_pass_a. exact IHb.
  - rewrite cyclic_pass_b. exact IHa.
Qed.

(** C8, as stated, fails: with two variables that name each other the loop
    never returns and never raises, however many passes are followed. *)
Lemma render_string_cyclic_never_ends :
  cyclic_context !! "a" = Some (VStr "{{ b }}")
  /\ cyclic_context !! "b" = Some (VStr "{{ a }}")
  /\ forall n : nat,
       Host.render_string "{{ a }}"
         (demo_state silent_oracle [] n (host_with "web1" "10.0.0.1" cyclic_context))
       = (Hang, demo_state silent_oracle [] n (host_with "web1" "10.0.0.1" cyclic_context)).
Proof.
  split; [reflexivity |]. split; [reflexivity |].
  intros n. rewrite render_string_unfold. f_equal.
  exact (proj1 (cyclic_never_ends silent_oracle [] n n)).
Qed.

(** Strict undefined in the modelled pass: a placeholder whose name is
    missing makes the pass raise, for the first such placeholder. *)
Lemma substitute_undefined (to_str : Value -> string) (ps : list MiniJinja.Piece)
    (values : gmap string Value) (name : string) :
  MiniJinja.PVar name ∈ ps ->
  values !! name = None ->
  exists name', MiniJinja.PVar name' ∈ ps /\ values !! name' = None
                /\ MiniJinja.substitute to_str ps values = inl (MiniJinja.undefined name').
Proof.
  induction ps as [|p ps IH]; intros Hin Hnone.
  - inversion Hin.
  - apply elem_of_cons in Hin as [Heq | Hin].
    + subst p. exists name. cbn [MiniJinja.substitute]. rewrite Hnone.
      split_and!; [apply list_elem_of_here | done | done].
    + destruct (IH Hin Hnone) as (name' & Hm & Hn & Hs).
      destruct p as [c|x]; cbn [MiniJinja.substitute].
      * exists name'. rewrite Hs.
        split_and!; [now apply elem_of_cons; right | done | done].
      * destruct (values !! x) as [v|] eqn:Hx.
        -- exists name'. rewrite Hs.
           split_and!; [now apply elem_of_cons; right | done | done].
        -- exists x. split_and!; [apply list_elem_of_here | done | done].
Qed.

(** C6.  When the loop of [render_string] reaches a text at some pass, an
    exception of that pass is the outcome of [render_string]: it is not
    caught, nothing is put in the place of the placeholder, and no string is
    returned.  With the strict pass of Jinja2 on a text of plain
    placeholders, one of which names a key missing from the host's context,
    that exception is [UndefinedError] for a missing name of the text. *)
Theorem render_string_undefined `{Externals} (tpl s : string) (k : nat) (st : State) :
  reaches k tpl (HostData.context (st_host st)) = Some s ->
  (k < patience)%nat ->
  (forall e : PyExc,
     jinja_render s (HostData.context (st_host st)) = inl e ->
     Host.render_string tpl st = (Raise e, st))
  /\ (forall (ps : list MiniJinja.Piece) (name : string),
        strict_pass s (HostData.context (st_host st)) ->
        HostData.context (st_host st) !! "self" = None ->
        MiniJinja.tokenize s = Some ps ->
        MiniJinja.PVar name ∈ ps ->
        HostData.context (st_host st) !! name = None ->
        exists name',
          MiniJinja.PVar name' ∈ ps
          /\ HostData.context (st_host st) !! name' = None
          /\ exc_class (MiniJinja.undefined name') = UndefinedError
          /\ Host.render_string tpl st = (Raise (MiniJinja.undefined name'), st)).
Proof.
  intros Hr Hk.
  assert (Hraise : forall e : PyExc,
             jinja_render s (HostData.context (st_host st)) = inl e ->
             Host.render_string tpl st = (Raise e, st)).
  { intros e He. rewrite render_string_unfold. f_equal.
    now apply (recursive_render_raises k _ tpl s). }
  split; [exact Hraise |].
  intros ps name Hj Hself Htok Hin Hnone.
  destruct (substitute_undefined py_str ps _ name Hin Hnone) as (name' & Hm & Hn & Hs).
  exists name'. split_and!; [assumption | assumption | reflexivity |].
  apply Hraise, Hj. unfold MiniJinja.render.
  rewrite Hself, Htok, Hs. reflexivity.
Qed.

Lemma render_string_undefined_witness :
  let st := demo_state silent_oracle [] 5
              (host_with "web1" "10.0.0.1" {[ "a" := VStr "{{ missing }}" ]}) in
  Host.render_string "{{ a }}" st = (Raise (MiniJinja.undefined "missing"), st)
  /\ exists name',
       MiniJinja.PVar name' ∈ [MiniJinja.PVar "missing"]
       /\ HostData.context (st_host st) !! name' = None
       /\ exc_class (MiniJinja.undefined name') = UndefinedError
       /\ Host.render_string "{{ a }}" st = (Raise (MiniJinja.undefined name'), st).
Proof.
  intros st.
  assert (Hr : reaches (H := demo silent_oracle [] 5) 1 "{{ a }}"
                 (HostData.context (st_host st)) = Some "{{ missing }}")
    by (vm_compute; reflexivity).
  assert (Hk : (1 < patience (Externals := demo silent_oracle [] 5))%nat) by (cbn; lia).
  destruct (render_string_undefined (H := demo silent_oracle [] 5)
              "{{ a }}" "{{ missing }}" 1 st Hr Hk) as [Hraise Hstrict].
  split.
  - apply Hraise. vm_compute. reflexivity.
  - apply (Hstrict [MiniJinja.PVar "missing"] "missing").
    + intros r Hrender. vm_compute in Hrender. injection Hrender as <-.
      vm_compute. reflexivity.
    + vm_compute. reflexivity.
    + vm_compute. reflexivity.
    + apply list_elem_of_here.
    + vm_compute. reflexivity.
Defined.

(** ** The expression evaluator *)

Section Evaluator.
Context `{Externals}.

Lemma check_remote_path_exists_dry (path : Value) (dir : bool)
    (action : option Action.t) (st : State) :
  HostData.dry_run (st_host st) = true ->
  Host.check_remote_path_exists path dir action st = (Ret false, st).
Proof.
  intros Hd. unfold Host.check_remote_path_exists, bind, get_self. now rewrite Hd.
Qed.

Lemma evaluate_expression_unfold (expression text : string) (action : option Action.t)
    (st : State) :
  Host.render_string expression st = (Ret text, st) ->
  Host.evaluate_expression expression action st
  = let scope := scope_of (st_host st) expression action text in
    let arg := lift_sum (py_eval scope (inner_text_of text)) in
    (if Py.startswith "results[" text then lift_sum (py_eval scope ("self." +:+ text))
     else if Py.startswith "eval(" text then arg
     else if Py.startswith "not_exists_dir(" text then
       path <- arg ;; found <- Host.check_remote_path_exists path true action ;;
       ret (VBool (negb found))
     else if Py.startswith "exists_dir(" text then
       path <- arg ;; found <- Host.check_remote_path_exists path true action ;;
       ret (VBool found)
     else if Py.startswith "not_exists_file(" text then
       path <- arg ;; found <- Host.check_remote_path_exists path false action ;;
       ret (VBool (negb found))
     else if Py.startswith "exists_file(" text then
       path <- arg ;; found <- Host.check_remote_path_exists path false action ;;
       ret (VBool found)
     else ret (VStr text)) st.
Proof.
  intros Hr. unfold Host.evaluate_expression.
  rewrite (bind_ret _ _ _ _ _ Hr). reflexivity.
Qed.

(** C10.  On a host in dry-run mode [check_remote_path_exists] answers
    [False] for every path and leaves the state as it was: no command is
    handed to the transport and nothing is logged.  So an expression whose
    rendered text starts with [exists_dir(] or [exists_file(] evaluates to
    [False], and one that starts with [not_exists_dir(] or
    [not_exists_file(] to [True], whenever its argument evaluates. *)
Theorem dry_run_path_checks (st : State) :
  HostData.dry_run (st_host st) = true ->
  (forall path dir action,
     Host.check_remote_path_exists path dir action st = (Ret false, st))
  /\ (forall expression action text path,
        Host.render_string expression st = (Ret text, st) ->
        py_eval (scope_of (st_host st) expression action text) (inner_text_of text)
        = inr path ->
        (Py.startswith "exists_dir(" text = true \/ Py.startswith "exists_file(" text = true ->
         Host.evaluate_expression expression action st = (Ret (VBool false), st))
        /\ (Py.startswith "not_exists_dir(" text = true
            \/ Py.startswith "not_exists_file(" text = true ->
            Host.evaluate_expression expression action st = (Ret (VBool true), st))).
Proof.
  intros Hd. split; [intros; now apply check_remote_path_exists_dry |].
  intros expression action text path Hr He.
  rewrite (evaluate_expression_unfold _ _ _ _ Hr). cbv zeta.
  assert (Harg : lift_sum (py_eval (scope_of (st_host st) expression action text)
                             (inner_text_of text)) st = (Ret path, st))
    by (unfold lift_sum; now rewrite He).
  assert (Hgo : forall dir (f : bool -> bool),
             (path <- lift_sum (py_eval (scope_of (st_host st) expression action text)
                                  (inner_text_of text)) ;;
              found <- Host.check_remote_path_exists path dir action ;;
              ret (VBool (f found))) st = (Ret (VBool (f false)), st)).
  { intros dir f. rewrite (bind_ret _ _ _ _ _ Harg).
    now rewrite (bind_ret _ _ _ _ _ (check_remote_path_exists_dry path dir action st Hd)). }
  split; intros [Hp | Hp].
  - replace (Py.startswith "results[" text) with false by (symmetry; excluded Hp).
    replace (Py.startswith "eval(" text) with false by (symmetry; excluded Hp).
    replace (Py.startswith "not_exists_dir(" text) with false by (symmetry; excluded Hp).
    rewrite Hp. apply (Hgo true (fun b => b)).
  - replace (Py.startswith "results[" text) with false by (symmetry; excluded Hp).
    replace (Py.startswith "eval(" text) with false by (symmetry; excluded Hp).
    replace (Py.startswith "not_exists_dir(" text) with false by (symmetry; excluded Hp).
    replace (Py.startswith "exists_dir(" text) with false by (symmetry; excluded Hp).
    replace (Py.startswith "not_exists_file(" text) with false by (symmetry; excluded Hp).
    rewrite Hp. apply (Hgo false (fun b => b)).
  - replace (Py.startswith "results[" text) with false by (symmetry; excluded Hp).
    replace (Py.startswith "eval(" text) with false by (symmetry; excluded Hp).
    rewrite Hp. apply (Hgo true negb).
  - replace (Py.startswith "results[" text) with false by (symmetry; excluded Hp).
    replace (Py.startswith "eval(" text) with false by (symmetry; excluded Hp).
    replace (Py.startswith "not_exists_dir(" text) with false by (symmetry; excluded Hp).
    replace (Py.startswith "exists_dir(" text) with false by (symmetry; excluded Hp).
    rewrite Hp. apply (Hgo false negb).
Qed.


(** C4.  When the rendered text is [eval(], an argument with no closing
    parenthesis in it, a closing parenthesis and anything after, the text
    handed to [eval] is that argument (what stands between the first opening
    and the first closing parenthesis of the whole text) and
    [evaluate_expression] ends as [eval] does on it, with its value when it
    has one. *)
Theorem evaluate_expression_eval (expression inner rest : string)
    (action : option Action.t) (st : State) :
  let text := "eval(" +:+ inner +:+ ")" +:+ rest in
  Host.render_string expression st = (Ret text, st) ->
  Py.find ")" inner = -1 ->
  inner_text_of text = inner
  /\ Host.evaluate_expression expression action st
     = lift_sum (py_eval (scope_of (st_host st) expression action text) inner) st
  /\ forall v, py_eval (scope_of (st_host st) expression action text) inner = inr v ->
               Host.evaluate_expression expression action st = (Ret v, st).
Proof.
  intros text Hr Hi.
  pose proof (inner_text_of_eval inner rest Hi) as Hin. fold text in Hin.
  assert (Hev : Host.evaluate_expression expression action st
                = lift_sum (py_eval (scope_of (st_host st) expression action text) inner) st).
  { rewrite (evaluate_expression_unfold _ _ _ _ Hr). cbv zeta. rewrite Hin.
    replace (Py.startswith "results[" text) with false by reflexivity.
    replace (Py.startswith "eval(" text) with true by reflexivity.
    reflexivity. }
  split; [assumption |]. split; [assumption |].
  intros v Hv. rewrite Hev. unfold lift_sum. now rewrite Hv.
Qed.
End Evaluator.

(** [evaluate("eval(1 + 2)", host, action) == 3], and an argument with
    parentheses of its own is cut at its first closing one. *)
Example inner_text_nested : inner_text_of "eval((1 + 2) * 3)" = "(1 + 2".
Proof. reflexivity. Qed.

Lemma evaluate_expression_eval_witness :
  let st := demo_state silent_oracle [] 5 (host_with "web1" "10.0.0.1" ∅) in
  Host.evaluate_expression "eval(1 + 2)" None st = (Ret (VInt 3), st).
Proof.
  intros st.
  assert (Hr : Host.render_string "eval(1 + 2)" st
               = (Ret ("eval(" +:+ "1 + 2" +:+ ")" +:+ ""), st))
    by run_compute.
  destruct (evaluate_expression_eval (H := demo silent_oracle [] 5)
              "eval(1 + 2)" "1 + 2" "" None st Hr eq_refl) as (_ & _ & Hv).
  apply Hv. reflexivity.
Defined.

Lemma dry_run_path_checks_witness :
  let st := demo_state silent_oracle [] 5 (dry (host_with "web1" "10.0.0.1" ∅)) in
  HostData.dry_run (st_host st) = true
  /\ Host.evaluate_expression "exists_dir('/var/www')" (Some Action.default) st
     = (Ret (VBool false), st)
  /\ Host.evaluate_expression "not_exists_file('/etc/motd')" (Some Action.default) st
     = (Ret (VBool true), st).
Proof.
  intros st.
  assert (Hd : HostData.dry_run (st_host st) = true) by reflexivity.
  destruct (dry_run_path_checks (H := demo silent_oracle [] 5) st Hd) as [_ Hexpr].
  split; [exact Hd |]. split.
  - refine (proj1 (Hexpr "exists_dir('/var/www')" (Some Action.default)
                     "exists_dir('/var/www')" (VStr "/var/www") _ _) _).
    + run_compute.
    + vm_compute. reflexivity.
    + left. reflexivity.
  - refine (proj2 (Hexpr "not_exists_file('/etc/motd')" (Some Action.default)
                     "not_exists_file('/etc/motd')" (VStr "/etc/motd") _ _) _).
    + run_compute.
    + vm_compute. reflexivity.
    + right. reflexivity.
Defined.

(** Without the dry-run flag the same expression asks the remote side. *)
Example exists_dir_asks_remote :
  let st := demo_state silent_oracle [] 5 (host_with "web1" "10.0.0.1" ∅) in
  let run := Host.evaluate_expression "exists_dir('/var/www')" (Some Action.default) st in
  fst run = Ret (VBool true)
  /\ st_world (snd run)
     = ["ssh 10.0.0.1 " +:+ dquote +:+ "/bin/bash -c \" +:+ dquote
        +:+ "cd && test -d \" +:+ dquote +:+ "/var/www\" +:+ dquote
        +:+ "\" +:+ dquote +:+ dquote].
Proof. split; vm_compute; reflexivity. Qed.

(** ** The guard of the dispatcher *)

Lemma truthy_false_iff (v : Value) : truthy v = false <-> v ∈ falsy_values.
Proof.
  unfold falsy_values. rewrite !elem_of_cons, elem_of_nil. split.
  - destruct v as [|b|z|s|d]; cbn; intros Hv.
    + now left.
    + subst b. right. now left.
    + apply negb_false_iff, Z.eqb_eq in Hv. subst z. right. right. now left.
    + apply negb_false_iff, String.eqb_eq in Hv. subst s. right. right. right. now left.
    + apply negb_false_iff, bool_decide_eq_true in Hv. subst d.
      right. right. right. right. now left.
  - intros [-> | [-> | [-> | [-> | [-> | []]]]]]; reflexivity.
Qed.

Section Guard.
Context `{Externals}.

Lemma run_action_unfold (action : Action.t) (d x c : bool) (st : State) :
  Host.run_action action d x c st
  = ((if x then Host.dump action else ret tt) ;;;
     skip <- Host.guard action ;;
     if skip then Host.log_message ["skipped"] else Host.dispatch action)
      (announced action d x c st).
Proof. reflexivity. Qed.

(** Without the debug dump the guard comes right after the banner. *)
Lemma run_action_proceeds (action : Action.t) (d c : bool) (st : State) :
  Host.run_action action d false c st
  = (skip <- Host.guard action ;;
     if skip then Host.log_message ["skipped"] else Host.dispatch action)
      (announced action d false c st).
Proof. reflexivity. Qed.

(** With the debug dump the call ends right after the banner. *)
Lemma run_action_dump (action : Action.t) (d c : bool) (st : State) :
  Host.run_action action d true c st = (Raise json_unbound, announced action d true c st).
Proof. reflexivity. Qed.

(** A line without placeholders and without a call is logged as it is. *)
Lemma log_message_plain (line : string) (st : State) :
  jinja_render line (HostData.context (st_host st)) = inr line ->
  (0 < patience)%nat ->
  Py.startswith "results[" line = false ->
  Py.startswith "eval(" line = false ->
  Py.startswith "not_exists_dir(" line = false ->
  Py.startswith "exists_dir(" line = false ->
  Py.startswith "not_exists_file(" line = false ->
  Py.startswith "exists_file(" line = false ->
  Host.log_message [line] st
  = (Ret tt, logged (message_event (HostData.colorize (st_host st)) (Py.strip line)) st).
Proof.
  intros Hj Hp H1 H2 H3 H4 H5 H6.
  assert (Hr : Host.render_string line st = (Ret line, st)).
  { rewrite render_string_unfold. f_equal.
    apply (recursive_render_returns 0); [reflexivity | assumption | assumption]. }
  unfold Host.log_message. cbn [for_each].
  assert (He : Host.evaluate_expression line None st = (Ret (VStr line), st)).
  { rewrite (evaluate_expression_unfold _ _ _ _ Hr). cbv zeta.
    now rewrite H1, H2, H3, H4, H5, H6. }
  unfold bind. rewrite He. unfold get_self, message_event. cbn [py_str].
  destruct (HostData.colorize (st_host st)); reflexivity.
Qed.

(** The routing on the type, one handler at a time. *)
Lemma dispatch_handler (action : Action.t) (handler : M unit) :
  (Action.type action, handler) ∈ handlers action -> Host.dispatch action = handler.
Proof.
  unfold handlers, Host.dispatch. rewrite !elem_of_cons, elem_of_nil.
  intros [Hh | [Hh | [Hh | [Hh | [Hh | [Hh | []]]]]]];
    injection Hh as -> ->; reflexivity.
Qed.

Lemma dispatch_unknown (action : Action.t) (st : State) :
  Action.type action ∉ known_types ->
  Host.dispatch action st = (Raise (unknown_type (Action.type action)), st).
Proof.
  unfold known_types. rewrite !not_elem_of_cons. intros (H1 & H2 & H3 & H4 & H5 & H6 & _).
  unfold Host.dispatch.
  apply String.eqb_neq in H1, H2, H3, H4, H5, H6.
  now rewrite H1, H2, H3, H4, H5, H6.
Qed.

Lemma dispatch_dispatches (action : Action.t) (st : State) :
  dispatches action (Host.dispatch action st) st.
Proof.
  split.
  - intros handler Hh. now rewrite (dispatch_handler _ _ Hh).
  - apply dispatch_unknown.
Qed.

(** C5.  In a run without the debug dump, [run_action] stores the flags,
    logs the banner and then: with no [when] it hands the action to the
    handler of its type ([execute_command] for [command], [execute_mkdirs]
    for [mkdirs], [log_message] on the items for [message], [execute_stat]
    for [stat_dir] and [stat_file], [execute_copy] for [copy]); with a [when]
    whose evaluation returns [result], it logs [skipped] and enters no
    handler when [result] is falsy, and hands the action to the handler of
    its type otherwise.  The skipped run ends with the state the guard left,
    one logged line added. *)
Theorem run_action_guard (action : Action.t) (d c : bool) (st : State) :
  let st1 := announced action d false c st in
  let run := Host.run_action action d false c st in
  (Action.when action = EmptyString -> dispatches action run st1)
  /\ (Action.when action <> EmptyString ->
      forall (result : Value) (st2 : State),
        Host.evaluate_expression (Action.when action) (Some action) st1 = (Ret result, st2) ->
        (result ∈ falsy_values ->
         run = Host.log_message ["skipped"] st2
         /\ (jinja_render "skipped" (HostData.context (st_host st2)) = inr "skipped" ->
             (0 < patience)%nat ->
             run = (Ret tt,
                    logged (message_event (HostData.colorize (st_host st2)) "skipped") st2)))
        /\ (result ∉ falsy_values -> dispatches action run st2)).
Proof.
  intros st1 run. subst run. rewrite run_action_proceeds. fold st1. split.
  - intros Hw. unfold Host.guard, bind. rewrite Hw. cbn [String.eqb negb ret].
    apply dispatch_dispatches.
  - intros Hw result st2 He. apply String.eqb_neq in Hw.
    assert (Hg : Host.guard action st1 = (Ret (negb (truthy result)), st2)).
    { unfold Host.guard. rewrite Hw. cbn [negb].
      rewrite (bind_ret _ _ _ _ _ He). now destruct (truthy result). }
    rewrite (bind_ret _ _ _ _ _ Hg). split.
    + intros Hf. apply truthy_false_iff in Hf. rewrite Hf. cbn [negb].
      split; [reflexivity |]. intros Hj Hp.
      now rewrite (log_message_plain "skipped" st2 Hj Hp).
    + intros Hf. destruct (truthy result) eqn:Ht; cbn [negb].
      * apply dispatch_dispatches.
      * now apply truthy_false_iff in Ht.
Qed.
End Guard.

Lemma run_action_guard_witness :
  let st := demo_state silent_oracle [] 5 (host_with "web1" "10.0.0.1" ∅) in
  let skipped := Host.run_action (touch "eval(0)") false false false st in
  let run := Host.run_action (touch "eval(1)") false false false st in
  skipped = (Ret tt, logged (EvMessage "skipped")
                       (announced (touch "eval(0)") false false false st))
  /\ run = Host.execute_command (touch "eval(1)")
             (announced (touch "eval(1)") false false false st)
  /\ st_world (snd run) = ["ssh 10.0.0.1 " +:+ dquote +:+ "touch /tmp/x" +:+ dquote].
Proof.
  intros st skipped run.
  pose proof (run_action_guard (H := demo silent_oracle [] 5) (touch "eval(0)")
                false false st) as [_ Hskip].
  pose proof (run_action_guard (H := demo silent_oracle [] 5) (touch "eval(1)")
                false false st) as [_ Hrun].
  split; [| split].
  - refine (proj2 (proj1 (Hskip ltac:(discriminate) (VInt 0) _ _) _) _ _).
    + run_compute.
    + unfold falsy_values. rewrite !elem_of_cons. right. right. now left.
    + vm_compute. reflexivity.
    + cbn. lia.
  - refine (proj1 (proj2 (Hrun ltac:(discriminate) (VInt 1) _ _) _) _ _).
    + run_compute.
    + unfold falsy_values. rewrite !elem_of_cons, elem_of_nil.
      intros [Hv | [Hv | [Hv | [Hv | [Hv | []]]]]]; discriminate Hv.
    + apply list_elem_of_here.
  - vm_compute. reflexivity.
Defined.

(** ** The transfer builder and the [copy] handler *)

Lemma app_if (b : bool) (x y : string) :
  (if b then x +:+ y else x) = x +:+ (if b then y else EmptyString).
Proof. destruct b; [reflexivity | now rewrite app_empty_r]. Qed.

Section Copy.
Context `{Externals}.

Lemma for_each_ext {A} (f g : A -> M unit) (l : list A) :
  (forall x st, f x st = g x st) -> forall st, for_each l f st = for_each l g st.
Proof.
  intros Hfg. induction l as [|x l IH]; intros st; [reflexivity |].
  cbn [for_each]. unfold bind. rewrite Hfg.
  destruct (g x st) as [[[]|e|] st']; [apply IH | reflexivity | reflexivity].
Qed.

(** The line [exec_rsync] builds from what [run_rsync] forwards. *)
Lemma rsync_command_forwarded (self : HostData.t) (action : Action.t) (source : string)
    (destination : Value) (silent : bool) :
  SSHClient.rsync_command (Host.client self action silent) source destination
    (Action.become action) (Action.become_user action)
    (negb (truthy (Host.extra_get action "force" (VBool false))))
    (Host.extra_get action "mode" (VStr EmptyString))
    (Host.extra_get action "owner" (VStr EmptyString))
    (Host.extra_get action "group" (VStr EmptyString))
  = transfer_line self action source destination.
Proof.
  unfold SSHClient.rsync_command, transfer_line, transfer_overrides, remote_elevation,
    SSHClient._remote_address.
  cbn [Host.client SSHClient.timeout SSHClient.rsync_options SSHClient.ssh_user
       SSHClient.host].
  change (negb (String.eqb EmptyString EmptyString)) with false. cbv zeta iota.
  rewrite !append_nil.
  destruct (truthy (Host.extra_get action "force" (VBool false))); cbn [negb];
    rewrite !app_if; norm_assoc; reflexivity.
Qed.

Lemma register_result_returns (action : Action.t) (result : string) (st : State) :
  exists st', Host.register_result action result st = (Ret tt, st').
Proof.
  unfold Host.register_result.
  destruct (negb (String.eqb (Action.register action) EmptyString)); eexists; reflexivity.
Qed.

(** One pass of the loop of [execute_copy]. *)
Lemma execute_copy_item (action : Action.t) (destination : Value) (item : string)
    (st : State) :
  (self <- get_self ;;
   let source := Py.path_join (HostData.files_foldername self) item in
   w <- get_world ;;
   if negb (isfile source w) then
     raise (mkExc Exception_ ("File " +:+ dquote +:+ source +:+ dquote +:+ " not found"))
   else
     Host.run_rsync action source destination false ;;;
     ret tt) st
  = copy_item action destination item st.
Proof.
  unfold copy_item, Host.run_rsync, PackageSSHClient.exec_rsync, bind, get_self,
    get_world.
  cbv zeta.
  destruct (isfile (Py.path_join (HostData.files_foldername (st_host st)) item)
              (st_world st)); cbn [negb]; [| reflexivity].
  cbv beta. rewrite rsync_command_forwarded.
  destruct (SSHClient._run_remote_command (Host.client (st_host st) action false)
              (transfer_line (st_host st) action
                 (Py.path_join (HostData.files_foldername (st_host st)) item) destination) st)
    as [[result|e|] st1]; [| reflexivity | reflexivity].
  destruct (register_result_returns action result st1) as [st2 ->]. reflexivity.
Qed.

(** C9.  [execute_copy] raises when [extra] has no [destination];
    otherwise, for an action that does not ask for a template, it goes
    through the items in order and, for each, resolves it against the files
    root and hands to the transport the rsync line in which [extra.force]
    appears inverted as [--ignore-existing], [extra.mode] as [--chmod],
    [extra.owner] and [extra.group] as [--chown], and the privilege elevation
    as the [--rsync-path] of the remote side.  The transfer goes through the
    [exec_rsync] of the package, which stands here as the spec describes it;
    the line is the one the [exec_rsync] of [deploy/ssh_client.py] builds
    from the same arguments. *)
Theorem execute_copy_transfers (action : Action.t) (st : State) :
  (Action.extra action !! "destination" = None ->
   Host.execute_copy action st
   = (Raise (mkExc Exception_
               ("Missing attribute extra[" +:+ dquote +:+ "destination" +:+ dquote +:+ "]")),
      st))
  /\ (forall destination : Value,
        Action.extra action !! "destination" = Some destination ->
        truthy (Host.extra_get action "template" (VBool false)) = false ->
        Host.execute_copy action st
        = for_each (Action.items action) (copy_item action destination) st)
  /\ (forall (self : HostData.t) (source : string) (destination : Value),
        SSHClient.exec_rsync (Host.client self action false) source destination
          (Action.become action) (Action.become_user action)
          (negb (truthy (Host.extra_get action "force" (VBool false))))
          (Host.extra_get action "mode" (VStr EmptyString))
          (Host.extra_get action "owner" (VStr EmptyString))
          (Host.extra_get action "group" (VStr EmptyString))
        = SSHClient._run_remote_command (Host.client self action false)
            (transfer_line self action source destination)).
Proof.
  split; [| split].
  - intros Hd. unfold Host.execute_copy, Host.check_required_action_extra_params.
    cbn [for_each]. unfold bind at 1 2. now rewrite Hd.
  - intros destination Hd _.
    unfold Host.execute_copy, Host.check_required_action_extra_params, Host.extra_item.
    cbn [for_each]. unfold bind at 1 2 3. rewrite Hd. cbn [ret].
    apply for_each_ext. intros item st0. apply execute_copy_item.
  - intros self source destination. unfold SSHClient.exec_rsync.
    now rewrite rsync_command_forwarded.
Qed.
End Copy.

Lemma execute_copy_transfers_witness :
  let st := demo_state silent_oracle ["files/a.txt"; "files/b.txt"] 5
              (host_with "web1" "10.0.0.1" ∅) in
  let line (source : string) :=
    "rsync -avz --progress --timeout=30 --ignore-existing --chmod=" +:+ dquote +:+ "0644"
      +:+ dquote +:+ " --chown=" +:+ dquote +:+ "www:" +:+ dquote
      +:+ " --rsync-path=" +:+ dquote +:+ "sudo -u root rsync" +:+ dquote
      +:+ " " +:+ dquote +:+ source +:+ dquote
      +:+ " " +:+ dquote +:+ "10.0.0.1:/srv/www/" +:+ dquote +:+ " " in
  Action.extra upload !! "destination" = Some (VStr "/srv/www/")
  /\ Action.extra upload !! "template" = None
  /\ fst (Host.execute_copy upload st) = Ret tt
  /\ st_world (snd (Host.execute_copy upload st)) = [line "files/a.txt"; line "files/b.txt"].
Proof.
  intros st line.
  assert (Hd : Action.extra upload !! "destination" = Some (VStr "/srv/www/"))
    by (vm_compute; reflexivity).
  assert (Ht : Action.extra upload !! "template" = None) by (vm_compute; reflexivity).
  split; [exact Hd |]. split; [exact Ht |].
  rewrite (proj1 (proj2 (execute_copy_transfers (H := demo silent_oracle
                           ["files/a.txt"; "files/b.txt"] 5) upload st)) _ Hd
             ltac:(unfold Host.extra_get; rewrite Ht; reflexivity)).
  split; vm_compute; reflexivity.
Defined.

(** ** The stat handler *)

(** *** Splitting what was joined *)

Lemma find_cons_absent (c x : ascii) (s : string) :
  Py.find c (String x s) = -1 -> Ascii.eqb x c = false /\ Py.find c s = -1.
Proof.
  cbn [Py.find]. destruct (Ascii.eqb x c); [discriminate |]. cbv zeta.
  pose proof (find_ge c s). destruct (Py.find c s <? 0) eqn:E.
  - apply Z.ltb_lt in E. intros _. split; [reflexivity | lia].
  - apply Z.ltb_ge in E. lia.
Qed.

Lemma find_app_none (c : ascii) (a b : string) :
  Py.find c a = -1 -> Py.find c b = -1 -> Py.find c (a +:+ b) = -1.
Proof.
  induction a as [|x a IH]; intros Ha Hb; [now rewrite append_nil |].
  apply find_cons_absent in Ha as [Hx Ha]. rewrite append_cons. cbn [Py.find].
  rewrite Hx, (IH Ha Hb). reflexivity.
Qed.

Lemma split_absent (sep : ascii) (s : string) :
  Py.find sep s = -1 -> Py.split sep s = [s].
Proof.
  induction s as [|x s IH]; intros Hs; [reflexivity |].
  apply find_cons_absent in Hs as [Hx Hs]. cbn [Py.split]. now rewrite Hx, (IH Hs).
Qed.

Lemma split_app (sep : ascii) (a b : string) :
  Py.find sep a = -1 -> Py.split sep (a +:+ String sep b) = a :: Py.split sep b.
Proof.
  induction a as [|x a IH]; intros Ha.
  - rewrite append_nil. cbn [Py.split]. now rewrite Ascii.eqb_refl.
  - apply find_cons_absent in Ha as [Hx Ha]. rewrite append_cons. cbn [Py.split].
    now rewrite Hx, (IH Ha).
Qed.

Lemma split_join (sep : ascii) (pieces : list string) :
  pieces <> [] ->
  Forall (fun p => Py.find sep p = -1) pieces ->
  Py.split sep (Py.join (String sep EmptyString) pieces) = pieces.
Proof.
  unfold Py.join. induction pieces as [|p pieces IH]; intros Hne Hall; [done |].
  apply Forall_cons in Hall as [Hp Hall]. destruct pieces as [|q pieces].
  - cbn [String.concat]. now apply split_absent.
  - change (String.concat (String sep EmptyString) (p :: q :: pieces))
      with (p +:+ String sep (String.concat (String sep EmptyString) (q :: pieces))).
    rewrite (split_app _ _ _ Hp). f_equal. now apply IH.
Qed.

(** *** Parsing the fields *)

Lemma parse_fields_pairs (kvs : list (string * string)) (acc : gmap string Value) :
  Forall (fun kv => Py.find ":" kv.1 = -1 /\ Py.find ":" kv.2 = -1) kvs ->
  Host.parse_fields (map (fun kv => kv.1 +:+ ":" +:+ kv.2) kvs) acc
  = inr (foldl (fun acc kv => <[kv.1 := VStr (Py.strip kv.2)]> acc) acc kvs).
Proof.
  revert acc. induction kvs as [|[k v] kvs IH]; intros acc Hall; [reflexivity |].
  apply Forall_cons in Hall as [[Hk Hv] Hall]. cbn [fst snd] in Hk, Hv.
  cbn [map Host.parse_fields fst snd foldl].
  change (":" +:+ v) with (String ":" v).
  rewrite (split_app _ _ _ Hk), (split_absent _ _ Hv). now apply IH.
Qed.

Lemma foldl_insert_other (kvs : list (string * string)) (acc : gmap string Value)
    (k : string) :
  k ∉ kvs.*1 ->
  foldl (fun acc kv => <[kv.1 := VStr (Py.strip kv.2)]> acc) acc kvs !! k = acc !! k.
Proof.
  revert acc. induction kvs as [|[k' v'] kvs IH]; intros acc Hk; [reflexivity |].
  cbn [foldl fst snd]. rewrite fmap_cons, not_elem_of_cons in Hk. destruct Hk as [Hne Hk].
  rewrite (IH _ Hk). now apply lookup_insert_ne.
Qed.

Lemma foldl_insert_lookup (kvs : list (string * string)) (acc : gmap string Value)
    (i : nat) (k v : string) :
  NoDup kvs.*1 ->
  kvs !! i = Some (k, v) ->
  foldl (fun acc kv => <[kv.1 := VStr (Py.strip kv.2)]> acc) acc kvs !! k
  = Some (VStr (Py.strip v)).
Proof.
  revert acc i. induction kvs as [|[k' v'] kvs IH]; intros acc i Hnd Hi; [done |].
  rewrite fmap_cons, NoDup_cons in Hnd. destruct Hnd as [Hk' Hnd]. cbn [foldl fst snd].
  destruct i as [|i].
  - injection Hi as -> ->. rewrite (foldl_insert_other _ _ _ Hk').
    apply lookup_insert_eq.
  - now apply (IH _ i).
Qed.

Lemma stat_fields_plain : Forall plain Host.stat_fields.
Proof. unfold Host.stat_fields. repeat constructor. Qed.

Lemma Forall_zip {A B} (P : A -> Prop) (Q : B -> Prop) (l : list A) (k : list B) :
  Forall P l -> Forall Q k -> Forall (fun ab => P ab.1 /\ Q ab.2) (zip l k).
Proof.
  intros Hl. revert k. induction Hl as [|a l Ha Hl IH]; intros k Hk; [constructor |].
  destruct Hk as [|b k Hb Hk]; [constructor |]. cbn [zip_with]. constructor; [done |].
  now apply IH.
Qed.

(** The output of the stat query, when it has the requested format, parses
    into the record of its values. *)
Lemma parse_stat_output (values : list string) :
  length values = 14%nat ->
  Forall plain values ->
  Host.parse_response (stat_output values) = inr (stat_record values).
Proof.
  intros Hlen Hplain. unfold Host.parse_response, stat_output, stat_record.
  pose proof (Forall_zip _ _ _ _ stat_fields_plain Hplain) as Hkv.
  rewrite split_join.
  - apply parse_fields_pairs. eapply Forall_impl; [exact Hkv |].
    intros [k v] [[_ Hk] [_ Hv]]. now split.
  - destruct values as [|v values]; [discriminate Hlen | discriminate].
  - apply List.Forall_map. eapply Forall_impl; [exact Hkv |].
    intros [k v] [[Hk _] [Hv _]]. cbn [fst snd] in *.
    apply find_app_none; [assumption |]. apply find_app_none; [reflexivity | assumption].
Qed.

(** The registered mapping of a present path: [exists] and the fourteen
    fields. *)
Lemma stat_record_fields (values : list string) :
  length values = 14%nat ->
  let d := merge_dicts {[ "exists" := VBool true ]} (stat_record values) in
  d !! "exists" = Some (VBool true)
  /\ forall (i : nat) (c v : string),
       Host.stat_fields !! i = Some c -> values !! i = Some v ->
       d !! c = Some (VStr (Py.strip v)).
Proof.
  intros Hlen d. subst d. unfold merge_dicts, stat_record.
  assert (Hfst : (zip Host.stat_fields values).*1 = Host.stat_fields).
  { apply fst_zip. rewrite Hlen. reflexivity. }
  split.
  - rewrite lookup_union_r; [apply lookup_singleton_eq |].
    rewrite foldl_insert_other; [apply lookup_empty |]. rewrite Hfst.
    unfold Host.stat_fields. rewrite !not_elem_of_cons. split_and!; try discriminate.
    apply not_elem_of_nil.
  - intros i c v Hc Hv. apply lookup_union_Some_l.
    apply (foldl_insert_lookup _ _ i).
    + rewrite Hfst. apply (bool_decide_unpack _). vm_compute. exact I.
    + rewrite lookup_zip_with, Hc, Hv. reflexivity.
Qed.

(** The parse fails in one way only. *)
Lemma parse_fields_error (ts : list string) (acc : gmap string Value) (e : PyExc) :
  Host.parse_fields ts acc = inl e -> e = mkExc IndexError "list index out of range".
Proof.
  revert acc. induction ts as [|t ts IH]; intros acc; cbn [Host.parse_fields];
    [discriminate |].
  destruct (Py.split ":" t) as [|k [|v rest]]; [now intros [= <-] | now intros [= <-] |].
  apply IH.
Qed.

Section Stat.
Context `{Externals}.

(** *** What [run_ssh] leaves alone *)

Lemma run_remote_command_action (self : SSHClient.t) (line : string) (st : State) :
  st_action (snd (SSHClient._run_remote_command self line st)) = st_action st.
Proof.
  unfold SSHClient._run_remote_command, SSHClient.run_subprocess, bind, lift, log, ret.
  destruct (SSHClient.render_string self line) as [line'|e|]; cbn; try reflexivity.
  destruct (negb (SSHClient.dry_run self)); cbn; [| reflexivity].
  destruct (check_output line' (st_world st)) as [[out|out] w]; reflexivity.
Qed.

Lemma run_ssh_action (action : Action.t) (command : string) (silent : bool) (st : State) :
  st_action (snd (Host.run_ssh action command silent st)) = st_action st.
Proof.
  unfold Host.run_ssh, SSHClient.exec_command, bind, get_self.
  pose proof (run_remote_command_action (Host.client (st_host st) action silent)
                (SSHClient.remote_command (Host.client (st_host st) action silent)
                   (CmdStr command) (Action.become action) (Action.become_user action)
                   (Action.wrap_bash action)) st) as Hrun.
  destruct (SSHClient._run_remote_command _ _ st) as [[out|e|] st1]; cbn in Hrun |- *;
    try assumption.
  unfold Host.register_result.
  destruct (negb (String.eqb (Action.register action) EmptyString)); cbn; assumption.
Qed.

(** *** The two checks *)

Lemma check_register (action : Action.t) (st : State) :
  Host.check_required_action_params action ["register"] st
  = if String.eqb (Action.register action) EmptyString
    then (Raise (mkExc Exception_
                   ("Missing attribute " +:+ dquote +:+ "register" +:+ dquote)), st)
    else (Ret tt, st).
Proof.
  unfold Host.check_required_action_params, Host.getattr_truthy. cbn [for_each].
  unfold bind.
  change (Action.attr_truthy action "register")
    with (Some (negb (String.eqb (Action.register action) EmptyString))).
  destruct (String.eqb (Action.register action) EmptyString); reflexivity.
Qed.

Lemma check_extra (action : Action.t) (p : string) (st : State) :
  Host.check_required_action_extra_params action [p] st
  = match Action.extra action !! p with
    | Some _ => (Ret tt, st)
    | None => (Raise (mkExc Exception_
                        ("Missing attribute extra[" +:+ dquote +:+ p +:+ dquote +:+ "]")),
               st)
    end.
Proof.
  unfold Host.check_required_action_extra_params. cbn [for_each]. unfold bind.
  destruct (Action.extra action !! p); reflexivity.
Qed.

(** [execute_stat] once both checks have passed. *)
Lemma execute_stat_checked (action : Action.t) (dir : bool) (path : Value) (st : State) :
  Action.register action <> EmptyString ->
  Action.extra action !! "path" = Some path ->
  let action' := Action.set_wrap_bash false action in
  Host.execute_stat action dir st
  = (result <- try_except
                 (Host.run_ssh action' (Host.test_command dir path) true ;;;
                  response <- Host.run_ssh action' (Host.stat_command path) false ;;
                  parsed_response <- lift_sum (Host.parse_response response) ;;
                  ret (merge_dicts {[ "exists" := VBool true ]} parsed_response))
                 CalledProcessError
                 (ret {[ "exists" := VBool false ]}) ;;
     modify_self (HostData.set_result (Action.register action) (VDict result)))
      (unwrapped st).
Proof.
  intros Hr Hp action'. apply String.eqb_neq in Hr.
  unfold Host.execute_stat.
  unfold bind at 1. rewrite check_register, Hr.
  unfold bind at 1. rewrite check_extra, Hp.
  unfold bind at 1. cbn [modify_action].
  unfold bind at 1, Host.extra_item. cbn [Action.extra Action.set_wrap_bash].
  rewrite Hp. reflexivity.
Qed.

(** X19.  What [execute_stat] does, case by case.  It raises when
    [register] is empty or [extra] has no [path], with nothing changed.
    Otherwise it sets [wrap_bash] to false on the action object and runs the
    existence test, then the stat query, without the shell wrapper.  When the
    test fails with [CalledProcessError] it registers [{'exists': False}]
    alone; when the test returns and the stat query fails with
    [CalledProcessError] it registers the same; when both return and the
    answer parses it registers the parsed fields merged over [exists: True],
    a parsed key winning over [exists]; when the answer does not parse, a
    piece of it having no colon, the handler raises [IndexError] in the state
    the stat query left.  For an answer in the requested
    format, fourteen values with no [|] and no [:] inside, the parse gives
    the fourteen fields, each stripped, and [exists] is true. *)
Theorem execute_stat_outcome (action : Action.t) (dir : bool) (st : State) :
  let action' := Action.set_wrap_bash false action in
  let r := Action.register action in
  let absent : gmap string Value := {[ "exists" := VBool false ]} in
  let present (fields : gmap string Value) := merge_dicts {[ "exists" := VBool true ]} fields in
  (r = EmptyString ->
   Host.execute_stat action dir st
   = (Raise (mkExc Exception_ ("Missing attribute " +:+ dquote +:+ "register" +:+ dquote)),
      st))
  /\ (r <> EmptyString -> Action.extra action !! "path" = None ->
      Host.execute_stat action dir st
      = (Raise (mkExc Exception_
                  ("Missing attribute extra[" +:+ dquote +:+ "path" +:+ dquote +:+ "]")),
         st))
  /\ (forall path : Value,
        r <> EmptyString -> Action.extra action !! "path" = Some path ->
        Action.wrap_bash action' = false
        /\ st_action (snd (Host.execute_stat action dir st))
           = Action.set_wrap_bash false (st_action st)
        /\ (forall e st1,
              Host.run_ssh action' (Host.test_command dir path) true (unwrapped st)
              = (Raise e, st1) ->
              exc_class e = CalledProcessError ->
              Host.execute_stat action dir st = (Ret tt, recorded r absent st1))
        /\ (forall out st1,
              Host.run_ssh action' (Host.test_command dir path) true (unwrapped st)
              = (Ret out, st1) ->
              (forall e st2,
                 Host.run_ssh action' (Host.stat_command path) false st1 = (Raise e, st2) ->
                 exc_class e = CalledProcessError ->
                 Host.execute_stat action dir st = (Ret tt, recorded r absent st2))
              /\ (forall response fields st2,
                    Host.run_ssh action' (Host.stat_command path) false st1
                    = (Ret response, st2) ->
                    Host.parse_response response = inr fields ->
                    Host.execute_stat action dir st
                    = (Ret tt, recorded r (present fields) st2))
              /\ (forall response e st2,
                    Host.run_ssh action' (Host.stat_command path) false st1
                    = (Ret response, st2) ->
                    Host.parse_response response = inl e ->
                    exc_class e = IndexError
                    /\ Host.execute_stat action dir st = (Raise e, st2))))
  /\ (forall values : list string,
        length values = 14%nat -> Forall plain values ->
        Host.parse_response (stat_output values) = inr (stat_record values)
        /\ present (stat_record values) !! "exists" = Some (VBool true)
        /\ forall (i : nat) (c v : string),
             Host.stat_fields !! i = Some c -> values !! i = Some v ->
             present (stat_record values) !! c = Some (VStr (Py.strip v))).
Proof.
  intros action' r absent present. split_and!.
  - intros Hr. unfold Host.execute_stat. unfold bind at 1.
    rewrite check_register. fold r. now rewrite Hr.
  - intros Hr Hp. apply String.eqb_neq in Hr. unfold Host.execute_stat.
    unfold bind at 1. rewrite check_register. fold r. rewrite Hr.
    unfold bind at 1. now rewrite check_extra, Hp.
  - intros path Hr Hp. rewrite (execute_stat_checked action dir path st Hr Hp).
    fold action' r.
    pose proof (run_ssh_action action' (Host.test_command dir path) true (unwrapped st))
      as Hframe1.
    change (st_action (unwrapped st)) with (Action.set_wrap_bash false (st_action st))
      in Hframe1.
    split_and!.
    + reflexivity.
    + unfold bind at 1, try_except, bind at 1.
      destruct (Host.run_ssh action' (Host.test_command dir path) true (unwrapped st))
        as [[out|e|] st1]; cbn [snd] in Hframe1.
      * pose proof (run_ssh_action action' (Host.stat_command path) false st1) as Hframe2.
        unfold bind at 1.
        destruct (Host.run_ssh action' (Host.stat_command path) false st1)
          as [[response|e|] st2]; cbn [snd] in Hframe2.
        -- unfold bind, lift_sum.
           destruct (Host.parse_response response) as [e|fields]; cbn;
             [destruct (bool_decide (exc_class e = CalledProcessError)); cbn |]; congruence.
        -- destruct (bool_decide (exc_class e = CalledProcessError)); cbn; congruence.
        -- cbn. congruence.
      * destruct (bool_decide (exc_class e = CalledProcessError)); cbn; congruence.
      * cbn. congruence.
    + intros e st1 Hrun Hcls. unfold bind at 1, try_except, bind at 1.
      rewrite Hrun. now rewrite bool_decide_eq_true_2.
    + intros out st1 Hrun. split_and!.
      * intros e st2 Hstat Hcls. unfold bind at 1, try_except, bind at 1.
        rewrite Hrun. unfold bind at 1. rewrite Hstat.
        now rewrite bool_decide_eq_true_2.
      * intros response fields st2 Hstat Hparse. unfold bind at 1, try_except, bind at 1.
        rewrite Hrun. unfold bind at 1. rewrite Hstat.
        unfold bind, lift_sum. now rewrite Hparse.
      * intros response e st2 Hstat Hparse.
        pose proof (parse_fields_error _ _ _ Hparse) as ->. split; [reflexivity |].
        unfold bind at 1, try_except, bind at 1.
        rewrite Hrun. unfold bind at 1. rewrite Hstat.
        unfold bind, lift_sum. now rewrite Hparse.
  - intros values Hlen Hplain. split; [now apply parse_stat_output |].
    apply (stat_record_fields values Hlen).
Qed.
End Stat.

(** C3.  The stat handler on a path that is there, on a remote side whose
    [stat] refuses the query: the existence test succeeds, the stat query
    that follows fails, and the handler returns with [{'exists': False}]
    registered, the record of a path that is not there.  The [except] clause
    that was written for the test also catches the failure of the query. *)
Lemma execute_stat_present_yet_absent :
  let st := demo_state test_only_oracle [] 5 (host_with "web1" "10.0.0.1" ∅) in
  let run := Host.execute_stat stat_logs true st in
  fst (Host.run_ssh (Action.set_wrap_bash false stat_logs)
         (Host.test_command (H := demo test_only_oracle [] 5) true (VStr "/home/deploy/logs"))
         true (unwrapped st))
  = Ret EmptyString
  /\ fst run = Ret tt
  /\ HostData.results (st_host (snd run)) !! "logs"
     = Some (VDict {[ "exists" := VBool false ]}).
Proof. split_and!; vm_compute; reflexivity. Qed.

Lemma execute_stat_outcome_witness :
  let st := demo_state present_oracle [] 5 (host_with "web1" "10.0.0.1" ∅) in
  let run := Host.execute_stat stat_logs true st in
  let d := merge_dicts {[ "exists" := VBool true ]} (stat_record logs_values) in
  fst run = Ret tt
  /\ HostData.results (st_host (snd run)) !! "logs" = Some (VDict d)
  /\ d !! "exists" = Some (VBool true)
  /\ d !! "a" = Some (VStr "755")
  /\ d !! "Z" = Some (VStr "1688596626").
Proof.
  intros st run d. pose (E := demo present_oracle [] 5).
  destruct (execute_stat_outcome (H := E) stat_logs true st)
    as (_ & _ & Hrun & Hformat).
  assert (Hplain : Forall plain logs_values) by (repeat constructor).
  destruct (Hformat logs_values eq_refl Hplain) as (Hparse & Hexists & Hfields).
  assert (Hpath : Action.extra stat_logs !! "path" = Some (VStr "/home/deploy/logs"))
    by (vm_compute; reflexivity).
  destruct (Hrun _ ltac:(discriminate) Hpath) as (_ & _ & _ & Hpresent).
  set (action' := Action.set_wrap_bash false stat_logs).
  set (st1 := snd (Host.run_ssh action' (Host.test_command true (VStr "/home/deploy/logs"))
                     true (unwrapped st))).
  set (st2 := snd (Host.run_ssh action' (Host.stat_command (VStr "/home/deploy/logs"))
                     false st1)).
  assert (Hrun1 : Host.run_ssh action' (Host.test_command true (VStr "/home/deploy/logs"))
                    true (unwrapped st) = (Ret EmptyString, st1)) by run_compute.
  assert (Hrun2 : Host.run_ssh action' (Host.stat_command (VStr "/home/deploy/logs"))
                    false st1 = (Ret (stat_output logs_values), st2)) by run_compute.
  assert (Hdone : run = (Ret tt, recorded "logs" d st2))
    by exact (proj1 (proj2 (Hpresent _ _ Hrun1)) _ _ _ Hrun2 Hparse).
  rewrite Hdone. split_and!.
  - reflexivity.
  - apply lookup_insert_eq.
  - exact Hexists.
  - exact (Hfields 0%nat "a" "755" eq_refl eq_refl).
  - exact (Hfields 13%nat "Z" _ eq_refl eq_refl).
Defined.

(** ** The run loop *)

(** *** What the handlers leave alone *)

Section Quiet.
Context `{Externals}.

Lemma quiet_step_refl (st : State) : quiet_step st st.
Proof.
  repeat split. exists []. split; [now rewrite app_nil_r | reflexivity].
Qed.

Lemma quiet_step_trans (st1 st2 st3 : State) :
  quiet_step st1 st2 -> quiet_step st2 st3 -> quiet_step st1 st3.
Proof.
  intros (Hn1 & He1 & Ht1 & evs1 & Hl1 & Hq1) (Hn2 & He2 & Ht2 & evs2 & Hl2 & Hq2).
  split_and!; [congruence | congruence | congruence |].
  exists (evs1 ++ evs2)%list. split.
  - now rewrite Hl2, Hl1, <- app_assoc.
  - rewrite forallb_app, Hq1, Hq2. reflexivity.
Qed.

Lemma quiet_ret {A} (a : A) : quiet (ret a).
Proof. intros st. apply quiet_step_refl. Qed.

Lemma quiet_raise {A} (e : PyExc) : quiet (raise (A := A) e).
Proof. intros st. apply quiet_step_refl. Qed.

Lemma quiet_lift {A} (r : Res A) : quiet (lift r).
Proof. intros st. apply quiet_step_refl. Qed.

Lemma quiet_lift_sum {A} (r : PyExc + A) : quiet (lift_sum r).
Proof. intros st. apply quiet_step_refl. Qed.

Lemma quiet_get_self : quiet get_self.
Proof. intros st. apply quiet_step_refl. Qed.

Lemma quiet_get_world : quiet get_world.
Proof. intros st. apply quiet_step_refl. Qed.

Lemma quiet_bind {A B} (m : M A) (k : A -> M B) :
  quiet m -> (forall a, quiet (k a)) -> quiet (bind m k).
Proof.
  intros Hm Hk st. unfold bind. specialize (Hm st).
  destruct (m st) as [[a|e|] st1]; cbn [snd] in Hm |- *; [| assumption | assumption].
  exact (quiet_step_trans _ _ _ Hm (Hk a st1)).
Qed.

Lemma quiet_try_except {A} (body : M A) (cls : ExcClass) (handler : M A) :
  quiet body -> quiet handler -> quiet (try_except body cls handler).
Proof.
  intros Hb Hh st. unfold try_except. specialize (Hb st).
  destruct (body st) as [[a|e|] st1]; cbn [snd] in Hb |- *; [assumption | | assumption].
  destruct (bool_decide (exc_class e = cls)); [| assumption].
  exact (quiet_step_trans _ _ _ Hb (Hh st1)).
Qed.

Lemma quiet_for_each {A} (l : list A) (body : A -> M unit) :
  (forall x, quiet (body x)) -> quiet (for_each l body).
Proof.
  intros Hb. induction l as [|x l IH]; cbn [for_each]; [apply quiet_ret |].
  apply quiet_bind; [apply Hb | intros _; exact IH].
Qed.

Lemma quiet_log (ev : Event) : no_banner ev = true -> quiet (log ev).
Proof.
  intros Hev st. repeat split. exists [ev]. split; [reflexivity |].
  cbn. now rewrite Hev.
Qed.

Lemma quiet_modify_self (f : HostData.t -> HostData.t) :
  (forall h, HostData.name (f h) = HostData.name h) ->
  (forall h, HostData.errors (f h) = HostData.errors h) ->
  quiet (modify_self f).
Proof.
  intros Hn He st. split_and!; cbn; [apply Hn | apply He | reflexivity |].
  exists []. split; [now rewrite app_nil_r | reflexivity].
Qed.

Lemma quiet_modify_action (f : Action.t -> Action.t) :
  (forall a, Action.title (f a) = Action.title a) -> quiet (modify_action f).
Proof.
  intros Ht st. split_and!; cbn; [reflexivity | reflexivity | apply Ht |].
  exists []. split; [now rewrite app_nil_r | reflexivity].
Qed.

Lemma quiet_run_subprocess (line : string) : quiet (SSHClient.run_subprocess line).
Proof.
  intros st. unfold SSHClient.run_subprocess.
  destruct (check_output line (st_world st)) as [[out|out] w]; cbn;
    (split_and!; [reflexivity | reflexivity | reflexivity |]);
    exists []; (split; [now rewrite app_nil_r | reflexivity]).
Qed.
End Quiet.

(** The computations of the engine are built from the ones above. *)
Ltac quiet_step_tac :=
  match goal with
  | |- quiet (ret _) => apply quiet_ret
  | |- quiet (raise _) => apply quiet_raise
  | |- quiet (lift _) => apply quiet_lift
  | |- quiet (lift_sum _) => apply quiet_lift_sum
  | |- quiet get_self => apply quiet_get_self
  | |- quiet get_world => apply quiet_get_world
  | |- quiet (SSHClient.run_subprocess _) => apply quiet_run_subprocess
  | |- quiet (log _) => apply quiet_log; reflexivity
  | |- quiet (modify_self _) => apply quiet_modify_self; intros ?; reflexivity
  | |- quiet (modify_action _) => apply quiet_modify_action; intros ?; reflexivity
  | |- quiet (bind _ _) => apply quiet_bind; [| intros ?]
  | |- quiet (try_except _ _ _) => apply quiet_try_except
  | |- quiet (for_each _ _) => apply quiet_for_each; intros ?
  | |- quiet (if ?b then _ else _) => destruct b
  | |- quiet (match ?x with _ => _ end) => destruct x
  | H : forall _, quiet _ |- quiet _ => apply H
  | H : forall _ _, quiet _ |- quiet _ => apply H
  | H : forall _ _ _, quiet _ |- quiet _ => apply H
  | H : forall _ _ _ _, quiet _ |- quiet _ => apply H
  end.

Ltac quiet_tac := repeat (cbv beta zeta; quiet_step_tac).

Section QuietHost.
Context `{Externals}.

Lemma quiet_run_remote_command (self : SSHClient.t) (line : string) :
  quiet (SSHClient._run_remote_command self line).
Proof. unfold SSHClient._run_remote_command. quiet_tac. Qed.

Lemma quiet_register_result (action : Action.t) (result : string) :
  quiet (Host.register_result action result).
Proof. unfold Host.register_result. quiet_tac. Qed.

Lemma quiet_run_ssh (action : Action.t) (command : string) (silent : bool) :
  quiet (Host.run_ssh action command silent).
Proof.
  unfold Host.run_ssh, SSHClient.exec_command.
  pose proof quiet_run_remote_command. pose proof quiet_register_result.
  quiet_tac.
Qed.

Lemma quiet_run_rsync (action : Action.t) (source : string) (destination : Value)
    (silent : bool) :
  quiet (Host.run_rsync action source destination silent).
Proof.
  unfold Host.run_rsync, PackageSSHClient.exec_rsync.
  pose proof quiet_run_remote_command. pose proof quiet_register_result.
  quiet_tac.
Qed.

Lemma quiet_render_string (string : String.string) : quiet (Host.render_string string).
Proof. unfold Host.render_string. quiet_tac. Qed.

Lemma quiet_check_remote_path_exists (path : Value) (dir : bool)
    (action : option Action.t) :
  quiet (Host.check_remote_path_exists path dir action).
Proof.
  unfold Host.check_remote_path_exists. pose proof quiet_run_ssh. quiet_tac.
Qed.

Lemma quiet_evaluate_expression (expression : string) (action : option Action.t) :
  quiet (Host.evaluate_expression expression action).
Proof.
  unfold Host.evaluate_expression.
  pose proof quiet_render_string. pose proof quiet_check_remote_path_exists.
  quiet_tac.
Qed.

Lemma quiet_log_message (lines : list string) : quiet (Host.log_message lines).
Proof.
  unfold Host.log_message. pose proof quiet_evaluate_expression. quiet_tac.
Qed.

Lemma quiet_execute_mkdirs (action : Action.t) : quiet (Host.execute_mkdirs action).
Proof.
  unfold Host.execute_mkdirs. pose proof quiet_render_string. pose proof quiet_run_ssh.
  quiet_tac.
Qed.

Lemma quiet_check_required_action_params (action : Action.t) (params : list string) :
  quiet (Host.check_required_action_params action params).
Proof. unfold Host.check_required_action_params. quiet_tac. Qed.

Lemma quiet_check_required_action_extra_params (action : Action.t)
    (params : list string) :
  quiet (Host.check_required_action_extra_params action params).
Proof. unfold Host.check_required_action_extra_params. quiet_tac. Qed.

Lemma quiet_extra_item (action : Action.t) (k : string) : quiet (Host.extra_item action k).
Proof. unfold Host.extra_item. quiet_tac. Qed.

Lemma quiet_execute_stat (action : Action.t) (dir : bool) :
  quiet (Host.execute_stat action dir).
Proof.
  unfold Host.execute_stat.
  pose proof quiet_check_required_action_params.
  pose proof quiet_check_required_action_extra_params.
  pose proof quiet_extra_item. pose proof quiet_run_ssh.
  quiet_tac.
Qed.

Lemma quiet_execute_copy (action : Action.t) : quiet (Host.execute_copy action).
Proof.
  unfold Host.execute_copy.
  pose proof quiet_check_required_action_extra_params.
  pose proof quiet_extra_item. pose proof quiet_run_rsync.
  quiet_tac.
Qed.

Lemma quiet_execute_command (action : Action.t) : quiet (Host.execute_command action).
Proof. unfold Host.execute_command. pose proof quiet_run_ssh. quiet_tac. Qed.

Lemma quiet_dispatch (action : Action.t) : quiet (Host.dispatch action).
Proof.
  unfold Host.dispatch.
  pose proof quiet_execute_command. pose proof quiet_execute_mkdirs.
  pose proof quiet_log_message. pose proof quiet_execute_stat.
  pose proof quiet_execute_copy.
  quiet_tac.
Qed.

Lemma quiet_guard (action : Action.t) : quiet (Host.guard action).
Proof. unfold Host.guard. pose proof quiet_evaluate_expression. quiet_tac. Qed.

Lemma quiet_dump (action : Action.t) : quiet (Host.dump action).
Proof. unfold Host.dump. quiet_tac. Qed.

(** After its banner, [run_action] is quiet. *)
Lemma run_action_quiet (action : Action.t) (d x c : bool) (st : State) :
  quiet_step (announced action d x c st) (snd (Host.run_action action d x c st)).
Proof.
  rewrite run_action_unfold.
  pose proof quiet_guard. pose proof quiet_log_message. pose proof quiet_dispatch.
  pose proof quiet_dump.
  assert (Hq : quiet ((if x then Host.dump action else ret tt) ;;;
                      skip <- Host.guard action ;;
                      if skip then Host.log_message ["skipped"] else Host.dispatch action))
    by quiet_tac.
  apply Hq.
Qed.
End QuietHost.

(** *** The banners of the log *)

Lemma dispatched_app (n : string) (l1 l2 : list Event) :
  dispatched n (l1 ++ l2) = (dispatched n l1 ++ dispatched n l2)%list.
Proof. apply flat_map_app. Qed.

Lemma dispatched_quiet (n : string) (evs : list Event) :
  forallb no_banner evs = true -> dispatched n evs = [].
Proof.
  induction evs as [|ev evs IH]; [reflexivity |]. cbn [forallb].
  intros [Hev Hevs]%andb_true_iff. cbn [dispatched flat_map].
  fold (dispatched n evs). rewrite (IH Hevs). now destruct ev.
Qed.

Lemma advances_refl (h : HostData.t) : advances h h.
Proof. repeat split. lia. Qed.

Lemma advances_trans (h1 h2 h3 : HostData.t) :
  advances h1 h2 -> advances h2 h3 -> advances h1 h3.
Proof.
  intros (Hn1 & He1 & Hk1) (Hn2 & He2 & Hk2). split_and!; [congruence | lia |].
  intros Hpos. specialize (Hk1 Hpos). subst h2. now apply Hk2.
Qed.

(** With distinct names, only the host itself contributes to the banners of
    its name. *)
Lemma contribution_other (action : Action.t) (n : string) (hosts : list HostData.t) :
  n ∉ HostData.name <$> hosts -> contribution action n hosts = [].
Proof.
  induction hosts as [|h hosts IH]; [reflexivity |]. rewrite fmap_cons.
  intros [Hne Hn]%not_elem_of_cons. unfold contribution. cbn [flat_map].
  fold (contribution action n hosts). rewrite (IH Hn).
  assert (Heq : String.eqb (HostData.name h) n = false) by (apply String.eqb_neq; congruence).
  rewrite Heq, andb_false_r. reflexivity.
Qed.

Lemma contribution_own (action : Action.t) (hosts : list HostData.t) (i : nat)
    (h : HostData.t) :
  NoDup (HostData.name <$> hosts) ->
  hosts !! i = Some h ->
  contribution action (HostData.name h) hosts
  = if HostData.errors h <=? 0 then [Action.title action] else [].
Proof.
  revert i. induction hosts as [|h0 hosts IH]; intros i Hnd Hi; [done |].
  rewrite fmap_cons in Hnd. apply NoDup_cons in Hnd as [Hh0 Hnd].
  unfold contribution. cbn [flat_map]. fold (contribution action (HostData.name h) hosts).
  destruct i as [|i].
  - injection Hi as ->. rewrite (contribution_other _ _ _ Hh0), String.eqb_refl, andb_true_r.
    now rewrite app_nil_r.
  - cbn in Hi. rewrite (IH i Hnd Hi).
    assert (Heq : String.eqb (HostData.name h0) (HostData.name h) = false).
    { apply String.eqb_neq. intros Heq. apply Hh0. rewrite Heq.
      apply list_elem_of_fmap_2. now apply list_elem_of_lookup_2 with i. }
    now rewrite Heq, andb_false_r.
Qed.

Lemma contribution_title (a b : Action.t) (n : string) (hosts : list HostData.t) :
  Action.title a = Action.title b -> contribution a n hosts = contribution b n hosts.
Proof. intros Ht. unfold contribution. now rewrite Ht. Qed.

Section Loop.
Context `{Externals}.
Variable rich : bool.
Variable args : Args.

(** *** One host, one action *)

Lemma work_host_step (action : Action.t) (h : HostData.t) (w : World)
    (lg : list Event) (st : State) :
  work_host rich args action h w lg = Some st ->
  Action.title (st_action st) = Action.title action
  /\ advances h (st_host st)
  /\ exists evs,
       st_log st
       = (lg ++ (if HostData.errors h <=? 0
                 then [EvBanner (HostData.name h) (Action.title action)] else [])
             ++ evs)%list
       /\ forallb no_banner evs = true.
Proof.
  unfold work_host. destruct (HostData.errors h <=? 0) eqn:Hgate.
  - apply Z.leb_le in Hgate.
    pose proof (run_action_quiet action (args_dry_run args) (args_extra_debug args)
                  (rich && negb (args_no_colors args))
                  {| st_host := h; st_action := action; st_world := w; st_log := lg |})
      as (Hn & He & Ht & evs & Hl & Hq).
    destruct (Host.run_action _ _ _ _ _) as [[u|e|] st1]; cbn in Hn, He, Ht, Hl;
      [| | discriminate].
    + intros [= <-]. split_and!; [assumption | | ].
      * unfold advances. split_and!; [assumption | lia | intros ?; exfalso; lia].
      * exists evs. split; [| assumption]. now rewrite Hl, <- app_assoc.
    + intros [= <-]. cbn. split_and!; [assumption | | ].
      * unfold advances. cbn. split_and!; [assumption | lia | intros ?; exfalso; lia].
      * exists (evs ++ [EvError e] ++ (if args_traceback args then [EvTraceback e] else []))%list.
        split; [rewrite Hl; now rewrite <- !app_assoc |].
        rewrite forallb_app, Hq. now destruct (args_traceback args).
  - apply Z.leb_gt in Hgate. intros [= <-]. cbn. split_and!; [reflexivity | | ].
    + apply advances_refl.
    + exists []. split; [now rewrite !app_nil_r | reflexivity].
Qed.

(** *** All hosts, one action *)

Lemma work_hosts_spec (action : Action.t) (hosts : list HostData.t) (w : World)
    (lg : list Event) (action' : Action.t) (r' : Run) :
  work_hosts rich args action hosts w lg = Some (action', r') ->
  Action.title action' = Action.title action
  /\ Forall2 advances hosts (run_hosts r')
  /\ forall n, dispatched n (run_log r')
               = (dispatched n lg ++ contribution action n hosts)%list.
Proof.
  revert action w lg action' r'.
  induction hosts as [|h hosts IH]; intros action w lg action' r'; cbn [work_hosts].
  - intros [= <- <-]. cbn. split_and!; [reflexivity | constructor |].
    intros n. now rewrite app_nil_r.
  - destruct (work_host rich args action h w lg) as [st|] eqn:Hstep; [| discriminate].
    destruct (work_hosts rich args (st_action st) hosts (st_world st) (st_log st))
      as [[a1 r1]|] eqn:Hrest; [| discriminate].
    intros [= <- <-]. cbn [run_hosts run_log].
    destruct (work_host_step _ _ _ _ _ Hstep) as (Ht & Hadv & evs & Hl & Hq).
    destruct (IH _ _ _ _ _ Hrest) as (Ht1 & Hall & Hd).
    split_and!; [congruence | now constructor |].
    intros n. rewrite Hd, Hl, !dispatched_app, (dispatched_quiet n evs Hq), app_nil_r.
    rewrite (contribution_title _ _ n hosts Ht), <- app_assoc. f_equal.
    unfold contribution at 2. cbn [flat_map]. fold (contribution action n hosts).
    f_equal. destruct (HostData.errors h <=? 0); cbn; [| reflexivity].
    destruct (String.eqb (HostData.name h) n); reflexivity.
Qed.

Lemma advances_names (hosts hosts' : list HostData.t) :
  Forall2 advances hosts hosts' -> HostData.name <$> hosts' = HostData.name <$> hosts.
Proof.
  induction 1 as [|h h' hosts hosts' (Hn & _) _ IH]; [reflexivity |].
  rewrite !fmap_cons. now f_equal.
Qed.

(** *** The whole run *)

(** A run over a list of actions is the run over its first part followed by
    the run over the rest, from the state the first part left: what holds of
    every run holds of the rest of a run. *)
Lemma work_app (actions1 actions2 : list Action.t) (r : Run) :
  work rich args (actions1 ++ actions2) r
  = match work rich args actions1 r with
    | None => None
    | Some (actions1', r1) =>
        match work rich args actions2 r1 with
        | None => None
        | Some (actions2', r2) => Some ((actions1' ++ actions2')%list, r2)
        end
    end.
Proof.
  revert r. induction actions1 as [|a actions1 IH]; intros r.
  - cbn. now destruct (work rich args actions2 r) as [[a2 r2]|].
  - cbn [work app].
    destruct (work_hosts rich args a (run_hosts r) (run_world r) (run_log r))
      as [[a' r1]|]; [| reflexivity].
    rewrite IH. destruct (work rich args actions1 r1) as [[a1' r1']|]; [| reflexivity].
    now destruct (work rich args actions2 r1') as [[a2' r2]|].
Qed.

(** C1.  The body of the inner loop leaves a host whose counter is above
    zero as it is, with the remote side and the log, and does not enter
    [run_action]; for any other host it enters [run_action], and that host's
    counter is unchanged when the call returns and one higher when it raises.
    Over a run that ends, with host names all different: the actions
    dispatched to a host are the first [k] of the list, in order; [k] is zero
    and the host is left as it was when its counter was above zero from the
    start; the first action is dispatched when it was not; and if [k] is
    short of the whole list the host ends with its counter above zero. *)
Theorem work_fail_fast :
  (forall action h w lg,
     0 < HostData.errors h ->
     work_host rich args action h w lg = Some (state_of h action w lg))
  /\ (forall action h w lg,
        HostData.errors h <= 0 ->
        match Host.run_action action (args_dry_run args) (args_extra_debug args)
                (rich && negb (args_no_colors args)) (state_of h action w lg) with
        | (Ret _, st) =>
            work_host rich args action h w lg = Some st
            /\ HostData.errors (st_host st) = HostData.errors h
        | (Raise e, st) =>
            exists st',
              work_host rich args action h w lg = Some st'
              /\ st_host st' = HostData.incr_errors (st_host st)
              /\ HostData.errors (st_host st') = HostData.errors h + 1
        | (Hang, _) => work_host rich args action h w lg = None
        end)
  /\ (forall actions r actions' r',
        work rich args actions r = Some (actions', r') ->
        NoDup (HostData.name <$> run_hosts r) ->
        forall i h,
          run_hosts r !! i = Some h ->
          exists h' k,
            run_hosts r' !! i = Some h'
            /\ advances h h'
            /\ (k <= length actions)%nat
            /\ dispatched (HostData.name h) (run_log r')
               = (dispatched (HostData.name h) (run_log r)
                    ++ (Action.title <$> take k actions))%list
            /\ (0 < HostData.errors h -> k = 0%nat)
            /\ (HostData.errors h <= 0 -> actions <> [] -> (1 <= k)%nat)
            /\ ((k < length actions)%nat -> 0 < HostData.errors h')).
Proof.
  split_and!.
  - intros action h w lg Hpos. unfold work_host.
    now replace (HostData.errors h <=? 0) with false by (symmetry; apply Z.leb_gt; lia).
  - intros action h w lg Hle. unfold work_host.
    replace (HostData.errors h <=? 0) with true by (symmetry; apply Z.leb_le; lia).
    pose proof (run_action_quiet action (args_dry_run args) (args_extra_debug args)
                  (rich && negb (args_no_colors args)) (state_of h action w lg))
      as (_ & He & _).
    unfold state_of in *.
    destruct (Host.run_action _ _ _ _ _) as [[u|e|] st]; cbn in He.
    + now split.
    + eexists. split; [reflexivity |]. cbn. split; [reflexivity | lia].
    + reflexivity.
  - intros actions. induction actions as [|a rest IH]; intros r actions' r' Hwork Hnd i h Hi.
    + cbn in Hwork. injection Hwork as <- <-. exists h, 0%nat.
      split_and!; [assumption | apply advances_refl | cbn; lia | now rewrite app_nil_r
                  | reflexivity | intros _ Hne; now destruct Hne | cbn; lia].
    + cbn [work] in Hwork.
      destruct (work_hosts rich args a (run_hosts r) (run_world r) (run_log r))
        as [[a' r1]|] eqn:Hone; [| discriminate].
      destruct (work rich args rest r1) as [[rest' r2]|] eqn:Hrest; [| discriminate].
      injection Hwork as <- <-.
      destruct (work_hosts_spec _ _ _ _ _ _ Hone) as (_ & Hall & Hd).
      destruct (Forall2_lookup_l _ _ _ _ _ Hall Hi) as (h1 & Hi1 & Hadv1).
      assert (Hnd1 : NoDup (HostData.name <$> run_hosts r1))
        by now rewrite (advances_names _ _ Hall).
      destruct (IH _ _ _ Hrest Hnd1 i h1 Hi1) as (h' & k1 & Hi' & Hadv' & Hk1 & Hd' & Hz & Hf & Hs).
      pose proof Hadv1 as (Hn1 & He1 & Hkeep1).
      rewrite Hn1, Hd, (contribution_own a _ i h Hnd Hi) in Hd'.
      destruct (HostData.errors h <=? 0) eqn:Hgate.
      * apply Z.leb_le in Hgate. exists h', (S k1).
        split_and!; [assumption | now apply advances_trans with h1 | cbn; lia | | lia | lia |].
        -- rewrite Hd', <- app_assoc. reflexivity.
        -- cbn [length]. intros Hlt. apply Hs. lia.
      * apply Z.leb_gt in Hgate. specialize (Hkeep1 Hgate). subst h1.
        specialize (Hz Hgate). subst k1. exists h', 0%nat.
        pose proof Hadv' as (_ & _ & Hkeep'). specialize (Hkeep' Hgate). subst h'.
        split_and!; [assumption | assumption | lia | | reflexivity | lia | intros _; assumption].
        rewrite Hd'. cbn. now rewrite !app_nil_r.
Qed.
End Loop.

(** A finished run is given by the action objects it leaves and the three
    components of its final state. *)
Lemma finished_run_eq `{Externals} (o : option (list Action.t * Run))
    (actions : list Action.t) (hosts : list HostData.t) (w : World) (lg : list Event) :
  option_map fst o = Some actions ->
  option_map (fun x => run_hosts (snd x)) o = Some hosts ->
  option_map (fun x => run_world (snd x)) o = Some w ->
  option_map (fun x => run_log (snd x)) o = Some lg ->
  o = Some (actions, {| run_hosts := hosts; run_world := w; run_log := lg |}).
Proof.
  destruct o as [[a [h w' l]]|]; cbn; [| discriminate].
  now intros [= ->] [= ->] [= ->] [= ->].
Qed.

Lemma work_fail_fast_witness :
  let actions := [step "first" "true"; step "second" "true"; step "third" "true"] in
  exists actions' r',
    work false no_flags actions two_hosts = Some (actions', r')
    /\ dispatched "alpha" (run_log r') = ["first"]
    /\ dispatched "beta" (run_log r') = ["first"; "second"; "third"]
    /\ HostData.errors <$> run_hosts r' = [1; 0]
    /\ exists h' k,
         run_hosts r' !! 0%nat = Some h'
         /\ advances (host_with "alpha" "10.0.0.1" ∅) h'
         /\ (k <= length actions)%nat
         /\ dispatched "alpha" (run_log r')
            = (dispatched "alpha" (run_log two_hosts) ++ (Action.title <$> take k actions))%list
         /\ (0 < HostData.errors (host_with "alpha" "10.0.0.1" ∅) -> k = 0%nat)
         /\ (HostData.errors (host_with "alpha" "10.0.0.1" ∅) <= 0 -> actions <> [] -> (1 <= k)%nat)
         /\ ((k < length actions)%nat -> 0 < HostData.errors h').
Proof.
  intros actions.
  eassert (Hwork : work false no_flags actions two_hosts
                   = Some (_, @mkRun (demo refusing_oracle [] 5) _ _ _)).
  { apply finished_run_eq; vm_compute; reflexivity. }
  refine (ex_intro _ _ (ex_intro _ _ (conj Hwork _))).
  split; [vm_compute; reflexivity |].
  split; [vm_compute; reflexivity |]. split; [vm_compute; reflexivity |].
  refine (proj2 (proj2 (work_fail_fast false no_flags)) actions two_hosts _ _ Hwork _
            0%nat (host_with "alpha" "10.0.0.1" ∅) eq_refl).
  apply (bool_decide_unpack _). vm_compute. exact I.
Defined.

(** ** Dry runs *)

(** *** What a host in dry-run mode leaves alone *)

Section Offline.
Context `{Externals}.

Lemma offline_step_refl (st : State) : offline_step st st.
Proof. intros Hd. now split. Qed.

Lemma offline_step_trans (st1 st2 st3 : State) :
  offline_step st1 st2 -> offline_step st2 st3 -> offline_step st1 st3.
Proof.
  intros H12 H23 Hd. destruct (H12 Hd) as [Hd2 Hw2]. destruct (H23 Hd2) as [Hd3 Hw3].
  split; [assumption | congruence].
Qed.

Lemma offline_ret {A} (a : A) : offline (ret a).
Proof. intros st. apply offline_step_refl. Qed.

Lemma offline_raise {A} (e : PyExc) : offline (raise (A := A) e).
Proof. intros st. apply offline_step_refl. Qed.

Lemma offline_lift {A} (r : Res A) : offline (lift r).
Proof. intros st. apply offline_step_refl. Qed.

Lemma offline_lift_sum {A} (r : PyExc + A) : offline (lift_sum r).
Proof. intros st. apply offline_step_refl. Qed.

Lemma offline_get_self : offline get_self.
Proof. intros st. apply offline_step_refl. Qed.

Lemma offline_get_world : offline get_world.
Proof. intros st. apply offline_step_refl. Qed.

Lemma offline_log (ev : Event) : offline (log ev).
Proof. intros st Hd. now split. Qed.

Lemma offline_modify_action (f : Action.t -> Action.t) : offline (modify_action f).
Proof. intros st Hd. now split. Qed.

Lemma offline_modify_self (f : HostData.t -> HostData.t) :
  (forall h, HostData.dry_run (f h) = HostData.dry_run h) -> offline (modify_self f).
Proof. intros Hf st Hd. cbn. now rewrite Hf. Qed.

Lemma offline_bind {A B} (m : M A) (k : A -> M B) :
  offline m -> (forall a, offline (k a)) -> offline (bind m k).
Proof.
  intros Hm Hk st. unfold bind. specialize (Hm st).
  destruct (m st) as [[a|e|] st1]; cbn [snd] in Hm |- *; [| assumption | assumption].
  exact (offline_step_trans _ _ _ Hm (Hk a st1)).
Qed.

Lemma offline_try_except {A} (body : M A) (cls : ExcClass) (handler : M A) :
  offline body -> offline handler -> offline (try_except body cls handler).
Proof.
  intros Hb Hh st. unfold try_except. specialize (Hb st).
  destruct (body st) as [[a|e|] st1]; cbn [snd] in Hb |- *; [assumption | | assumption].
  destruct (bool_decide (exc_class e = cls)); [| assumption].
  exact (offline_step_trans _ _ _ Hb (Hh st1)).
Qed.

Lemma offline_for_each {A} (l : list A) (body : A -> M unit) :
  (forall x, offline (body x)) -> offline (for_each l body).
Proof.
  intros Hb. induction l as [|x l IH]; cbn [for_each]; [apply offline_ret |].
  apply offline_bind; [apply Hb | intros _; exact IH].
Qed.

(** A client made in dry-run mode logs the line and runs nothing. *)
Lemma run_remote_command_dry (self : SSHClient.t) (line : string) (st : State) :
  SSHClient.dry_run self = true ->
  st_host (snd (SSHClient._run_remote_command self line st)) = st_host st
  /\ st_world (snd (SSHClient._run_remote_command self line st)) = st_world st.
Proof.
  intros Hd. unfold SSHClient._run_remote_command, bind, lift, log, ret. rewrite Hd.
  destruct (SSHClient.render_string self line) as [line'|e|]; cbn; now split.
Qed.
End Offline.

Ltac offline_step_tac :=
  match goal with
  | |- offline (ret _) => apply offline_ret
  | |- offline (raise _) => apply offline_raise
  | |- offline (lift _) => apply offline_lift
  | |- offline (lift_sum _) => apply offline_lift_sum
  | |- offline get_self => apply offline_get_self
  | |- offline get_world => apply offline_get_world
  | |- offline (log _) => apply offline_log
  | |- offline (modify_self _) => apply offline_modify_self; intros ?; reflexivity
  | |- offline (modify_action _) => apply offline_modify_action
  | |- offline (bind _ _) => apply offline_bind; [| intros ?]
  | |- offline (try_except _ _ _) => apply offline_try_except
  | |- offline (for_each _ _) => apply offline_for_each; intros ?
  | |- offline (if ?b then _ else _) => destruct b
  | |- offline (match ?x with _ => _ end) => destruct x
  | H : forall _, offline _ |- offline _ => apply H
  | H : forall _ _, offline _ |- offline _ => apply H
  | H : forall _ _ _, offline _ |- offline _ => apply H
  | H : forall _ _ _ _, offline _ |- offline _ => apply H
  end.

Ltac offline_tac := repeat (cbv beta zeta; offline_step_tac).

Section OfflineHost.
Context `{Externals}.

Lemma offline_register_result (action : Action.t) (result : string) :
  offline (Host.register_result action result).
Proof. unfold Host.register_result. offline_tac. Qed.

Lemma offline_run_ssh (action : Action.t) (command : string) (silent : bool) :
  offline (Host.run_ssh action command silent).
Proof.
  intros st Hd. unfold Host.run_ssh, SSHClient.exec_command, bind, get_self, ret.
  destruct (run_remote_command_dry (Host.client (st_host st) action silent)
              (SSHClient.remote_command (Host.client (st_host st) action silent)
                 (CmdStr command) (Action.become action) (Action.become_user action)
                 (Action.wrap_bash action)) st Hd) as [Hh Hw].
  destruct (SSHClient._run_remote_command _ _ st) as [[out|e|] st1];
    cbn [snd] in Hh, Hw |- *; [| split; congruence | split; congruence].
  pose proof (offline_register_result action out st1) as Hreg.
  assert (Hd1 : HostData.dry_run (st_host st1) = true) by congruence.
  specialize (Hreg Hd1).
  destruct (Host.register_result action out st1) as [[u|e|] st2]; cbn [snd] in Hreg |- *;
    destruct Hreg; split; congruence.
Qed.

Lemma offline_run_rsync (action : Action.t) (source : string) (destination : Value)
    (silent : bool) :
  offline (Host.run_rsync action source destination silent).
Proof.
  intros st Hd. unfold Host.run_rsync, PackageSSHClient.exec_rsync, bind, get_self, ret.
  destruct (run_remote_command_dry (Host.client (st_host st) action silent)
              (SSHClient.rsync_command (Host.client (st_host st) action silent) source
                 destination (Action.become action) (Action.become_user action)
                 (negb (truthy (Host.extra_get action "force" (VBool false))))
                 (Host.extra_get action "mode" (VStr EmptyString))
                 (Host.extra_get action "owner" (VStr EmptyString))
                 (Host.extra_get action "group" (VStr EmptyString))) st Hd) as [Hh Hw].
  destruct (SSHClient._run_remote_command _ _ st) as [[out|e|] st1];
    cbn [snd] in Hh, Hw |- *; [| split; congruence | split; congruence].
  pose proof (offline_register_result action out st1) as Hreg.
  assert (Hd1 : HostData.dry_run (st_host st1) = true) by congruence.
  specialize (Hreg Hd1).
  destruct (Host.register_result action out st1) as [[u|e|] st2]; cbn [snd] in Hreg |- *;
    destruct Hreg; split; congruence.
Qed.

Lemma offline_render_string (string : String.string) : offline (Host.render_string string).
Proof. unfold Host.render_string. offline_tac. Qed.

Lemma offline_check_remote_path_exists (path : Value) (dir : bool)
    (action : option Action.t) :
  offline (Host.check_remote_path_exists path dir action).
Proof.
  unfold Host.check_remote_path_exists. pose proof offline_run_ssh. offline_tac.
Qed.

Lemma offline_evaluate_expression (expression : string) (action : option Action.t) :
  offline (Host.evaluate_expression expression action).
Proof.
  unfold Host.evaluate_expression.
  pose proof offline_render_string. pose proof offline_check_remote_path_exists.
  offline_tac.
Qed.

Lemma offline_log_message (lines : list string) : offline (Host.log_message lines).
Proof.
  unfold Host.log_message. pose proof offline_evaluate_expression. offline_tac.
Qed.

Lemma offline_execute_mkdirs (action : Action.t) : offline (Host.execute_mkdirs action).
Proof.
  unfold Host.execute_mkdirs. pose proof offline_render_string. pose proof offline_run_ssh.
  offline_tac.
Qed.

Lemma offline_check_required_action_params (action : Action.t) (params : list string) :
  offline (Host.check_required_action_params action params).
Proof. unfold Host.check_required_action_params. offline_tac. Qed.

Lemma offline_check_required_action_extra_params (action : Action.t)
    (params : list string) :
  offline (Host.check_required_action_extra_params action params).
Proof. unfold Host.check_required_action_extra_params. offline_tac. Qed.

Lemma offline_extra_item (action : Action.t) (k : string) :
  offline (Host.extra_item action k).
Proof. unfold Host.extra_item. offline_tac. Qed.

Lemma offline_execute_stat (action : Action.t) (dir : bool) :
  offline (Host.execute_stat action dir).
Proof.
  unfold Host.execute_stat.
  pose proof offline_check_required_action_params.
  pose proof offline_check_required_action_extra_params.
  pose proof offline_extra_item. pose proof offline_run_ssh.
  offline_tac.
Qed.

Lemma offline_execute_copy (action : Action.t) : offline (Host.execute_copy action).
Proof.
  unfold Host.execute_copy.
  pose proof offline_check_required_action_extra_params.
  pose proof offline_extra_item. pose proof offline_run_rsync.
  offline_tac.
Qed.

Lemma offline_execute_command (action : Action.t) : offline (Host.execute_command action).
Proof. unfold Host.execute_command. pose proof offline_run_ssh. offline_tac. Qed.

Lemma offline_dispatch (action : Action.t) : offline (Host.dispatch action).
Proof.
  unfold Host.dispatch.
  pose proof offline_execute_command. pose proof offline_execute_mkdirs.
  pose proof offline_log_message. pose proof offline_execute_stat.
  pose proof offline_execute_copy.
  offline_tac.
Qed.

Lemma offline_guard (action : Action.t) : offline (Host.guard action).
Proof. unfold Host.guard. pose proof offline_evaluate_expression. offline_tac. Qed.

Lemma offline_dump (action : Action.t) : offline (Host.dump action).
Proof. unfold Host.dump. offline_tac. Qed.

(** [run_action] called with the dry-run flag leaves the remote side alone,
    whatever flag the host carried before. *)
Lemma run_action_offline (action : Action.t) (x c : bool) (st : State) :
  st_world (snd (Host.run_action action true x c st)) = st_world st.
Proof.
  rewrite run_action_unfold.
  pose proof offline_guard. pose proof offline_log_message. pose proof offline_dispatch.
  pose proof offline_dump.
  assert (Hq : offline ((if x then Host.dump action else ret tt) ;;;
                        skip <- Host.guard action ;;
                        if skip then Host.log_message ["skipped"] else Host.dispatch action))
    by offline_tac.
  now destruct (Hq (announced action true x c st) eq_refl).
Qed.
End OfflineHost.

Section DryRun.
Context `{Externals}.
Variable rich : bool.
Variable args : Args.
Hypothesis Hdry : args_dry_run args = true.

Lemma work_host_offline (action : Action.t) (h : HostData.t) (w : World)
    (lg : list Event) (st : State) :
  work_host rich args action h w lg = Some st -> st_world st = w.
Proof.
  unfold work_host. rewrite Hdry.
  destruct (HostData.errors h <=? 0); [| now intros [= <-]].
  pose proof (run_action_offline action (args_extra_debug args)
                (rich && negb (args_no_colors args))
                {| st_host := h; st_action := action; st_world := w; st_log := lg |}) as Hw.
  destruct (Host.run_action _ _ _ _ _) as [[u|e|] st1]; cbn in Hw;
    [now intros [= <-] | now intros [= <-] | discriminate].
Qed.

Lemma work_hosts_offline (action : Action.t) (hosts : list HostData.t) (w : World)
    (lg : list Event) (action' : Action.t) (r' : Run) :
  work_hosts rich args action hosts w lg = Some (action', r') -> run_world r' = w.
Proof.
  revert action w lg action' r'.
  induction hosts as [|h hosts IH]; intros action w lg action' r'; cbn [work_hosts].
  - now intros [= <- <-].
  - destruct (work_host rich args action h w lg) as [st|] eqn:Hstep; [| discriminate].
    destruct (work_hosts rich args (st_action st) hosts (st_world st) (st_log st))
      as [[a1 r1]|] eqn:Hrest; [| discriminate].
    intros [= <- <-]. cbn [run_world].
    rewrite (IH _ _ _ _ _ Hrest). exact (work_host_offline _ _ _ _ _ Hstep).
Qed.

(** X1.  A dry run never reaches the remote side: with the dry-run flag, the
    body of the loop of [work] gives back the remote side as it received it,
    whatever the action and the state of the host, and so does a whole run
    that ends. *)
Theorem work_dry_run_offline :
  (forall action h w lg st,
     work_host rich args action h w lg = Some st -> st_world st = w)
  /\ (forall actions r actions' r',
        work rich args actions r = Some (actions', r') -> run_world r' = run_world r).
Proof.
  split; [exact work_host_offline |].
  intros actions. induction actions as [|a rest IH]; intros r actions' r'; cbn [work].
  - now intros [= <- <-].
  - destruct (work_hosts rich args a (run_hosts r) (run_world r) (run_log r))
      as [[a' r1]|] eqn:Hone; [| discriminate].
    destruct (work rich args rest r1) as [[rest' r2]|] eqn:Hrest; [| discriminate].
    intros [= <- <-]. rewrite (IH _ _ _ Hrest). exact (work_hosts_offline _ _ _ _ _ _ Hone).
Qed.
End DryRun.

Lemma work_dry_run_offline_witness :
  let actions := [step "first" "true"; upload; stat_logs] in
  exists actions' r',
    work false dry_flags actions two_hosts = Some (actions', r')
    /\ HostData.errors <$> run_hosts r' = [1; 1]
    /\ run_world r' = run_world two_hosts.
Proof.
  intros actions.
  eassert (Hwork : work false dry_flags actions two_hosts
                   = Some (_, @mkRun (demo refusing_oracle [] 5) _ _ _)).
  { apply finished_run_eq; vm_compute; reflexivity. }
  refine (ex_intro _ _ (ex_intro _ _ (conj Hwork (conj _ _)))).
  - vm_compute. reflexivity.
  - exact (proj2 (work_dry_run_offline false dry_flags eq_refl) _ _ _ _ Hwork).
Defined.

(** ** More on the remote command builder and on [run_ssh] *)

(** X2.  Whatever the command (one string or a list), with or without the
    shell wrapper and the sudo prefix, the argument [exec_command] puts
    between the double quotes of the ssh line has no double quote that is
    not preceded by a backslash. *)
Theorem inner_command_quotes_escaped (command : Command) (become : bool)
    (become_user : string) (wrap_bash : bool) :
  quotes_escaped (SSHClient.inner_command command become become_user wrap_bash) = true.
Proof. unfold SSHClient.inner_command. cbv zeta. apply quotes_escaped_escape. Qed.

Section Registry.
Context `{Externals}.

Lemma run_remote_command_host (self : SSHClient.t) (line : string) (st : State) :
  st_host (snd (SSHClient._run_remote_command self line st)) = st_host st.
Proof.
  unfold SSHClient._run_remote_command, SSHClient.run_subprocess, bind, lift, log, ret.
  destruct (SSHClient.render_string self line) as [line'|e|]; cbn; try reflexivity.
  destruct (negb (SSHClient.dry_run self)); cbn; [| reflexivity].
  destruct (check_output line' (st_world st)) as [[out|out] w]; reflexivity.
Qed.

(** X3.  [run_ssh] writes to the host only on success and only under the
    action's [register]: when the command returns, [results[register]] is its
    output (nothing is stored when [register] is empty) and every other
    field of the host is as before; when it raises or never returns, the
    host is exactly as before. *)
Theorem run_ssh_registers (action : Action.t) (command : string) (silent : bool)
    (st : State) :
  match Host.run_ssh action command silent st with
  | (Ret out, st') =>
      st_host st'
      = if String.eqb (Action.register action) EmptyString then st_host st
        else HostData.set_result (Action.register action) (VStr out) (st_host st)
  | (Raise _, st') => st_host st' = st_host st
  | (Hang, st') => st_host st' = st_host st
  end.
Proof.
  unfold Host.run_ssh, SSHClient.exec_command, bind, get_self, ret.
  pose proof (run_remote_command_host (Host.client (st_host st) action silent)
                (SSHClient.remote_command (Host.client (st_host st) action silent)
                   (CmdStr command) (Action.become action) (Action.become_user action)
                   (Action.wrap_bash action)) st) as Hh.
  destruct (SSHClient._run_remote_command _ _ st) as [[out|e|] st1]; cbn [snd] in Hh;
    [| assumption | assumption].
  unfold Host.register_result.
  destruct (String.eqb (Action.register action) EmptyString); cbn; now rewrite Hh.
Qed.
End Registry.

(** ** More on the handlers *)

Section Handlers.
Context `{Externals}.

(** The loop of the [command] branch on a list of items. *)
Lemma execute_command_cons (action : Action.t) (item : string) (items : list string)
    (st : State) :
  Host.execute_command (with_items (item :: items) action) st
  = if is_command item then
      match Host.execute_command (with_items [item] action) st with
      | (Ret _, st') => Host.execute_command (with_items items action) st'
      | (Raise e, st') => (Raise e, st')
      | (Hang, st') => (Hang, st')
      end
    else Host.execute_command (with_items items action) st.
Proof.
  unfold Host.execute_command, is_command. cbn [Action.items with_items for_each].
  destruct (negb (Py.startswith "#" item)); unfold bind; cbv zeta.
  - change (Host.extra_get (with_items [item] action)) with (Host.extra_get action).
    change (Host.extra_get (with_items (item :: items) action)) with (Host.extra_get action).
    change (Host.extra_get (with_items items action)) with (Host.extra_get action).
    change (Host.run_ssh (with_items (item :: items) action))
      with (Host.run_ssh (with_items [item] action)).
    destruct (Host.run_ssh (with_items [item] action) _ false st) as [[out|e|] st1];
      reflexivity.
  - reflexivity.
Qed.

(** X4.  An item of a [command] action that starts with [#] is a comment:
    the handler behaves exactly as on the list of items without the
    comments, and with comments only it does nothing at all. *)
Theorem execute_command_skips_comments (action : Action.t) (st : State) :
  Host.execute_command action st
  = Host.execute_command (with_items (filter is_command (Action.items action)) action) st
  /\ (forallb (fun item => negb (is_command item)) (Action.items action) = true ->
      Host.execute_command action st = (Ret tt, st)).
Proof.
  assert (Hself : Host.execute_command action
                  = Host.execute_command (with_items (Action.items action) action))
    by now destruct action.
  rewrite Hself. clear Hself. generalize (Action.items action) as items.
  intros items. split.
  - revert st. induction items as [|item items IH]; intros st; [reflexivity |].
    rewrite (execute_command_cons action item items st).
    destruct (is_command item) eqn:Hc.
    + rewrite filter_cons_True by now rewrite Hc.
      rewrite (execute_command_cons action item (filter is_command items) st), Hc.
      destruct (Host.execute_command (with_items [item] action) st) as [[u|e|] st1];
        [apply IH | reflexivity | reflexivity].
    + rewrite filter_cons_False by now rewrite Hc. apply IH.
  - revert st. induction items as [|item items IH]; intros st; [reflexivity |].
    cbn [forallb]. intros [Hc Hrest]%andb_true_iff. apply negb_true_iff in Hc.
    rewrite execute_command_cons, Hc. now apply IH.
Qed.

(** X5.  [check_required_action_extra_params] returns, with nothing changed,
    when every listed key is in [extra]; otherwise it raises for the first
    listed key that is missing, naming it, with nothing changed either. *)
Theorem check_required_action_extra_params_first_missing (action : Action.t)
    (params : list string) (st : State) :
  (Forall (fun p => is_Some (Action.extra action !! p)) params ->
   Host.check_required_action_extra_params action params st = (Ret tt, st))
  /\ (forall pre p post,
        params = (pre ++ p :: post)%list ->
        Forall (fun p => is_Some (Action.extra action !! p)) pre ->
        Action.extra action !! p = None ->
        Host.check_required_action_extra_params action params st
        = (Raise (missing_extra p), st)).
Proof.
  unfold Host.check_required_action_extra_params. split.
  - induction 1 as [|p params [v Hp] _ IH]; [reflexivity |].
    cbn [for_each]. unfold bind. now rewrite Hp.
  - intros pre p post -> Hpre Hp. induction Hpre as [|q pre [v Hq] _ IH].
    + cbn [app for_each]. unfold bind. now rewrite Hp.
    + cbn [app for_each]. unfold bind. now rewrite Hq.
Qed.

(** X6.  [check_required_action_params] takes an attribute as present when
    its value is truthy: it returns when every listed attribute is, and
    raises for the first one whose value is falsy ([''], [0], [False], an
    empty list or mapping), naming it.  A name that is no field of [Action]
    is looked up in the class: what Python finds there counts as any other
    value, and a name it does not find raises [AttributeError].  The state is
    never changed. *)
Theorem check_required_action_params_first_falsy (action : Action.t)
    (params : list string) (st : State) :
  (Forall (fun p => Host.getattr_truthy action p = Some true) params ->
   Host.check_required_action_params action params st = (Ret tt, st))
  /\ (forall pre p post,
        params = (pre ++ p :: post)%list ->
        Forall (fun p => Host.getattr_truthy action p = Some true) pre ->
        (Host.getattr_truthy action p = Some false ->
         Host.check_required_action_params action params st
         = (Raise (missing_attribute p), st))
        /\ (Host.getattr_truthy action p = None ->
            exists e, exc_class e = AttributeError
                      /\ Host.check_required_action_params action params st
                         = (Raise e, st)))
  /\ (Host.getattr_truthy action "become" = Some (Action.become action)
      /\ Host.getattr_truthy action "timeout" = Some (negb (Action.timeout action =? 0))
      /\ Host.getattr_truthy action "items"
         = Some (negb (bool_decide (Action.items action = [])))
      /\ forall p, p ∉ field_names -> Host.getattr_truthy action p = class_attr p).
Proof.
  unfold Host.check_required_action_params. split_and!.
  - induction 1 as [|p params Hp _ IH]; [reflexivity |].
    cbn [for_each]. unfold bind. now rewrite Hp.
  - intros pre p post -> Hpre. split.
    + intros Hp. induction Hpre as [|q pre Hq _ IH].
      * cbn [app for_each]. unfold bind. now rewrite Hp.
      * cbn [app for_each]. unfold bind. now rewrite Hq.
    + intros Hp.
      exists (mkExc AttributeError ("'Action' object has no attribute '" +:+ p +:+ "'")).
      split; [| induction Hpre as [|q pre Hq _ IH]].
      * reflexivity.
      * cbn [app for_each]. unfold bind. rewrite Hp. reflexivity.
      * cbn [app for_each]. unfold bind. now rewrite Hq.
  - reflexivity.
  - reflexivity.
  - unfold Host.getattr_truthy.
    change (Action.attr_truthy action "items")
      with (Some (match Action.items action with [] => false | _ => true end)).
    now destruct (Action.items action).
  - intros p. unfold field_names. rewrite !not_elem_of_cons.
    intros (H1 & H2 & H3 & H4 & H5 & H6 & H7 & H8 & H9 & H10 & _).
    apply String.eqb_neq in H1, H2, H3, H4, H5, H6, H7, H8, H9, H10.
    unfold Host.getattr_truthy, Action.attr_truthy.
    now rewrite H1, H2, H3, H4, H5, H6, H7, H8, H9, H10.
Qed.
End Handlers.

Lemma check_required_action_params_first_falsy_witness :
  let st := demo_state silent_oracle [] 5 (host_with "web1" "10.0.0.1" ∅) in
  Host.check_required_action_params stat_logs ["register"; "__class__"] st = (Ret tt, st)
  /\ Host.check_required_action_params stat_logs ["register"; "timeout"; "type"] st
     = (Raise (missing_attribute "timeout"), st)
  /\ Host.check_required_action_params stat_logs ["__hash__"] st
     = (Raise (missing_attribute "__hash__"), st)
  /\ exists e, exc_class e = AttributeError
               /\ Host.check_required_action_params stat_logs ["register"; "path"] st
                  = (Raise e, st).
Proof.
  intros st.
  pose proof (check_required_action_params_first_falsy (H := demo silent_oracle [] 5))
    as Hcheck.
  split_and!.
  - apply (proj1 (Hcheck stat_logs _ st)). repeat constructor.
  - apply (proj1 (proj1 (proj2 (Hcheck stat_logs _ st)) ["register"] "timeout" ["type"]
                    eq_refl ltac:(repeat constructor))).
    reflexivity.
  - apply (proj1 (proj1 (proj2 (Hcheck stat_logs _ st)) [] "__hash__" []
                    eq_refl ltac:(constructor))).
    reflexivity.
  - apply (proj2 (proj1 (proj2 (Hcheck stat_logs _ st)) ["register"] "path" []
                    eq_refl ltac:(repeat constructor))).
    reflexivity.
Defined.

Section UnknownType.
Context `{Externals}.
Variable rich : bool.
Variable args : Args.

(** X7.  In a run without the debug dump, an action without guard whose type
    is none of the six known ones costs a host that is still live exactly one
    error: the loop of [work] enters [run_action], which stores the flags,
    logs its banner and raises [Unknown action type]; the error is logged,
    the counter goes up by one, and the remote side is not touched. *)
Theorem work_host_unknown_type (action : Action.t) (h : HostData.t) (w : World)
    (lg : list Event) :
  HostData.errors h <= 0 ->
  args_extra_debug args = false ->
  Action.when action = EmptyString ->
  Action.type action ∉ known_types ->
  work_host rich args action h w lg
  = Some (failed (args_traceback args) (unknown_type (Action.type action))
            (announced action (args_dry_run args) false
               (rich && negb (args_no_colors args)) (state_of h action w lg))).
Proof.
  intros He Hx Hw Ht. unfold work_host. rewrite Hx.
  replace (HostData.errors h <=? 0) with true by (symmetry; now apply Z.leb_le).
  change {| st_host := h; st_action := action; st_world := w; st_log := lg |}
    with (state_of h action w lg).
  rewrite run_action_proceeds.
  assert (Hg : Host.guard action
                 (announced action (args_dry_run args) false
                    (rich && negb (args_no_colors args)) (state_of h action w lg))
               = (Ret false, announced action (args_dry_run args) false
                    (rich && negb (args_no_colors args)) (state_of h action w lg))).
  { unfold Host.guard. now rewrite Hw. }
  rewrite (bind_ret _ _ _ _ _ Hg), (dispatch_unknown _ _ Ht). reflexivity.
Qed.

(** X18.  In a run with the debug dump, [run_action] ends right after its
    banner, for every action: [repr(action)] raises [NameError], since
    [action.py] uses [json] without importing it.  No guard is evaluated and
    no handler is entered; in the loop of [work] a host that is still live
    gets one error, which is logged, and the remote side is not touched. *)
Theorem work_host_extra_debug (action : Action.t) (h : HostData.t) (w : World)
    (lg : list Event) :
  HostData.errors h <= 0 ->
  args_extra_debug args = true ->
  let c := rich && negb (args_no_colors args) in
  let st1 := announced action (args_dry_run args) true c (state_of h action w lg) in
  Host.run_action action (args_dry_run args) true c (state_of h action w lg)
  = (Raise json_unbound, st1)
  /\ exc_class json_unbound = OtherError "NameError"
  /\ work_host rich args action h w lg = Some (failed (args_traceback args) json_unbound st1)
  /\ st_world st1 = w.
Proof.
  intros He Hx c st1. split_and!; [apply run_action_dump | reflexivity | | reflexivity].
  unfold work_host. rewrite Hx.
  replace (HostData.errors h <=? 0) with true by (symmetry; now apply Z.leb_le).
  change {| st_host := h; st_action := action; st_world := w; st_log := lg |}
    with (state_of h action w lg).
  fold c. now rewrite run_action_dump.
Qed.
End UnknownType.

Lemma work_host_unknown_type_witness :
  let renamed :=
    {| Action.title := "restart"; Action.type := "service"; Action.become := false;
       Action.become_user := EmptyString; Action.timeout := 0; Action.wrap_bash := true;
       Action.when := EmptyString; Action.register := EmptyString; Action.items := [];
       Action.extra := ∅ |} in
  exists st,
    work_host (H := demo silent_oracle [] 5) false no_flags renamed
      (host_with "web1" "10.0.0.1" ∅) [] [] = Some st
    /\ HostData.errors (st_host st) = 1
    /\ st_world st = []
    /\ st_log st = [EvBanner "web1" "restart"; EvError (unknown_type "service")].
Proof.
  intros renamed. eexists. split.
  - apply (work_host_unknown_type (H := demo silent_oracle [] 5) false no_flags renamed
             (host_with "web1" "10.0.0.1" ∅) [] []).
    + cbn. lia.
    + reflexivity.
    + reflexivity.
    + unfold known_types. rewrite !not_elem_of_cons. split_and!; try discriminate.
      apply not_elem_of_nil.
  - split_and!; reflexivity.
Defined.

Lemma work_host_extra_debug_witness :
  exists st,
    work_host (H := demo silent_oracle [] 5) false debug_flags (step "first" "true")
      (host_with "web1" "10.0.0.1" ∅) [] [] = Some st
    /\ HostData.errors (st_host st) = 1
    /\ st_world st = []
    /\ st_log st = [EvBanner "web1" "first"; EvError json_unbound].
Proof.
  eexists. split.
  - apply (work_host_extra_debug (H := demo silent_oracle [] 5) false debug_flags
             (step "first" "true") (host_with "web1" "10.0.0.1" ∅) [] []).
    + cbn. lia.
    + reflexivity.
  - split_and!; reflexivity.
Defined.

Section MessageLines.
Context `{Externals}.

(** X8.  [log_message] evaluates each line without an action object.  On a
    host that is not in dry-run mode, a line whose rendered text is a path
    check ([exists_dir(...)] and the like) therefore fails inside
    [check_remote_path_exists] with [AttributeError], before any command is
    built: nothing is sent, nothing is logged, the lines after it are not
    printed. *)
Theorem log_message_path_check (line text : string) (path : Value) (rest : list string)
    (st : State) :
  HostData.dry_run (st_host st) = false ->
  Host.render_string line st = (Ret text, st) ->
  py_eval (scope_of (st_host st) line None text) (inner_text_of text) = inr path ->
  Py.startswith "exists_dir(" text = true \/ Py.startswith "exists_file(" text = true
  \/ Py.startswith "not_exists_dir(" text = true
  \/ Py.startswith "not_exists_file(" text = true ->
  Host.log_message (line :: rest) st
  = (Raise (mkExc AttributeError "'NoneType' object has no attribute 'become'"), st).
Proof.
  intros Hd Hr He Hp.
  assert (Hcheck : forall dir,
             Host.check_remote_path_exists path dir None st
             = (Raise (mkExc AttributeError "'NoneType' object has no attribute 'become'"),
                st)).
  { intros dir. unfold Host.check_remote_path_exists, bind, get_self. now rewrite Hd. }
  assert (Harg : lift_sum (py_eval (scope_of (st_host st) line None text)
                             (inner_text_of text)) st = (Ret path, st))
    by (unfold lift_sum; now rewrite He).
  assert (Hev : Host.evaluate_expression line None st
                = (Raise (mkExc AttributeError
                            "'NoneType' object has no attribute 'become'"), st)).
  { rewrite (evaluate_expression_unfold _ _ _ _ Hr). cbv zeta.
    destruct Hp as [Hp | [Hp | [Hp | Hp]]].
    - replace (Py.startswith "results[" text) with false by (symmetry; excluded Hp).
      replace (Py.startswith "eval(" text) with false by (symmetry; excluded Hp).
      replace (Py.startswith "not_exists_dir(" text) with false by (symmetry; excluded Hp).
      rewrite Hp, (bind_ret _ _ _ _ _ Harg). apply bind_raise, Hcheck.
    - replace (Py.startswith "results[" text) with false by (symmetry; excluded Hp).
      replace (Py.startswith "eval(" text) with false by (symmetry; excluded Hp).
      replace (Py.startswith "not_exists_dir(" text) with false by (symmetry; excluded Hp).
      replace (Py.startswith "exists_dir(" text) with false by (symmetry; excluded Hp).
      replace (Py.startswith "not_exists_file(" text) with false by (symmetry; excluded Hp).
      rewrite Hp, (bind_ret _ _ _ _ _ Harg). apply bind_raise, Hcheck.
    - replace (Py.startswith "results[" text) with false by (symmetry; excluded Hp).
      replace (Py.startswith "eval(" text) with false by (symmetry; excluded Hp).
      rewrite Hp, (bind_ret _ _ _ _ _ Harg). apply bind_raise, Hcheck.
    - replace (Py.startswith "results[" text) with false by (symmetry; excluded Hp).
      replace (Py.startswith "eval(" text) with false by (symmetry; excluded Hp).
      replace (Py.startswith "not_exists_dir(" text) with false by (symmetry; excluded Hp).
      replace (Py.startswith "exists_dir(" text) with false by (symmetry; excluded Hp).
      rewrite Hp, (bind_ret _ _ _ _ _ Harg). apply bind_raise, Hcheck. }
  unfold Host.log_message. cbn [for_each].
  apply bind_raise. apply bind_raise. exact Hev.
Qed.
End MessageLines.

Lemma log_message_path_check_witness :
  let st := demo_state silent_oracle [] 5 (host_with "web1" "10.0.0.1" ∅) in
  Host.log_message ["exists_dir('/var/www')"; "done"] st
  = (Raise (mkExc AttributeError "'NoneType' object has no attribute 'become'"), st).
Proof.
  intros st.
  apply (log_message_path_check (H := demo silent_oracle [] 5)
           "exists_dir('/var/www')" "exists_dir('/var/www')" (VStr "/var/www") ["done"] st).
  - reflexivity.
  - run_compute.
  - vm_compute. reflexivity.
  - left. reflexivity.
Defined.

(** ** More on the stat handler *)

Section StatEdges.
Context `{Externals}.

(** In dry-run mode [run_ssh] logs the rendered line and an empty output,
    returns the empty string and registers it. *)
Lemma run_ssh_dry (action : Action.t) (command line : string) (silent : bool)
    (st : State) :
  HostData.dry_run (st_host st) = true ->
  SSHClient.render_string (Host.client (st_host st) action silent)
    (SSHClient.remote_command (Host.client (st_host st) action silent) (CmdStr command)
       (Action.become action) (Action.become_user action) (Action.wrap_bash action))
  = Ret line ->
  exists st',
    Host.run_ssh action command silent st = (Ret EmptyString, st')
    /\ st_host st'
       = (if String.eqb (Action.register action) EmptyString then st_host st
          else HostData.set_result (Action.register action) (VStr EmptyString) (st_host st))
    /\ st_world st' = st_world st.
Proof.
  intros Hd Hr.
  unfold Host.run_ssh, SSHClient.exec_command, SSHClient._run_remote_command, bind, get_self,
    lift.
  rewrite Hr. cbn [Host.client SSHClient.dry_run]. rewrite Hd. cbn [negb ret log].
  unfold Host.register_result.
  destruct (String.eqb (Action.register action) EmptyString); cbn; eexists; split_and!;
    reflexivity.
Qed.

(** X9.  In dry-run mode a stat action that passes its two checks always
    fails: both commands return the empty string without being run, the
    empty answer of the stat query has no [key:value] piece, and the handler
    raises [IndexError].  The remote side is untouched and [results[register]]
    is left holding the empty string. *)
Theorem execute_stat_dry_run (action : Action.t) (dir : bool) (path : Value)
    (line1 line2 : string) (st : State) :
  let action' := Action.set_wrap_bash false action in
  let sent (silent : bool) (command : string) :=
    SSHClient.render_string (Host.client (st_host st) action' silent)
      (SSHClient.remote_command (Host.client (st_host st) action' silent) (CmdStr command)
         (Action.become action) (Action.become_user action) false) in
  HostData.dry_run (st_host st) = true ->
  Action.register action <> EmptyString ->
  Action.extra action !! "path" = Some path ->
  sent true (Host.test_command dir path) = Ret line1 ->
  sent false (Host.stat_command path) = Ret line2 ->
  exists st',
    Host.execute_stat action dir st
    = (Raise (mkExc IndexError "list index out of range"), st')
    /\ HostData.results (st_host st') !! Action.register action = Some (VStr EmptyString)
    /\ st_world st' = st_world st.
Proof.
  intros action' sent Hd Hreg Hp H1 H2.
  rewrite (execute_stat_checked action dir path st Hreg Hp). fold action'.
  assert (Hne : String.eqb (Action.register action') EmptyString = false)
    by now apply String.eqb_neq.
  destruct (run_ssh_dry action' (Host.test_command dir path) line1 true (unwrapped st) Hd H1)
    as (st1 & Hrun1 & Hh1 & Hw1).
  rewrite Hne in Hh1.
  assert (Hd1 : HostData.dry_run (st_host st1) = true) by now rewrite Hh1.
  assert (H2' : SSHClient.render_string (Host.client (st_host st1) action' false)
                  (SSHClient.remote_command (Host.client (st_host st1) action' false)
                     (CmdStr (Host.stat_command path)) (Action.become action')
                     (Action.become_user action') (Action.wrap_bash action')) = Ret line2)
    by (rewrite Hh1; exact H2).
  destruct (run_ssh_dry action' (Host.stat_command path) line2 false st1 Hd1 H2')
    as (st2 & Hrun2 & Hh2 & Hw2).
  rewrite Hne in Hh2.
  exists st2. split_and!.
  - unfold bind at 1, try_except, bind at 1. rewrite Hrun1.
    unfold bind at 1. rewrite Hrun2. reflexivity.
  - rewrite Hh2. cbn. apply lookup_insert_eq.
  - now rewrite Hw2, Hw1.
Qed.

(** X10.  How one piece of the answer of the stat query is read: a piece
    [key:value] stores the stripped value under the key; when the value has
    a colon of its own only its part before that colon is stored; a piece
    without any colon, such as an empty answer, makes the parse raise
    [IndexError]. *)
Theorem parse_fields_piece (k v more t : string) (ts : list string)
    (acc : gmap string Value) :
  Py.find ":" k = -1 ->
  Py.find ":" v = -1 ->
  Py.find ":" t = -1 ->
  Host.parse_fields ((k +:+ ":" +:+ v) :: ts) acc
  = Host.parse_fields ts (<[k := VStr (Py.strip v)]> acc)
  /\ Host.parse_fields ((k +:+ ":" +:+ v +:+ ":" +:+ more) :: ts) acc
     = Host.parse_fields ts (<[k := VStr (Py.strip v)]> acc)
  /\ Host.parse_fields (t :: ts) acc = inl (mkExc IndexError "list index out of range")
  /\ Host.parse_response EmptyString = inl (mkExc IndexError "list index out of range").
Proof.
  intros Hk Hv Ht. split_and!.
  - cbn [Host.parse_fields]. change (":" +:+ v) with (String ":" v).
    now rewrite (split_app _ _ _ Hk), (split_absent _ _ Hv).
  - cbn [Host.parse_fields]. change (":" +:+ v +:+ ":" +:+ more) with (String ":" (v +:+ String ":" more)).
    rewrite (split_app _ _ _ Hk), (split_app _ _ _ Hv).
    now destruct (Py.split ":" more).
  - cbn [Host.parse_fields]. now rewrite (split_absent _ _ Ht).
  - reflexivity.
Qed.
End StatEdges.

Lemma execute_stat_dry_run_witness :
  let st := demo_state present_oracle [] 5 (dry (host_with "web1" "10.0.0.1" ∅)) in
  exists st',
    Host.execute_stat stat_logs true st
    = (Raise (mkExc IndexError "list index out of range"), st')
    /\ HostData.results (st_host st') !! "logs" = Some (VStr EmptyString)
    /\ st_world st' = [].
Proof.
  intros st.
  refine (execute_stat_dry_run (H := demo present_oracle [] 5) stat_logs true
            (VStr "/home/deploy/logs") _ _ st eq_refl _ _ eq_refl eq_refl).
  - discriminate.
  - vm_compute. reflexivity.
Defined.

Lemma parse_fields_piece_witness :
  Host.parse_fields ["Y" +:+ ":" +:+ "2023-07-06 00" +:+ ":" +:+ "37:06"] ∅
  = inr {[ "Y" := VStr "2023-07-06 00" ]}.
Proof.
  exact (proj1 (proj2 (parse_fields_piece "Y" "2023-07-06 00" "37:06" EmptyString [] ∅
                         eq_refl eq_refl eq_refl))).
Defined.

(** ** The log level and the merge of mappings *)

(** X11.  [verbosity_to_log_level] caps the verbosity from above only: 0
    gives WARNING, 1 gives INFO, 2 and everything larger give DEBUG; a
    negative verbosity is not capped but indexes the list from its end
    ([-1] gives DEBUG), and below [-3] the function raises [IndexError].
    With [--extra-debug], [main] asks for DEBUG whatever verbosity the
    command line allows. *)
Theorem verbosity_to_log_level_capped (verbosity : Z) :
  (0 <= verbosity ->
   verbosity_to_log_level verbosity
   = inr (if verbosity =? 0 then WARNING else if verbosity =? 1 then INFO else DEBUG))
  /\ (-3 <= verbosity < 0 ->
      verbosity_to_log_level verbosity
      = inr (if verbosity =? -3 then WARNING else if verbosity =? -2 then INFO else DEBUG))
  /\ (verbosity < -3 ->
      exists e, verbosity_to_log_level verbosity = inl e /\ exc_class e = IndexError)
  /\ (0 <= verbosity ->
      verbosity_to_log_level (main_verbosity true verbosity) = inr DEBUG).
Proof.
  unfold verbosity_to_log_level, main_verbosity. cbv zeta. cbn [length].
  change (Z.of_nat 3 - 1) with 2. split_and!.
  - intros Hv. assert (Hc : verbosity = 0 \/ verbosity = 1 \/ 2 <= verbosity) by lia.
    destruct Hc as [-> | [-> | Hc]]; [reflexivity | reflexivity |].
    rewrite Z.min_l by lia.
    replace (verbosity =? 0) with false by (symmetry; apply Z.eqb_neq; lia).
    replace (verbosity =? 1) with false by (symmetry; apply Z.eqb_neq; lia).
    reflexivity.
  - intros Hv. assert (Hc : verbosity = -3 \/ verbosity = -2 \/ verbosity = -1) by lia.
    destruct Hc as [-> | [-> | ->]]; reflexivity.
  - intros Hv. rewrite Z.min_r by lia. unfold py_getitem. cbn [length].
    replace (verbosity <? 0) with true by (symmetry; apply Z.ltb_lt; lia).
    replace (0 <=? verbosity + Z.of_nat 3) with false by (symmetry; apply Z.leb_gt; lia).
    destruct ((verbosity <? - 2 ^ 63) || (2 ^ 63 <=? verbosity));
      eexists; split; reflexivity.
  - intros Hv. cbn [andb]. destruct (verbosity <? 2) eqn:E; [reflexivity |].
    apply Z.ltb_ge in E. now rewrite Z.min_l by lia.
Qed.

Lemma verbosity_to_log_level_capped_witness :
  verbosity_to_log_level 7 = inr DEBUG /\ verbosity_to_log_level (-1) = inr DEBUG
  /\ exists e, verbosity_to_log_level (-4) = inl e /\ exc_class e = IndexError.
Proof.
  split_and!.
  - exact (proj1 (verbosity_to_log_level_capped 7) ltac:(lia)).
  - exact (proj1 (proj2 (verbosity_to_log_level_capped (-1))) ltac:(lia)).
  - exact (proj1 (proj2 (proj2 (verbosity_to_log_level_capped (-4)))) ltac:(lia)).
Defined.

Lemma merge_dicts_lookup {V} (d1 d2 : gmap string V) (k : string) :
  merge_dicts d1 d2 !! k = match d2 !! k with Some v => Some v | None => d1 !! k end.
Proof.
  unfold merge_dicts. rewrite lookup_union. destruct (d2 !! k), (d1 !! k); reflexivity.
Qed.

(** X12.  [merge_dicts]: a key of the second mapping has the second
    mapping's value, any other key the first mapping's; merging with the
    empty mapping on either side changes nothing, and merging in two steps
    from the left or from the right gives the same mapping. *)
Theorem merge_dicts_second_wins {V} (d1 d2 d3 : gmap string V) :
  (forall k, merge_dicts d1 d2 !! k
             = match d2 !! k with Some v => Some v | None => d1 !! k end)
  /\ merge_dicts d1 ∅ = d1
  /\ merge_dicts ∅ d1 = d1
  /\ merge_dicts (merge_dicts d1 d2) d3 = merge_dicts d1 (merge_dicts d2 d3).
Proof.
  split_and!; [apply merge_dicts_lookup | unfold merge_dicts .. ].
  - apply (left_id_L ∅ (∪)).
  - apply (right_id_L ∅ (∪)).
  - now rewrite (assoc_L (∪)).
Qed.

(** The example of the docstring of [merge_dicts]. *)
Example merge_dicts_docstring :
  merge_dicts (<[ "a" := 1 ]> {[ "b" := 2 ]}) (<[ "c" := 3 ]> {[ "a" := 100 ]})
  = <[ "a" := 100 ]> (<[ "b" := 2 ]> {[ "c" := 3 ]}).
Proof.
  apply map_eq. intros k. rewrite merge_dicts_lookup.
  destruct (decide (k = "a")) as [-> | Ha]; [reflexivity |].
  destruct (decide (k = "b")) as [-> | Hb]; [reflexivity |].
  destruct (decide (k = "c")) as [-> | Hc]; [reflexivity |].
  now rewrite !lookup_insert_ne, !lookup_singleton_ne by congruence.
Qed.

(** ** The loaders *)

Lemma intersection_nonempty (tags : list string) (j : Json) (common : list string) :
  intersection tags j = inr common ->
  common <> [] <-> exists t, t ∈ tags /\ json_contains t j = inr true.
Proof.
  revert common. induction tags as [|t tags IH]; intros common; cbn [intersection].
  - intros [= <-]. split; [done |]. intros (t & Ht & _). now apply elem_of_nil in Ht.
  - destruct (json_contains t j) as [e|b] eqn:Hc; [discriminate |].
    destruct (intersection tags j) as [e|l]; [discriminate |].
    intros [= <-]. specialize (IH l eq_refl). split.
    + destruct b.
      * intros _. exists t. split; [apply list_elem_of_here | assumption].
      * intros Hl. apply IH in Hl as (t' & Ht' & Hc'). exists t'.
        split; [now apply list_elem_of_further | assumption].
    + intros (t' & Ht' & Hc'). destruct b; [discriminate |].
      apply elem_of_cons in Ht' as [-> | Ht']; [congruence |].
      apply IH. now exists t'.
Qed.

Lemma tagged_spec (tags : list string) (data l : list (gmap string Json)) :
  tagged tags data = inr l ->
  sublist l data
  /\ forall a, a ∈ l <-> a ∈ data /\ exists t, t ∈ tags
                        /\ json_contains t (json_get a "tags" (JList [])) = inr true.
Proof.
  revert l. induction data as [|d data IH]; intros l; cbn [tagged].
  - intros [= <-]. split; [constructor |]. intros a. split.
    + intros Ha. now apply elem_of_nil in Ha.
    + intros [Ha _]. now apply elem_of_nil in Ha.
  - destruct (intersection tags (json_get d "tags" (JList []))) as [e|common] eqn:Hi;
      [discriminate |].
    destruct (tagged tags data) as [e|l'] eqn:Ht; [discriminate |].
    destruct (IH l' eq_refl) as [Hsub Hmem].
    pose proof (intersection_nonempty _ _ _ Hi) as Hne.
    intros [= <-]. destruct common as [|c common].
    + split; [now apply sublist_cons |]. intros a. rewrite Hmem, elem_of_cons. split.
      * intros [Ha Hex]. split; [now right | assumption].
      * intros [[-> | Ha] Hex]; [| now split]. apply Hne in Hex. congruence.
    + split; [now apply sublist_skip |]. intros a. rewrite !elem_of_cons, Hmem. split.
      * intros [-> | [Ha Hex]]; [| split; [now right | assumption]].
        split; [now left |]. now apply Hne.
      * intros [[-> | Ha] Hex]; [now left | right; now split].
Qed.

(** X13.  What [load_actions] keeps of the actions file.  The kept entries
    are in the order of the file, and none of them is disabled.  Without
    [--tags] they are all the entries that are not disabled; with [--tags]
    an entry is kept exactly when it is not disabled and one of the given
    tags is in its [tags], so an entry without a [tags] key is dropped. *)
Theorem selected_actions_spec (data l : list (gmap string Json)) (tags : list string) :
  selected_actions data tags = inr l ->
  sublist l data
  /\ Forall (fun a => enabled a = true) l
  /\ (tags = [] -> l = List.filter enabled data)
  /\ (tags <> [] ->
      forall a, a ∈ l <-> a ∈ data /\ enabled a = true
                          /\ exists t, t ∈ tags
                               /\ json_contains t (json_get a "tags" (JList [])) = inr true)
  /\ (tags <> [] -> forall a, a ∈ l -> is_Some (a !! "tags")).
Proof.
  unfold selected_actions. cbv zeta. intros Hsel.
  change (fun a : gmap string Json =>
            negb (json_truthy (json_get a "disabled" (JBool false)))) with enabled in Hsel.
  set (keep := enabled) in *.
  assert (Hfsub : sublist (List.filter keep data) data).
  { clear. induction data as [|d data IH]; [constructor |]. cbn [List.filter].
    destruct (keep d); [now apply sublist_skip | now apply sublist_cons]. }
  assert (Hfmem : forall a, a ∈ List.filter keep data <-> a ∈ data /\ keep a = true).
  { intros a. rewrite !list_elem_of_In. apply List.filter_In. }
  destruct tags as [|t tags].
  - injection Hsel as <-. split_and!; [assumption | | reflexivity | done | done].
    apply Forall_forall. intros a Ha. now apply Hfmem in Ha.
  - destruct (tagged_spec _ _ _ Hsel) as [Hsub Hmem].
    assert (Hall : forall a, a ∈ l <-> a ∈ data /\ keep a = true
                     /\ exists t', t' ∈ t :: tags
                          /\ json_contains t' (json_get a "tags" (JList [])) = inr true).
    { intros a. rewrite Hmem, Hfmem. tauto. }
    split_and!.
    + now transitivity (List.filter keep data).
    + apply Forall_forall. intros a Ha. now apply Hall in Ha.
    + discriminate.
    + intros _. exact Hall.
    + intros _ a Ha. apply Hall in Ha as (_ & _ & t' & _ & Hc).
      unfold json_get in Hc. destruct (a !! "tags"); [eauto | discriminate].
Qed.

Lemma selected_actions_spec_witness :
  selected_actions sample_actions ["db"]
  = inr [<[ "title" := JStr "restart" ]> {[ "tags" := JList [JStr "db"; JStr "app"] ]}]
  /\ sublist [<[ "title" := JStr "restart" ]> {[ "tags" := JList [JStr "db"; JStr "app"] ]}]
       sample_actions.
Proof.
  assert (Hsel : selected_actions sample_actions ["db"]
                 = inr [<[ "title" := JStr "restart" ]>
                          {[ "tags" := JList [JStr "db"; JStr "app"] ]}])
    by (vm_compute; reflexivity).
  split; [exact Hsel |]. exact (proj1 (selected_actions_spec _ _ _ Hsel)).
Defined.

Lemma filter_sublist {A} (f : A -> bool) (l : list A) : sublist (List.filter f l) l.
Proof.
  induction l as [|x l IH]; [constructor |]. cbn [List.filter].
  destruct (f x); [now apply sublist_skip | now apply sublist_cons].
Qed.

Lemma sublist_fmap {A B} (f : A -> B) (l k : list A) :
  sublist l k -> sublist (f <$> l) (f <$> k).
Proof.
  induction 1 as [|x l k _ IH|x l k _ IH]; [constructor | |].
  - rewrite !fmap_cons. now apply sublist_skip.
  - rewrite fmap_cons. now apply sublist_cons.
Qed.

Lemma filter_elem_of {A} (f : A -> bool) (l : list A) (x : A) :
  x ∈ List.filter f l <-> x ∈ l /\ f x = true.
Proof. rewrite !list_elem_of_In. apply List.filter_In. Qed.

Lemma first_unknown_none (hosts keys : list string) :
  first_unknown hosts keys = None <-> forall h, h ∈ hosts -> h ∈ keys.
Proof.
  induction hosts as [|h hosts IH]; cbn [first_unknown].
  - split; [| done]. intros _ h Hh. now apply elem_of_nil in Hh.
  - destruct (bool_decide (h ∈ keys)) eqn:Hk.
    + apply bool_decide_eq_true in Hk. rewrite IH. split.
      * intros Hall h' [-> | Hh']%elem_of_cons; [assumption | now apply Hall].
      * intros Hall h' Hh'. apply Hall. now apply list_elem_of_further.
    + apply bool_decide_eq_false in Hk. split; [discriminate |].
      intros Hall. exfalso. apply Hk, Hall, list_elem_of_here.
Qed.

Lemma first_unknown_some (hosts keys : list string) (h : string) :
  first_unknown hosts keys = Some h -> h ∈ hosts /\ h ∉ keys.
Proof.
  induction hosts as [|h0 hosts IH]; cbn [first_unknown]; [discriminate |].
  destruct (bool_decide (h0 ∈ keys)) eqn:Hk.
  - intros Hf. destruct (IH Hf). split; [now apply list_elem_of_further | assumption].
  - apply bool_decide_eq_false in Hk. intros [= <-]. split; [apply list_elem_of_here | assumption].
Qed.

(** X14.  What [load_hosts] keeps of the hosts file.  The kept entries are
    in the order of the file, none is disabled, and their keys are distinct
    when the keys of the file are (the name of a host is its key unless the
    entry has a [name] of its own).  With [*] among the requested names they
    are all the hosts that are not disabled; otherwise they are exactly the
    requested ones, and a requested name that is not a key of the file, or
    is the key of a disabled host only, ends the load with [Unknown host]. *)
Theorem selected_hosts_spec (data : list (string * gmap string Json))
    (hosts : list string) :
  (forall l,
     selected_hosts data hosts = inr l ->
     sublist l data
     /\ Forall (fun kv => enabled kv.2 = true) l
     /\ (NoDup data.*1 -> NoDup l.*1)
     /\ ("*" ∈ hosts -> l = List.filter (fun kv => enabled kv.2) data)
     /\ ("*" ∉ hosts ->
         (forall h, h ∈ hosts -> h ∈ l.*1) /\ (forall h, h ∈ l.*1 -> h ∈ hosts)))
  /\ (forall h,
        "*" ∉ hosts -> h ∈ hosts ->
        (forall v, (h, v) ∈ data -> enabled v = false) ->
        exists h', h' ∈ hosts
                   /\ selected_hosts data hosts
                      = inl (mkExc Exception_
                               ("Unknown host " +:+ dquote +:+ h' +:+ dquote))).
Proof.
  unfold selected_hosts. cbv zeta.
  change (fun kv : string * gmap string Json =>
            negb (json_truthy (json_get kv.2 "disabled" (JBool false))))
    with (fun kv : string * gmap string Json => enabled kv.2).
  set (live := List.filter (fun kv : string * gmap string Json => enabled kv.2) data).
  assert (Hlive : sublist live data) by apply filter_sublist.
  change (map fst live) with (live.*1).
  split.
  - intros l. destruct (bool_decide ("*" ∈ hosts)) eqn:Hstar.
    + apply bool_decide_eq_true in Hstar. intros [= <-]. split_and!.
      * assumption.
      * apply Forall_forall. intros kv Hkv. now apply filter_elem_of in Hkv.
      * intros Hnd. apply (sublist_NoDup live.*1 data.*1); [exact Hnd | now apply sublist_fmap].
      * reflexivity.
      * done.
    + apply bool_decide_eq_false in Hstar.
      destruct (first_unknown hosts live.*1) as [h'|] eqn:Hf; [discriminate |].
      intros [= <-].
      assert (Hsub : sublist (List.filter (fun kv => bool_decide (kv.1 ∈ hosts)) live) live)
        by apply filter_sublist.
      split_and!.
      * now transitivity live.
      * apply Forall_forall. intros kv Hkv. apply filter_elem_of in Hkv as [Hkv _].
        now apply filter_elem_of in Hkv.
      * intros Hnd. apply (sublist_NoDup _ data.*1); [exact Hnd |].
        apply sublist_fmap. now transitivity live.
      * done.
      * intros _. split.
        -- intros h Hh. pose proof (proj1 (first_unknown_none _ _) Hf h Hh) as Hk.
           apply list_elem_of_fmap in Hk as ([k v] & -> & Hkv).
           apply list_elem_of_fmap. exists (k, v). split; [reflexivity |].
           apply filter_elem_of. split; [assumption |]. now apply bool_decide_eq_true.
        -- intros h Hh. apply list_elem_of_fmap in Hh as ([k v] & -> & Hkv).
           apply filter_elem_of in Hkv as [_ Hk]. now apply bool_decide_eq_true in Hk.
  - intros h Hstar Hh Hoff. rewrite bool_decide_eq_false_2 by assumption.
    destruct (first_unknown hosts live.*1) as [h'|] eqn:Hf.
    + destruct (first_unknown_some _ _ _ Hf) as [Hin _]. now exists h'.
    + exfalso. pose proof (proj1 (first_unknown_none _ _) Hf h Hh) as Hk.
      apply list_elem_of_fmap in Hk as ([k v] & -> & Hkv).
      apply filter_elem_of in Hkv as [Hkv Hen]. cbn in Hen.
      rewrite (Hoff v Hkv) in Hen. discriminate.
Qed.

Lemma selected_hosts_spec_witness :
  selected_hosts sample_hosts ["db1"; "web1"]
  = inr [("web1", {[ "address" := JStr "10.0.0.1" ]});
         ("db1", <[ "address" := JStr "10.0.0.3" ]>
                   {[ "vars" := JObj {[ "user" := JStr "postgres" ]} ]})]
  /\ exists h', h' ∈ ["web2"]
       /\ selected_hosts sample_hosts ["web2"]
          = inl (mkExc Exception_ ("Unknown host " +:+ dquote +:+ h' +:+ dquote)).
Proof.
  split; [vm_compute; reflexivity |].
  apply (proj2 (selected_hosts_spec sample_hosts ["web2"]) "web2").
  - rewrite elem_of_cons, elem_of_nil. intros [Heq | []]. discriminate.
  - apply list_elem_of_here.
  - intros v. unfold sample_hosts. rewrite !elem_of_cons, elem_of_nil.
    intros [Heq | [Heq | [Heq | []]]]; try discriminate.
    injection Heq as ->. vm_compute. reflexivity.
Defined.

(** X15.  The keyword arguments [load_hosts] builds for one host.  When the
    [vars] of the entry are a mapping (or absent), the context holds every
    host variable with the host's value and every other global variable
    with the global value; [disabled] and [vars] are not handed on; and the
    name is the key of the entry unless the entry has a [name] of its own,
    which then wins. *)
Theorem host_params_spec (vars : gmap string Json) (files_foldername k : string)
    (v host_vars : gmap string Json) :
  json_get v "vars" (JObj ∅) = JObj host_vars ->
  exists params,
    host_params vars files_foldername k v = inr params
    /\ params !! "disabled" = None
    /\ params !! "vars" = None
    /\ params !! "name" = Some (json_get v "name" (JStr k))
    /\ (v !! "context" = None ->
        exists context,
          params !! "context" = Some (JObj context)
          /\ forall x, context !! x
                       = match host_vars !! x with
                         | Some j => Some j
                         | None => vars !! x
                         end)
    /\ (forall x, x <> "disabled" -> x <> "vars" -> is_Some (v !! x) ->
                  params !! x = v !! x).
Proof.
  intros Hv. unfold host_params. cbv zeta.
  assert (Hget : json_get (delete "disabled" v) "vars" (JObj ∅) = JObj host_vars).
  { unfold json_get in *. now rewrite lookup_delete_ne by discriminate. }
  rewrite Hget. eexists. split; [reflexivity |].
  assert (Hdel : forall x, x <> "disabled" -> x <> "vars" ->
                           delete "vars" (delete "disabled" v) !! x = v !! x).
  { intros x H1 H2. now rewrite !lookup_delete_ne by congruence. }
  split_and!.
  - rewrite merge_dicts_lookup, lookup_delete_ne, lookup_delete_eq by discriminate.
    now rewrite !lookup_insert_ne, lookup_singleton_ne by discriminate.
  - rewrite merge_dicts_lookup, lookup_delete_eq.
    now rewrite !lookup_insert_ne, lookup_singleton_ne by discriminate.
  - rewrite merge_dicts_lookup, Hdel by discriminate. unfold json_get.
    destruct (v !! "name"); [reflexivity | apply lookup_insert_eq].
  - intros Hc. eexists. split.
    + rewrite merge_dicts_lookup, Hdel, Hc by discriminate.
      rewrite !lookup_insert_ne by discriminate. apply lookup_singleton_eq.
    + intros x. apply merge_dicts_lookup.
  - intros x H1 H2 [j Hx]. rewrite merge_dicts_lookup, Hdel by assumption. now rewrite Hx.
Qed.

Lemma host_params_spec_witness :
  let entry : gmap string Json :=
    <[ "address" := JStr "10.0.0.3" ]> {[ "vars" := JObj {[ "user" := JStr "postgres" ]} ]} in
  exists params,
    host_params {[ "user" := JStr "deploy" ]} "files" "db1" entry = inr params
    /\ params !! "name" = Some (JStr "db1")
    /\ params !! "address" = Some (JStr "10.0.0.3")
    /\ params !! "vars" = None.
Proof.
  intros entry.
  assert (Hvars : json_get entry "vars" (JObj ∅) = JObj {[ "user" := JStr "postgres" ]})
    by (vm_compute; reflexivity).
  destruct (host_params_spec {[ "user" := JStr "deploy" ]} "files" "db1" entry _ Hvars)
    as (params & Hp & _ & Hnovars & Hname & _ & Hrest).
  exists params. split_and!; [exact Hp | | | exact Hnovars].
  - rewrite Hname. vm_compute. reflexivity.
  - rewrite Hrest; [vm_compute; reflexivity | discriminate | discriminate |].
    exists (JStr "10.0.0.3"). vm_compute. reflexivity.
Defined.

(** ** Path checks on a live host, and plain messages *)

Section Online.
Context `{Externals}.

Lemma run_ssh_unregistered (action : Action.t) (command : string) (silent : bool)
    (st : State) :
  Action.register action = EmptyString ->
  st_host (snd (Host.run_ssh action command silent st)) = st_host st.
Proof.
  intros Hr. unfold Host.run_ssh, SSHClient.exec_command, bind, get_self, ret.
  pose proof (run_remote_command_host (Host.client (st_host st) action silent)
                (SSHClient.remote_command (Host.client (st_host st) action silent)
                   (CmdStr command) (Action.become action) (Action.become_user action)
                   (Action.wrap_bash action)) st) as Hh.
  destruct (SSHClient._run_remote_command _ _ st) as [[out|e|] st1]; cbn [snd] in Hh |- *;
    [| assumption | assumption].
  unfold Host.register_result. now rewrite Hr.
Qed.

(** X16.  On a host that is not in dry-run mode, [check_remote_path_exists]
    sends one test, always through the shell wrapper and with the privilege
    elevation of the action: it answers [True] when the test returns and
    [False] when it fails with [CalledProcessError], logs which, and lets any
    other exception through.  Whatever the outcome, the host object is left
    as it was: the test registers nothing. *)
Theorem check_remote_path_exists_online (path : Value) (dir : bool) (action : Action.t)
    (st : State) :
  HostData.dry_run (st_host st) = false ->
  match Host.run_ssh (probe_action action) (Host.test_command dir path) true st with
  | (Ret _, st1) =>
      Host.check_remote_path_exists path dir (Some action) st
      = (Ret true, logged (EvFound dir (py_str path) true) st1)
  | (Raise e, st1) =>
      Host.check_remote_path_exists path dir (Some action) st
      = if bool_decide (exc_class e = CalledProcessError)
        then (Ret false, logged (EvFound dir (py_str path) false) st1)
        else (Raise e, st1)
  | (Hang, st1) =>
      Host.check_remote_path_exists path dir (Some action) st = (Hang, st1)
  end
  /\ st_host (snd (Host.check_remote_path_exists path dir (Some action) st)) = st_host st.
Proof.
  intros Hd.
  pose proof (run_ssh_unregistered (probe_action action) (Host.test_command dir path) true st
                eq_refl) as Hh.
  unfold Host.check_remote_path_exists, bind, get_self, try_except, ret, log, logged.
  cbn beta. rewrite Hd. fold (probe_action action).
  destruct (Host.run_ssh (probe_action action) (Host.test_command dir path) true st)
    as [[out|e|] st1]; cbn [snd] in Hh.
  - split; [reflexivity | exact Hh].
  - destruct (bool_decide (exc_class e = CalledProcessError)); split;
      [reflexivity | exact Hh | reflexivity | exact Hh].
  - split; [reflexivity | exact Hh].
Qed.

(** A loop whose first pass returns goes on with the rest in the state that
    pass left. *)
Lemma for_each_first {A} (body : A -> M unit) (x : A) (l : list A) (st st' : State) :
  for_each [x] body st = (Ret tt, st') -> for_each (x :: l) body st = for_each l body st'.
Proof.
  cbn [for_each]. unfold bind, ret.
  destruct (body x st) as [[[]|e|] st1]; [| discriminate | discriminate].
  now intros [= ->].
Qed.

(** X17.  [log_message] on lines that are plain text (no placeholder, none
    of the known calls): every line is logged, stripped of the white space
    around it, in the order given, and nothing else changes.  On a host with
    the colour flag each line is logged as a rich text between [[yellow]] and
    [[/yellow]], on the others as it is. *)
Theorem log_message_plain_lines (lines : list string) (st : State) :
  (0 < patience)%nat ->
  Forall (plain_line (HostData.context (st_host st))) lines ->
  Host.log_message lines st
  = (Ret tt,
     logged_all (map (fun line => message_event (HostData.colorize (st_host st))
                                    (Py.strip line)) lines) st).
Proof.
  intros Hp Hall. revert st Hall. induction lines as [|line lines IH]; intros st Hall.
  - unfold Host.log_message, logged_all. cbn. rewrite app_nil_r. now destruct st.
  - apply Forall_cons in Hall as [[Hj Hpre] Hall].
    cbn [forallb] in Hpre. rewrite !andb_true_iff, !negb_true_iff in Hpre.
    destruct Hpre as (H1 & H2 & H3 & H4 & H5 & H6 & _).
    pose proof (log_message_plain line st Hj Hp H1 H2 H3 H4 H5 H6) as Hone.
    unfold Host.log_message in *.
    rewrite (for_each_first _ _ _ _ _ Hone).
    rewrite (IH (logged (message_event (HostData.colorize (st_host st)) (Py.strip line)) st)
               Hall).
    unfold logged_all, logged. cbn. now rewrite <- app_assoc.
Qed.
End Online.

Lemma check_remote_path_exists_online_witness :
  let st := demo_state failing_oracle [] 5 (host_with "web1" "10.0.0.1" ∅) in
  fst (Host.check_remote_path_exists (VStr "/srv") true (Some stat_logs) st) = Ret false
  /\ st_host (snd (Host.check_remote_path_exists (VStr "/srv") true (Some stat_logs) st))
     = st_host st.
Proof.
  intros st. split; [vm_compute; reflexivity |].
  exact (proj2 (check_remote_path_exists_online (H := demo failing_oracle [] 5)
                  (VStr "/srv") true stat_logs st eq_refl)).
Defined.

Lemma log_message_plain_lines_witness :
  let st := demo_state silent_oracle [] 5 (host_with "web1" "10.0.0.1" ∅) in
  let colour := demo_state silent_oracle [] 5
                  (HostData.set_flags false false true (host_with "web1" "10.0.0.1" ∅)) in
  Host.log_message ["  deploying  "; "done"] st
  = (Ret tt, logged_all [EvMessage "deploying"; EvMessage "done"] st)
  /\ Host.log_message ["  deploying  "; "done"] colour
     = (Ret tt, logged_all [EvMarkup "[yellow]deploying[/yellow]";
                            EvMarkup "[yellow]done[/yellow]"] colour).
Proof.
  intros st colour. split.
  - apply (log_message_plain_lines (H := demo silent_oracle [] 5)
             ["  deploying  "; "done"] st).
    + cbn. lia.
    + repeat constructor.
  - apply (log_message_plain_lines (H := demo silent_oracle [] 5)
             ["  deploying  "; "done"] colour).
    + cbn. lia.
    + repeat constructor.
Defined.
